(** * OCC -> SOC crosswalk builders: a shallow embedding and its properties

    The development follows the Python scripts under [src/python]:

    - [build_cps_occ_to_soc_autodetect.py]  (module [Autodetect] below),
    - [build_occ_soc_from_2018_xwalk.py]    (module [Xwalk2018]),
    - [build_cps_occ_to_soc_from_2018_file.py] (module [From2018File]).

    Conventions of the embedding.

    - A Python [str] is a [string]; its characters are the code points
      0..255 ([ascii]).  On that range [\d] is exactly [0-9] and
      [str.isspace] / [\s] is 9..13, 28..31, 32, 133 and 160.
    - A cell read with [dtype=str] is a [str] or NaN: [option string].
    - A pandas Series is the list of its cells in row order; a DataFrame is
      its column labels and its rows.
    - Scores are the exact quotients [good / len(sample)] in [Q]; the
      binary64 rounding of the quotient, of the name bonus and of the product
      of two scores is not represented.
    - What a run prints on [stderr] and writes to disk is the list of its
      events, oldest first; an exception ends the run and keeps the events
      before it. *)

From Stdlib Require Import String Ascii List ZArith QArith Bool Lia Arith.
From Stdlib Require Import DecimalString Sorting.Sorted.
Import ListNotations.

Open Scope string_scope.
Open Scope Z_scope.

(** ** Characters and Python string primitives *)

Module PyStr.

Definition code (c : ascii) : nat := nat_of_ascii c.

Definition between (lo hi : nat) (c : ascii) : bool :=
  (Nat.leb lo (code c) && Nat.leb (code c) hi)%bool.

(** [\d] on code points below 256. *)
Definition is_digit (c : ascii) : bool := between 48 57 c.

(** The whitespace that the C-level number parsers skip ([float], [int]):
    ASCII [Py_ISSPACE], and the non-ASCII spaces they first turn into [' ']. *)
Definition is_cspace (c : ascii) : bool :=
  (between 9 13 c || Nat.eqb (code c) 32 || Nat.eqb (code c) 133
   || Nat.eqb (code c) 160)%bool.

(** [str.isspace], used by [str.strip] and by [\s]: the above and the
    separators 28..31. *)
Definition is_space (c : ascii) : bool := (is_cspace c || between 28 31 c)%bool.

Definition is_empty (s : string) : bool :=
  match s with EmptyString => true | String _ _ => false end.

Fixpoint ltrim (p : ascii -> bool) (s : string) : string :=
  match s with
  | EmptyString => EmptyString
  | String c r => if p c then ltrim p r else s
  end.

Fixpoint rtrim (p : ascii -> bool) (s : string) : string :=
  match s with
  | EmptyString => EmptyString
  | String c r =>
      let r' := rtrim p r in
      if (p c && is_empty r')%bool then EmptyString else String c r'
  end.

Definition trim (p : ascii -> bool) (s : string) : string := rtrim p (ltrim p s).

(** [s.strip()] *)
Definition strip (s : string) : string := trim is_space s.

Fixpoint str_exists (p : ascii -> bool) (s : string) : bool :=
  match s with
  | EmptyString => false
  | String c r => (p c || str_exists p r)%bool
  end.

Fixpoint str_forall (p : ascii -> bool) (s : string) : bool :=
  match s with
  | EmptyString => true
  | String c r => (p c && str_forall p r)%bool
  end.

Fixpoint str_filter (p : ascii -> bool) (s : string) : string :=
  match s with
  | EmptyString => EmptyString
  | String c r => if p c then String c (str_filter p r) else str_filter p r
  end.

(** [s[:n]] and [s[n:]] for [n >= 0]. *)
Fixpoint take (n : nat) (s : string) : string :=
  match n, s with
  | S k, String c r => String c (take k r)
  | _, _ => EmptyString
  end.

Fixpoint drop (n : nat) (s : string) : string :=
  match n, s with
  | S k, String _ r => drop k r
  | _, _ => s
  end.

(** [s.endswith(t)] *)
Definition endswith (s t : string) : bool :=
  String.eqb (drop (String.length s - String.length t) s) t
  && Nat.leb (String.length t) (String.length s).

(** [k in t] for strings. *)
Fixpoint contains (k t : string) : bool :=
  (String.prefix k t
   || match t with EmptyString => false | String _ r => contains k r end)%bool.

(** [str(n)] for an [int]. *)
Definition str_of_int (n : Z) : string := NilZero.string_of_int (Z.to_int n).

Fixpoint zeros (n : nat) : string :=
  match n with O => EmptyString | S k => String "0" (zeros k) end.

(** [s.zfill(w)] on a string without sign. *)
Definition zfill (w : nat) (s : string) : string :=
  zeros (w - String.length s) ++ s.

(** [f"{n:04d}"]: sign-aware zero padding to width 4. *)
Definition fmt_04d (n : Z) : string :=
  if n <? 0 then String "-" (zfill 3 (str_of_int (- n)))
  else zfill 4 (str_of_int n).

Definition digit_val (c : ascii) : Z := Z.of_nat (code c - 48).

(** Value of a run of decimal digits, most significant first. *)
Fixpoint digits_val (acc : Z) (s : string) : Z :=
  match s with
  | EmptyString => acc
  | String c r => digits_val (10 * acc + digit_val c) r
  end.

(** The maximal prefix of characters satisfying [p], and the rest. *)
Fixpoint span (p : ascii -> bool) (s : string) : string * string :=
  match s with
  | EmptyString => (EmptyString, EmptyString)
  | String c r =>
      if p c then let '(a, b) := span p r in (String c a, b)
      else (EmptyString, s)
  end.

(** *** [int(float(s))]

    Outcome of [int(float(s))] for a string [s] that, apart from
    surrounding whitespace, is made of digits and dots; these are the only
    strings the callers below pass, being guarded by the [[^\d\.]] test.

    - [FloatErr]: [float] raises [ValueError];
    - [FloatBig]: the integer part is above 9999, so the result is an
      integer above 9999 or [int] raises [OverflowError] on [inf];
    - [FloatInt n]: the result is [n].

    [float] rounds to the nearest binary64 (ties to even), so a fraction
    within half an ulp of the next integer is parsed as that integer:
    [int(float("12.99999999999999999")) = 13]. *)
Inductive float_int : Type :=
  | FloatErr
  | FloatBig
  | FloatInt (n : Z).

(** [rounds_up i f]: does [i + 0.f] round to the double [i + 1]?  With
    [N = i + 1] and [k = floor(log2 N)], the doubles just below [N] are
    spaced by [2^(k-52)] (by [2^(k-53)] when [N = 2^k]); the value rounds to
    [N] when its distance to [N] is at most half of that spacing. *)
Definition rounds_up (i : Z) (f : string) : bool :=
  let N := i + 1 in
  let k := Z.log2 N in
  let e := if N =? 2 ^ k then 54 - k else 53 - k in
  let m := 10 ^ Z.of_nat (String.length f) in
  (m - digits_val 0 f) * 2 ^ e <=? m.

Definition int_float (s : string) : float_int :=
  let t := trim is_cspace s in
  let '(ip, rest) := span is_digit t in
  let finish (fp : string) :=
    if (is_empty ip && is_empty fp)%bool then FloatErr
    else
      let i := digits_val 0 ip in
      if 9999 <? i then FloatBig
      else FloatInt (if rounds_up i fp then i + 1 else i) in
  match rest with
  | EmptyString => finish EmptyString
  | String c fp =>
      if (Ascii.eqb c "." && str_forall is_digit fp)%bool then finish fp
      else FloatErr
  end.

End PyStr.
Import PyStr.


(** ** Regular expressions

    The patterns of the scripts, matched by derivatives.  Only the yes/no
    outcome of [fullmatch] and [match] is taken from here, for which the
    backtracking matcher of [re] and language membership agree. *)

Module Re.

Inductive re : Type :=
  | Void
  | Eps
  | Cls (p : ascii -> bool)
  | Seq (a b : re)
  | Alt (a b : re)
  | Star (a : re).

Fixpoint nullable (r : re) : bool :=
  match r with
  | Void => false
  | Eps => true
  | Cls _ => false
  | Seq a b => (nullable a && nullable b)%bool
  | Alt a b => (nullable a || nullable b)%bool
  | Star _ => true
  end.

Fixpoint deriv (c : ascii) (r : re) : re :=
  match r with
  | Void => Void
  | Eps => Void
  | Cls p => if p c then Eps else Void
  | Seq a b =>
      if nullable a then Alt (Seq (deriv c a) b) (deriv c b)
      else Seq (deriv c a) b
  | Alt a b => Alt (deriv c a) (deriv c b)
  | Star a => Seq (deriv c a) (Star a)
  end.

Fixpoint matches (r : re) (s : string) : bool :=
  match s with
  | EmptyString => nullable r
  | String c t => matches (deriv c r) t
  end.

(** [\d], [\D], [\s] and a literal character. *)
Definition d : re := Cls is_digit.
Definition D : re := Cls (fun c => negb (is_digit c)).
Definition s : re := Cls is_space.
Definition chr (c : ascii) : re := Cls (Ascii.eqb c).

(** [r{n}], [r?], [r+] and [r{lo,hi}]. *)
Fixpoint rep (n : nat) (r : re) : re :=
  match n with O => Eps | S k => Seq r (rep k r) end.
Definition opt (r : re) : re := Alt r Eps.
Definition plus (r : re) : re := Seq r (Star r).
Fixpoint upto (n : nat) (r : re) : re :=
  match n with O => Eps | S k => opt (Seq r (upto k r)) end.
Definition rep_range (lo hi : nat) (r : re) : re := Seq (rep lo r) (upto (hi - lo) r).

(** [re.fullmatch] of [^r$]: the whole string is in [r]. *)
Definition fullmatch (r : re) (t : string) : bool := matches r t.

(** [re.match] of [^r$]: [$] also holds just before a final newline. *)
Definition match_to_end (r : re) (t : string) : bool :=
  matches (Seq r (opt (chr (ascii_of_nat 10)))) t.

End Re.

(** ** Exceptions and results *)

(** The Python exceptions that the modelled code can raise. *)
Inductive pyexn : Type :=
  | FloatValueError                 (* float(): could not convert string *)
  | ZeroDivisionError
  | StopIteration
  | WorksheetNotFound (name : string)
  | DetectionFailed (sheet : string) (occ_score soc_score : Q).

Inductive result (A : Type) : Type :=
  | Ok (a : A)
  | Raise (e : pyexn).
Arguments Ok {A} a.
Arguments Raise {A} e.

(** [Series.map(f)] with an [f] that may raise: the first exception wins. *)
Fixpoint map_result {A B : Type} (f : A -> result B) (l : list A) : result (list B) :=
  match l with
  | [] => Ok []
  | x :: r =>
      match f x with
      | Raise e => Raise e
      | Ok y =>
          match map_result f r with
          | Raise e => Raise e
          | Ok ys => Ok (y :: ys)
          end
      end
  end.

(** ** Frames *)

(** A cell of a sheet read with [dtype=str]; [None] is NaN. *)
Definition cell : Type := option string.

Definition notna {A : Type} (c : option A) : bool :=
  match c with Some _ => true | None => false end.

(** [Series.dropna()] *)
Fixpoint dropna {A : Type} (s : list (option A)) : list A :=
  match s with
  | [] => []
  | Some v :: r => v :: dropna r
  | None :: r => dropna r
  end.

(** [Series.head(n)]: the first [n] items, or all but the last [-n]. *)
Definition head {A : Type} (n : Z) (l : list A) : list A :=
  if 0 <=? n then firstn (Z.to_nat n) l
  else firstn (length l - Z.to_nat (- n)) l.

(** A column label: header cells are strings or integers. *)
Inductive label : Type :=
  | LStr (s : string)
  | LInt (n : Z).

Definition label_eqb (a b : label) : bool :=
  match a, b with
  | LStr s, LStr t => String.eqb s t
  | LInt n, LInt m => n =? m
  | _, _ => false
  end.

(** Python truthiness of a label: [""] and [0] are falsy. *)
Definition truthy (c : label) : bool :=
  match c with
  | LStr s => negb (is_empty s)
  | LInt n => negb (n =? 0)
  end.

Definition opt_truthy (c : option label) : bool :=
  match c with Some l => truthy l | None => false end.

(** A frame: the column labels and the rows, over cells of type [C]. *)
Record Frame (C : Type) : Type := {
  columns : list label;
  rows : list (list C)
}.
Arguments columns {C} f.
Arguments rows {C} f.

(** The frame of a sheet read with [dtype=str]. *)
Definition DataFrame : Type := Frame cell.

Fixpoint index_of (c : label) (cs : list label) : option nat :=
  match cs with
  | [] => None
  | d :: r => if label_eqb c d then Some O
              else option_map S (index_of c r)
  end.

(** [df[c]] for a label of [df.columns] (labels are distinct, as
    [read_excel] makes them); a row shorter than the header reads as the
    missing value [nan]. *)
Definition column {C : Type} (nan : C) (df : Frame C) (c : label) : list C :=
  match index_of c (columns df) with
  | Some i => map (fun r => nth i r nan) (rows df)
  | None => []
  end.

(** [df.empty]: no rows or no columns. *)
Definition df_empty {C : Type} (df : Frame C) : bool :=
  match rows df, columns df with
  | [], _ => true
  | _, [] => true
  | _, _ => false
  end.

(** [df.dropna(how="all")]: rows whose cells are all NaN are removed. *)
Definition dropna_all (df : DataFrame) : DataFrame :=
  {| columns := columns df;
     rows := filter (fun r => negb (forallb (fun c => negb (notna c)) r)) (rows df) |}.

(** Exact score arithmetic. *)
Definition Qltb (a b : Q) : bool := negb (Qle_bool b a).

(** [good / len(sample)] *)
Definition ratio (good len : nat) : result Q :=
  match len with
  | O => Raise ZeroDivisionError
  | S _ => Ok (Z.of_nat good # Pos.of_nat len)
  end.

Definition count {A : Type} (p : A -> bool) (l : list A) : nat :=
  length (filter p l).

(** A dict in insertion order. *)
Section Dict.
Context {V : Type}.

Fixpoint dict_set (k : label) (v : V) (d : list (label * V)) : list (label * V) :=
  match d with
  | [] => [(k, v)]
  | (k', v') :: r =>
      if label_eqb k k' then (k, v) :: r else (k', v') :: dict_set k v r
  end.

Fixpoint dict_get (k : label) (d : list (label * V)) : option V :=
  match d with
  | [] => None
  | (k', v') :: r => if label_eqb k k' then Some v' else dict_get k r
  end.
End Dict.

(** [max(d, key=lambda k: d[k])]: the first key whose value no later key
    exceeds; [None] stands for the guard [if d else None]. *)
Fixpoint argmax_from (best : label) (bv : Q) (d : list (label * Q)) : label * Q :=
  match d with
  | [] => (best, bv)
  | (k, v) :: r =>
      if Qltb bv v then argmax_from k v r else argmax_from best bv r
  end.

Definition dict_max (d : list (label * Q)) : option label :=
  match d with
  | [] => None
  | (k, v) :: r => Some (fst (argmax_from k v r))
  end.

(** The output: rows [(occ, soc)]. *)
Definition table : Type := list (string * string).

(** [drop_duplicates] keeping first occurrences, on the key [key]. *)
Fixpoint drop_dups {A K : Type} (eqb : K -> K -> bool) (key : A -> K)
    (seen : list K) (l : list A) : list A :=
  match l with
  | [] => []
  | x :: r =>
      if existsb (eqb (key x)) seen then drop_dups eqb key seen r
      else x :: drop_dups eqb key (key x :: seen) r
  end.

Definition pair_eqb (a b : string * string) : bool :=
  (String.eqb (fst a) (fst b) && String.eqb (snd a) (snd b))%bool.

(** Python's order on [str]: lexicographic on code points. *)
Definition str_leb (a b : string) : bool :=
  match String.compare a b with Gt => false | _ => true end.

(** A stable sort by insertion, for [sort_values].  In both uses below the
    rows have distinct sort keys, so the result does not depend on the
    sorting algorithm. *)
Section Sort.
Context {A : Type} (leb : A -> A -> bool).

Fixpoint insert_sorted (x : A) (l : list A) : list A :=
  match l with
  | [] => [x]
  | y :: r => if leb x y then x :: l else y :: insert_sorted x r
  end.

Fixpoint sort_values (l : list A) : list A :=
  match l with
  | [] => []
  | x :: r => insert_sorted x (sort_values r)
  end.
End Sort.

(** ** build_cps_occ_to_soc_autodetect.py *)

Module Autodetect.

(** *** Pattern helpers (value level) *)

(** [DELIMS_RE = re.compile(r"[;,/|&]| and ", re.IGNORECASE)] *)
Definition is_delim_char (c : ascii) : bool :=
  existsb (Ascii.eqb c) [";"; ","; "/"; "|"; "&"]%char.

Definition eq_ci (c lo up : ascii) : bool :=
  (Ascii.eqb c lo || Ascii.eqb c up)%bool.

(** Does [" and "] (any letter case) start here? *)
Definition and_here (s : string) : bool :=
  match s with
  | String c0 (String c1 (String c2 (String c3 (String c4 _)))) =>
      (Ascii.eqb c0 " " && eq_ci c1 "a" "A" && eq_ci c2 "n" "N"
       && eq_ci c3 "d" "D" && Ascii.eqb c4 " ")%bool
  | _ => false
  end.

(** [DELIMS_RE.search(s)] *)
Fixpoint delims_search (s : string) : bool :=
  match s with
  | EmptyString => false
  | String c r => (is_delim_char c || and_here s || delims_search r)%bool
  end.

(** [DELIMS_RE.split(s)]: leftmost matches, left to right; [cur] is the
    piece being read and [skip] counts the characters of a matched
    [" and "] still to be passed over. *)
Fixpoint delims_split (skip : nat) (cur : string) (s : string) : list string :=
  match s with
  | EmptyString => [cur]
  | String c r =>
      match skip with
      | S k => delims_split k cur r
      | O =>
          if is_delim_char c then cur :: delims_split 0 EmptyString r
          else if and_here s then cur :: delims_split 4 EmptyString r
          else delims_split 0 (cur ++ String c EmptyString) r
      end
  end.

Definition split_tokens (val : cell) : list string :=
  let s := strip (match val with None => EmptyString | Some v => v end) in
  if delims_search s then
    filter (fun t => negb (is_empty t)) (map strip (delims_split 0 EmptyString s))
  else if is_empty s then [] else [s].

(** [SOC_SINGLE_RE = re.compile(r"^\d{2}-\d{4}$")] *)
Definition SOC_SINGLE_RE : Re.re :=
  Re.Seq (Re.rep 2 Re.d) (Re.Seq (Re.chr "-") (Re.rep 4 Re.d)).

(** [SOC_DIGITS_RE = re.compile(r"^\d{6}$")] *)
Definition SOC_DIGITS_RE : Re.re := Re.rep 6 Re.d.

(** [tok.replace(" ", "")] *)
Definition remove_spaces (tok : string) : string :=
  str_filter (fun c => negb (Ascii.eqb c " ")) tok.

Definition is_soc_token_like (tok : string) : bool :=
  let s := remove_spaces tok in
  (Re.fullmatch SOC_SINGLE_RE s || Re.fullmatch SOC_DIGITS_RE s)%bool.

Definition normalize_soc_token (tok : string) : option string :=
  let s := remove_spaces tok in
  if Re.fullmatch SOC_SINGLE_RE s then Some s
  else if Re.fullmatch SOC_DIGITS_RE s then Some (take 2 s ++ "-" ++ drop 2 s)
  else None.

Definition is_occ_like (val : cell) : bool :=
  match val with
  | None => false
  | Some v =>
      let s := strip v in
      if str_exists (fun c => negb (is_digit c || Ascii.eqb c ".")) s then false
      else
        match int_float s with
        | FloatInt n => (0 <=? n) && (n <=? 9999)
        | FloatBig | FloatErr => false
        end
  end.

(** [normalize_occ] parses [str(val)] itself, not its stripped form:
    [float] does not skip the separators 28..31 that [strip] removes, and
    then raises.  The [FloatBig] branch is never taken after the guard
    (lemma [normalize_occ_not_big]). *)
Definition normalize_occ (val : cell) : result (option string) :=
  if negb (is_occ_like val) then Ok None
  else
    match val with
    | None => Ok None
    | Some v =>
        match int_float v with
        | FloatInt n => Ok (Some (fmt_04d n))
        | FloatErr => Raise FloatValueError
        | FloatBig => Raise FloatValueError
        end
    end.

(** *** Column and sheet level detection *)

Definition column_score_occ (series : list cell) (max_sample : Z) : result Q :=
  let vals := dropna series in
  match vals with
  | [] => Ok 0%Q
  | _ :: _ =>
      let sample := head max_sample vals in
      let good := count (fun v => is_occ_like (Some v)) sample in
      ratio good (length sample)
  end.

Definition any_soc (v : string) : bool :=
  existsb is_soc_token_like (split_tokens (Some v)).

Definition column_score_soc (series : list cell) (max_sample : Z) : result Q :=
  let vals := dropna series in
  match vals with
  | [] => Ok 0%Q
  | _ :: _ =>
      let sample := head max_sample vals in
      let good := count any_soc sample in
      ratio good (length sample)
  end.

(** The default of [max_sample]. *)
Definition max_sample_default : Z := 400.

(** What is printed on [stderr] and written to disk, in order. *)
Inductive event : Type :=
  | MsgDetect (occ_col soc_col : option label) (occ_score soc_score : Q)
  | MsgUsingRequestedSheet (sheet : string)
  | MsgNoSheetFallback (sheet : string)
  | MsgAutoSelected (sheet : string) (score : Q)
  | MsgRawRows (sheet : string) (n : nat)
  | MsgAfterOcc (n : nat)
  | MsgAfterSoc (expand : bool) (n : nat)
  | MsgStrictDropping (n : nat)
  | MsgFinalPairs (n : nat)
  | CsvWritten (table : list (string * string))
  | MsgWrote (n : nat)
  | WarnSmall (n : nat).

(** The pre-trim loop: a column all of whose cells are strings is stripped
    (pandas 2: an object column holding a NaN is not of string dtype). *)
Definition pretrim (series : list cell) : list cell :=
  if forallb notna series then map (option_map strip) series else series.

(** One turn of the scoring loop: both scores, or both [0.0] on an exception. *)
Definition score_pair (series : list cell) : Q * Q :=
  match column_score_occ series max_sample_default with
  | Ok a =>
      match column_score_soc series max_sample_default with
      | Ok b => (a, b)
      | Raise _ => (0%Q, 0%Q)
      end
  | Raise _ => (0%Q, 0%Q)
  end.

Definition scores_of (pick : Q * Q -> Q) (df : DataFrame) : list (label * Q) :=
  fold_left (fun d c => dict_set c (pick (score_pair (pretrim (column None df c)))) d)
            (columns df) [].

Definition detection : Type := option label * option label * Q * Q.

Definition detect_occ_soc_columns (df : DataFrame) (verbose : bool)
  : list event * detection :=
  if df_empty df then ([], (None, None, 0%Q, 0%Q))
  else
    let occ_scores := scores_of fst df in
    let soc_scores := scores_of snd df in
    let occ_best := dict_max occ_scores in
    let soc_best := dict_max soc_scores in
    let score_at (d : list (label * Q)) (b : option label) : Q :=
      match b with
      | Some k => if truthy k then
                    match dict_get k d with Some v => v | None => 0%Q end
                  else 0%Q
      | None => 0%Q
      end in
    let occ_best_score := score_at occ_scores occ_best in
    let soc_best_score := score_at soc_scores soc_best in
    let '(soc_best, soc_best_score) :=
      match occ_best, soc_best with
      | Some o, Some s =>
          if label_eqb s o then
            let soc_candidates :=
              filter (fun kv => negb (label_eqb (fst kv) o)) soc_scores in
            match dict_max soc_candidates with
            | Some s' =>
                (Some s', match dict_get s' soc_candidates with
                          | Some v => v | None => 0%Q end)
            | None => (None, 0%Q)
            end
          else (soc_best, soc_best_score)
      | _, _ => (soc_best, soc_best_score)
      end in
    ((if verbose then [MsgDetect occ_best soc_best occ_best_score soc_best_score]
      else []),
     (occ_best, soc_best, occ_best_score, soc_best_score)).

(** A workbook: its sheets in workbook order. *)
Definition workbook : Type := list (string * DataFrame).

Fixpoint read_sheet (wb : workbook) (name : string) : option DataFrame :=
  match wb with
  | [] => None
  | (n, df) :: r => if String.eqb n name then Some df else read_sheet r name
  end.

(** The body of the loop over [all_sheets.items()]. *)
Definition best_step (acc : option (string * DataFrame) * Q) (item : string * DataFrame)
  : option (string * DataFrame) * Q :=
  let '(best, best_combo) := acc in
  let '(_, _, os, ss) := snd (detect_occ_soc_columns (snd item) false) in
  let combo := (os * ss)%Q in
  if Qltb best_combo combo then (Some item, combo) else (best, best_combo).

(** Writer of [event]s with exceptions: what was printed so far, and the
    value or the exception raised. *)
Definition M (A : Type) : Type := (list event * result A)%type.

Definition ret {A : Type} (a : A) : M A := ([], Ok a).

Definition raise {A : Type} (e : pyexn) : M A := ([], Raise e).

Definition bind {A B : Type} (m : M A) (k : A -> M B) : M B :=
  match m with
  | (l, Ok a) => let '(l', r) := k a in ((l ++ l')%list, r)
  | (l, Raise e) => (l, Raise e)
  end.

(** [if verbose: print(..., file=sys.stderr)] *)
Definition say (verbose : bool) (e : event) : M unit :=
  ((if verbose then [e] else []), Ok tt).

Definition logged {A : Type} (p : list event * A) : M A := (fst p, Ok (snd p)).

Definition lift {A : Type} (r : result A) : M A := ([], r).

Notation "x <- m ;; k" := (bind m (fun x => k))
  (at level 61, m at next level, right associativity).
Notation "' p <- m ;; k" := (bind m (fun x => let p := x in k))
  (at level 61, p pattern, m at next level, right associativity).
Notation "m ;;; k" := (bind m (fun _ => k))
  (at level 61, right associativity).

(** The search over all sheets ([sheet_arg] falsy). *)
Definition search_sheets (wb : workbook) (verbose : bool) : M (string * DataFrame) :=
  match fold_left best_step wb (None, (-1)%Q) with
  | (Some (best_name, best_df), best_combo) =>
      say verbose (MsgAutoSelected best_name best_combo) ;;;
      ret (best_name, best_df)
  | (None, _) =>
      match wb with
      | [] => raise StopIteration
      | (name, df) :: _ =>
          say verbose (MsgNoSheetFallback name) ;;;
          ret (name, df)
      end
  end.

(** [if sheet_arg:] is false for [None] and for the empty string. *)
Definition requested (sheet_arg : option string) : option string :=
  match sheet_arg with
  | Some name => if is_empty name then None else Some name
  | None => None
  end.

Definition pick_best_sheet (wb : workbook) (sheet_arg : option string) (verbose : bool)
  : M (string * DataFrame) :=
  match requested sheet_arg with
  | Some name =>
      match read_sheet wb name with
      | Some df =>
          say verbose (MsgUsingRequestedSheet name) ;;;
          ret (name, df)
      | None => raise (WorksheetNotFound name)
      end
  | None => search_sheets wb verbose
  end.

(** *** Building the crosswalk *)

(** [df[[occ_col, soc_col]]] as rows [(occ_raw, soc_raw)]. *)
Definition two_columns (df : DataFrame) (occ_col soc_col : label) : list (cell * cell) :=
  combine (column None df occ_col) (column None df soc_col).

(** [df["occ"] = df["occ_raw"].map(normalize_occ)], then the rows with an
    [occ] are kept. *)
Definition occ_stage (raw : list (cell * cell)) : result (list (string * cell)) :=
  match map_result normalize_occ (map fst raw) with
  | Raise e => Raise e
  | Ok occs =>
      Ok (flat_map (fun p => match fst p with
                             | Some o => [(o, snd p)]
                             | None => []
                             end)
                   (combine occs (map snd raw)))
  end.

Definition strict_soc (v : cell) : option string :=
  match split_tokens v with
  | [t] => normalize_soc_token t
  | _ => None
  end.

(** The list comprehension over the tokens, then [[x for x in lst if x]]. *)
Definition soc_list (v : cell) : list string :=
  filter (fun x => negb (is_empty x)) (dropna (map normalize_soc_token (split_tokens v))).

(** [df.explode("soc_list")]: one row per item, an empty list giving one
    row with NaN. *)
Definition explode (l : list (string * list string)) : list (string * option string) :=
  flat_map (fun p => match snd p with
                     | [] => [(fst p, None)]
                     | _ :: _ => map (fun x => (fst p, Some x)) (snd p)
                     end) l.

Definition soc_stage (allow_multi_soc : bool) (l : list (string * cell)) : table :=
  let with_soc :=
    if allow_multi_soc then
      filter (fun p => match snd p with
                       | Some x => negb (is_empty x)
                       | None => false
                       end)
             (explode (map (fun p => (fst p, soc_list (snd p))) l))
    else
      filter (fun p => notna (snd p)) (map (fun p => (fst p, strict_soc (snd p))) l) in
  flat_map (fun p => match snd p with Some x => [(fst p, x)] | None => [] end) with_soc.

Definition occ_count (o : string) (t : table) : nat :=
  count (fun r => String.eqb (fst r) o) t.

(** [df.loc[df.duplicated(subset=["occ"], keep=False), "occ"].unique()] *)
Definition ambiguous_occs (t : table) : list string :=
  drop_dups String.eqb (fun o => o) []
    (map fst (filter (fun r => Nat.ltb 1 (occ_count (fst r) t)) t)).

(** [df[~df["occ"].isin(ambiguous_occs)]] *)
Definition drop_occs (amb : list string) (t : table) : table :=
  filter (fun r => negb (existsb (String.eqb (fst r)) amb)) t.

Definition build_crosswalk (wb : workbook) (sheet : option string)
    (allow_multi_soc verbose : bool) : M table :=
  '(sheet_name, df) <- pick_best_sheet wb sheet verbose ;;
  let df := dropna_all df in
  '(occ_col, soc_col, occ_score, soc_score) <- logged (detect_occ_soc_columns df true) ;;
  match occ_col, soc_col with
  | Some oc, Some sc =>
      if (negb (truthy oc) || negb (truthy sc)
          || Qltb occ_score (1 # 2) || Qltb soc_score (1 # 2))%bool
      then raise (DetectionFailed sheet_name occ_score soc_score)
      else
        let raw_rows := length (rows df) in
        say verbose (MsgRawRows sheet_name raw_rows) ;;;
        df1 <- lift (occ_stage (two_columns df oc sc)) ;;
        say verbose (MsgAfterOcc (length df1)) ;;;
        let df2 := soc_stage allow_multi_soc df1 in
        say verbose (MsgAfterSoc allow_multi_soc (length df2)) ;;;
        let df3 := drop_dups pair_eqb (fun r => r) [] df2 in
        let amb := ambiguous_occs df3 in
        df4 <- match amb with
               | [] => ret df3
               | _ :: _ =>
                   say verbose (MsgStrictDropping (length amb)) ;;;
                   ret (drop_occs amb df3)
               end ;;
        let final_rows := length df4 in
        say verbose (MsgFinalPairs final_rows) ;;;
        say true (CsvWritten df4) ;;;
        say verbose (MsgWrote final_rows) ;;;
        (if Nat.ltb final_rows 100 then say true (WarnSmall final_rows) else ret tt) ;;;
        ret df4
  | _, _ => raise (DetectionFailed sheet_name occ_score soc_score)
  end.

End Autodetect.


(** ** build_occ_soc_from_2018_xwalk.py *)

Module Xwalk2018.

(** [OCC_VAL = re.compile(r'^\s*\d{3,4}\s*$')] *)
Definition OCC_VAL : Re.re :=
  Re.Seq (Re.Star Re.s) (Re.Seq (Re.rep_range 3 4 Re.d) (Re.Star Re.s)).

(** [SOC_VAL1 = re.compile(r'^\s*\d{6}\s*$')] *)
Definition SOC_VAL1 : Re.re :=
  Re.Seq (Re.Star Re.s) (Re.Seq (Re.rep 6 Re.d) (Re.Star Re.s)).

(** [SOC_VAL2 = re.compile(r'^\s*\d{2}\D+\d{4}\s*$')] *)
Definition SOC_VAL2 : Re.re :=
  Re.Seq (Re.Star Re.s)
    (Re.Seq (Re.rep 2 Re.d)
       (Re.Seq (Re.plus Re.D) (Re.Seq (Re.rep 4 Re.d) (Re.Star Re.s)))).

(** [Series.astype(str)] on a cell: NaN becomes ["nan"]. *)
Definition astype_str (c : cell) : string :=
  match c with Some v => v | None => "nan" end.

(** [str(c)] for a label. *)
Definition label_str (c : label) : string :=
  match c with LStr v => v | LInt n => str_of_int n end.

(** [str.lower] on code points below 256. *)
Definition lower_char (c : ascii) : ascii :=
  if (between 65 90 c || between 192 214 c || between 216 222 c)%bool
  then ascii_of_nat (code c + 32) else c.

Fixpoint lower (t : string) : string :=
  match t with
  | EmptyString => EmptyString
  | String c r => String (lower_char c) (lower r)
  end.

Definition is_soc_val (v : string) : bool :=
  (Re.match_to_end SOC_VAL1 v || Re.match_to_end SOC_VAL2 v)%bool.

(** The share of the cells of [col] (as strings) that satisfy [p]. *)
Definition share (p : string -> bool) (col : list string) (tot : nat) : Q :=
  Z.of_nat (count p col) # Pos.of_nat tot.

Definition occ_hint (c : label) : Q :=
  let cname := lower (label_str c) in
  if existsb (fun k => contains k cname) ["occ"; "2018"; "census"]
  then (2 # 100)%Q else 0%Q.

Definition soc_hint (c : label) : Q :=
  if contains "soc" (lower (label_str c)) then (2 # 100)%Q else 0%Q.

Definition opt_label_eqb (a b : option label) : bool :=
  match a, b with
  | Some x, Some y => label_eqb x y
  | None, None => true
  | _, _ => false
  end.

(** [s = df[c].astype(str)] and [tot = (s != "nan").sum()] *)
Definition col_str (df : DataFrame) (c : label) : list string :=
  map astype_str (column None df c).

Definition tot_of (col : list string) : nat :=
  count (fun v => negb (String.eqb v "nan")) col.

(** The first loop of [score_columns]; the state is
    [(best_occ, best_occ_sc, best_soc, best_soc_sc)]. *)
Definition first_step (df : DataFrame)
    (st : option label * Q * option label * Q) (c : label)
  : option label * Q * option label * Q :=
  let '(best_occ, best_occ_sc, best_soc, best_soc_sc) := st in
  let col := col_str df c in
  let tot := tot_of col in
  if Nat.eqb tot 0 then st
  else
    let occ_sc := (share (Re.match_to_end OCC_VAL) col tot + occ_hint c)%Q in
    let soc_sc := (share is_soc_val col tot + soc_hint c)%Q in
    let '(best_occ, best_occ_sc) :=
      if Qltb best_occ_sc occ_sc then (Some c, occ_sc) else (best_occ, best_occ_sc) in
    let '(best_soc, best_soc_sc) :=
      if Qltb best_soc_sc soc_sc then (Some c, soc_sc) else (best_soc, best_soc_sc) in
    (best_occ, best_occ_sc, best_soc, best_soc_sc).

(** The second loop: the best SOC column other than [best_occ]. *)
Definition second_step (df : DataFrame) (best_occ : option label)
    (st : option label * Q) (c : label) : option label * Q :=
  if opt_label_eqb (Some c) best_occ then st
  else
    let col := col_str df c in
    let tot := tot_of col in
    if Nat.eqb tot 0 then st
    else
      let sc := (share is_soc_val col tot + soc_hint c)%Q in
      if Qltb (snd st) sc then (Some c, sc) else st.

Definition score_columns (df : DataFrame) : option label * Q * option label * Q :=
  let '(best_occ, best_occ_sc, best_soc, best_soc_sc) :=
    fold_left (first_step df) (columns df) (None, (-1)%Q, None, (-1)%Q) in
  if opt_label_eqb best_occ best_soc then
    match fold_left (second_step df best_occ) (columns df) (None, (-1)%Q) with
    | (Some second_soc, second_sc) => (best_occ, best_occ_sc, Some second_soc, second_sc)
    | (None, _) => (best_occ, best_occ_sc, best_soc, best_soc_sc)
    end
  else (best_occ, best_occ_sc, best_soc, best_soc_sc).

(** The patterns [r'^\d{4}$'] and [r'^\d{2}-\d{4}$'] of [clean_map]. *)
Definition OCC_OUT : Re.re := Re.rep 4 Re.d.
Definition SOC_OUT : Re.re :=
  Re.Seq (Re.rep 2 Re.d) (Re.Seq (Re.chr "-") (Re.rep 4 Re.d)).

(** [.str[-4:]] *)
Definition last4 (t : string) : string := drop (String.length t - 4) t.

Definition digits_only (t : string) : string := str_filter is_digit t.

Definition pair_leb (a b : string * string) : bool :=
  match String.compare (fst a) (fst b) with
  | Lt => true
  | Gt => false
  | Eq => str_leb (snd a) (snd b)
  end.

Definition clean_map (df : DataFrame) (occ_col soc_col : label) : table :=
  let s_occ := map strip (col_str df occ_col) in
  let s_soc := map strip (col_str df soc_col) in
  let occ := map (fun v => zfill 4 (last4 (digits_only v))) s_occ in
  let soc := map (fun v => let soc6 := take 6 (digits_only v) in
                           take 2 soc6 ++ "-" ++ drop 2 soc6) s_soc in
  let out := combine occ soc in
  let out := filter (fun r => Re.match_to_end OCC_OUT (fst r)) out in
  let out := filter (fun r => Re.match_to_end SOC_OUT (snd r)) out in
  let out := sort_values pair_leb (drop_dups pair_eqb (fun r => r) [] out) in
  drop_dups String.eqb fst [] out.

(** How [main] ends once the workbook file exists: [sys.exit(code)], or the
    table written by [to_csv] followed by a normal return.  What [main]
    prints is left out. *)
Inductive outcome : Type :=
  | Exit (code : Z)
  | Written (t : table).

(** A workbook whose sheets may fail to parse ([None]). *)
Definition workbook : Type := list (string * option DataFrame).

Fixpoint read_excel (wb : workbook) (name : string) : option DataFrame :=
  match wb with
  | [] => None
  | (n, df) :: r => if String.eqb n name then df else read_excel r name
  end.

(** The loop over [sheet_iter], up to the [break]. *)
Fixpoint scan (wb : workbook) (sheet_iter : list string)
  : option (DataFrame * label * label) :=
  match sheet_iter with
  | [] => None
  | name :: rest =>
      match read_excel wb name with
      | None => scan wb rest
      | Some df =>
          match score_columns df with
          | (Some occ_col, occ_sc, Some soc_col, soc_sc) =>
              if (truthy occ_col && truthy soc_col
                  && negb (label_eqb occ_col soc_col)
                  && Qle_bool (1 # 2) occ_sc && Qle_bool (1 # 2) soc_sc)%bool
              then Some (df, occ_col, soc_col)
              else scan wb rest
          | _ => scan wb rest
          end
      end
  end.

(** [sheet_iter = [args.sheet] if args.sheet else sheets] *)
Definition sheet_iter (wb : workbook) (sheet : option string) : list string :=
  match sheet with
  | Some name => if is_empty name then map fst wb else [name]
  | None => map fst wb
  end.

Definition main (wb : workbook) (sheet : option string) : outcome :=
  match scan wb (sheet_iter wb sheet) with
  | None => Exit 2
  | Some (chosen_df, chosen_occ, chosen_soc) =>
      let out := clean_map chosen_df chosen_occ chosen_soc in
      match out with
      | [] => Exit 3
      | _ :: _ => Written out
      end
  end.

End Xwalk2018.


(** ** build_cps_occ_to_soc_from_2018_file.py *)

Module From2018File.

(** A cell read without [dtype=str]: NaN, a string or an integer (other
    numbers are left out). *)
Inductive xcell : Type :=
  | XNaN
  | XStr (v : string)
  | XInt (n : Z).

Definition xcell_eqb (a b : xcell) : bool :=
  match a, b with
  | XNaN, XNaN => true
  | XStr v, XStr w => String.eqb v w
  | XInt n, XInt m => n =? m
  | _, _ => false
  end.

Definition is_xstr (c : xcell) : bool :=
  match c with XStr _ => true | _ => false end.

Definition is_xnan (c : xcell) : bool :=
  match c with XNaN => true | _ => false end.

(** [Series.astype(str)].  A column holding a string is of object dtype and
    keeps its integers; a column of integers and NaN is float64 and prints
    them as [n.0]; a column of integers alone is int64. *)
Definition astype_str (col : list xcell) : list string :=
  let as_int := (existsb is_xstr col || negb (existsb is_xnan col))%bool in
  map (fun c => match c with
                | XNaN => "nan"
                | XStr v => v
                | XInt n => if as_int then str_of_int n else str_of_int n ++ ".0"
                end) col.

Definition backslash : ascii := ascii_of_nat 92.

(** The pattern [r'(\\d{4})']: in a raw string the two backslashes reach
    the regex compiler, where they denote one literal backslash; [d{4}] then
    is the letter [d] four times.  The pattern matches the text [\dddd]. *)
Definition OCC_PATTERN : string := String backslash "dddd".

(** The pattern [r'(\\d{2}-\\d{4})'] matches the text [\dd-\dddd]. *)
Definition SOC_PATTERN : string := String backslash "dd-" ++ String backslash "dddd".

(** [.str.extract(pat)] for a pattern that matches one literal text: the
    group is that text if it occurs in the value, NaN otherwise. *)
Definition extract (lit : string) (v : string) : option string :=
  if contains lit v then Some lit else None.

Definition need : list label := [LStr "2018 Census Code"; LStr "2018 SOC Code"].

(** A row of [t] once [occ] and [soc] are known:
    [(2018 Census Code, 2018 SOC Code, occ, soc)]. *)
Definition row : Type := (xcell * xcell * string * string)%type.

Definition row_occ (r : row) : string := snd (fst r).
Definition row_soc (r : row) : string := snd r.

Definition row_eqb (a b : row) : bool :=
  match a, b with
  | (a1, a2, a3, a4), (b1, b2, b3, b4) =>
      (xcell_eqb a1 b1 && xcell_eqb a2 b2 && String.eqb a3 b3 && String.eqb a4 b4)%bool
  end.

(** The extraction, [dropna(subset=['occ','soc'])] and [drop_duplicates()]. *)
Definition candidates (tbl : Frame xcell) : list row :=
  let c1 := column XNaN tbl (LStr "2018 Census Code") in
  let c2 := column XNaN tbl (LStr "2018 SOC Code") in
  let occ := map (extract OCC_PATTERN) (astype_str c1) in
  let soc := map (extract SOC_PATTERN) (astype_str c2) in
  let t := combine (combine (combine c1 c2) occ) soc in
  let t := flat_map (fun r => match r with
                              | (a, b, Some o, Some s) => [(a, b, o, s)]
                              | _ => []
                              end) t in
  drop_dups row_eqb (fun r => r) [] t.

(** [(~t['soc'].str.endswith('0000')).astype(int)] *)
Definition score (soc : string) : Z := if endswith soc "0000" then 0 else 1.

(** A row with its [score] and [row] columns. *)
Definition scored : Type := (string * string * Z * nat)%type.

Definition s_occ (r : scored) : string := fst (fst (fst r)).
Definition s_soc (r : scored) : string := snd (fst (fst r)).
Definition s_score (r : scored) : Z := snd (fst r).
Definition s_row (r : scored) : nat := snd r.

(** The order of [sort_values(['occ','score','row'], ascending=[True, False, True])]. *)
Definition scored_leb (a b : scored) : bool :=
  match String.compare (s_occ a) (s_occ b) with
  | Lt => true
  | Gt => false
  | Eq =>
      if s_score b <? s_score a then true
      else if s_score a <? s_score b then false
      else Nat.leb (s_row a) (s_row b)
  end.

Fixpoint with_rows (i : nat) (l : list (string * string)) : list scored :=
  match l with
  | [] => []
  | (o, s) :: r => (o, s, score s, i) :: with_rows (S i) r
  end.

(** The lines after the extraction: one row per [occ], a specific SOC
    before a major group, then the earliest row. *)
Definition resolve (t : list (string * string)) : table :=
  let t := sort_values scored_leb (with_rows 0 t) in
  map (fun r => (s_occ r, s_soc r)) (drop_dups String.eqb s_occ [] t).

Inductive built : Type :=
  | MissingColumns (missing : list label)
  | Built (t : table).

Definition build (tbl : Frame xcell) : built :=
  let missing :=
    filter (fun c => negb (existsb (label_eqb c) (columns tbl))) need in
  match missing with
  | _ :: _ => MissingColumns missing
  | [] => Built (resolve (map (fun r => (row_occ r, row_soc r)) (candidates tbl)))
  end.

End From2018File.


(** ** Auxiliary definitions used by the proofs *)

Module Aux.
Import Autodetect.

(** The characters that pass the [[^\d\.]] test. *)
Definition digit_or_dot (c : ascii) : bool := (is_digit c || Ascii.eqb c ".")%bool.

(** The check of one value [v]: [normalize_occ(str(v))] is [f"{v:04d}"],
    four digits with value [v], and is a fixed point of [normalize_occ]. *)
Definition occ_check (v : Z) : bool :=
  match normalize_occ (Some (str_of_int v)), normalize_occ (Some (fmt_04d v)) with
  | Ok (Some r), Ok (Some r') =>
      (String.eqb r (fmt_04d v) && String.eqb r' (fmt_04d v)
       && Nat.eqb (String.length r) 4 && str_forall is_digit r
       && (digits_val 0 r =? v))%bool
  | _, _ => false
  end.

(** The common shape of [column_score_occ] and [column_score_soc]. *)
Definition fraction_of (p : string -> bool) (series : list cell) (max_sample : Z)
  : result Q :=
  match dropna series with
  | [] => Ok 0%Q
  | _ :: _ =>
      let sample := head max_sample (dropna series) in
      ratio (count p sample) (length sample)
  end.

(** The steps of [build_crosswalk] after the OCC stage. *)
Definition deduped (allow_multi_soc : bool) (df1 : list (string * cell)) : table :=
  drop_dups pair_eqb (fun r => r) [] (soc_stage allow_multi_soc df1).

Definition resolved (allow_multi_soc : bool) (df1 : list (string * cell)) : table :=
  drop_occs (ambiguous_occs (deduped allow_multi_soc df1)) (deduped allow_multi_soc df1).

Definition vsay (verbose : bool) (e : event) : list event :=
  if verbose then [e] else [].

(** What a successful [build_crosswalk] prints and writes after the sheet
    was picked ([l0]) and the columns detected ([l1]). *)
Definition build_log (verbose allow_multi_soc : bool) (sheet_name : string)
    (raw_rows : nat) (l0 l1 : list event) (df1 : list (string * cell)) : list event :=
  let amb := ambiguous_occs (deduped allow_multi_soc df1) in
  let t := resolved allow_multi_soc df1 in
  (l0 ++ l1
   ++ vsay verbose (MsgRawRows sheet_name raw_rows)
   ++ vsay verbose (MsgAfterOcc (length df1))
   ++ vsay verbose (MsgAfterSoc allow_multi_soc (length (soc_stage allow_multi_soc df1)))
   ++ match amb with
      | [] => []
      | _ :: _ => vsay verbose (MsgStrictDropping (length amb))
      end
   ++ vsay verbose (MsgFinalPairs (length t))
   ++ [CsvWritten t]
   ++ vsay verbose (MsgWrote (length t))
   ++ (if Nat.ltb (length t) 100 then [WarnSmall (length t)] else []))%list.


(** The validation of [build_crosswalk], as the condition to go on. *)
Definition detection_valid (d : detection) : bool :=
  let '(occ_col, soc_col, occ_score, soc_score) := d in
  (opt_truthy occ_col && opt_truthy soc_col
   && negb (Qltb occ_score (1 # 2)) && negb (Qltb soc_score (1 # 2)))%bool.

(** [l1] is [l2] with some items left out, the order kept. *)
Inductive subseq {A : Type} : list A -> list A -> Prop :=
  | subseq_nil : subseq [] []
  | subseq_skip (x : A) (l1 l2 : list A) : subseq l1 l2 -> subseq l1 (x :: l2)
  | subseq_keep (x : A) (l1 l2 : list A) : subseq l1 l2 -> subseq (x :: l1) (x :: l2).

(** Strictly ascending OCC codes. *)
Definition occ_lt (a b : string * string) : Prop :=
  String.compare (fst a) (fst b) = Lt.

End Aux.

(** ** Example inputs *)

Module Examples.
Import Autodetect.

(** One cell lists two SOC codes for OCC 0010. *)
Definition multi_soc_sheet : DataFrame :=
  {| columns := [LStr "Census"; LStr "SOC"];
     rows := [[Some "0010"; Some "15-1132, 15-1133"];
              [Some "0020"; Some "11-1021"]] |}.

Definition multi_soc_book : workbook := [("Codes", multi_soc_sheet)].

(** OCC 0010 has two SOC codes on two rows. *)
Definition ambiguous_sheet : DataFrame :=
  {| columns := [LStr "Census"; LStr "SOC"];
     rows := [[Some "0010"; Some "11-1021"];
              [Some "0010"; Some "11-9999"];
              [Some "0020"; Some "11-1021"]] |}.




(** Rows in descending OCC order. *)
Definition descending_sheet : DataFrame :=
  {| columns := [LStr "Census"; LStr "SOC"];
     rows := [[Some "0020"; Some "11-1021"];
              [Some "0010"; Some "11-1011"]] |}.

Definition descending_book : workbook := [("Codes", descending_sheet)].

(** The first column is the best for both roles; the other one has the
    header [0]. *)
Definition zero_label_sheet : DataFrame :=
  {| columns := [LStr "A"; LInt 0];
     rows := [[Some "0010"; Some "x"];
              [Some "111021"; Some "11-1021"]] |}.

Definition zero_label_book : workbook := [("Codes", zero_label_sheet)].

(** A sheet with one column. *)
Definition one_column_sheet : DataFrame :=
  {| columns := [LStr "A"];
     rows := [[Some "0010"]; [Some "111021"]] |}.

(** Three sheets, the strongest one in the middle. *)
Definition weak_sheet : DataFrame :=
  {| columns := [LStr "Notes"; LStr "More"];
     rows := [[Some "see below"; Some "n/a"]] |}.

Definition weak_book : workbook := [("Overview", weak_sheet)].

Definition three_sheet_book : workbook :=
  [("Overview", weak_sheet); ("Codes", ambiguous_sheet); ("Notes", weak_sheet)].

(** The workbook table of the preferred-code script: OCC 0010 with a major
    group and with a specific SOC code. *)
Definition preferred_table : Frame From2018File.xcell :=
  {| columns := From2018File.need;
     rows := [[From2018File.XStr "0010"; From2018File.XStr "11-0000"];
              [From2018File.XStr "0010"; From2018File.XStr "11-9999"]] |}.

(** A sheet for the 2018-xwalk script: a blank OCC cell, padded and
    unpadded spellings of one OCC, SOC codes in three spellings and one
    cell that is no code; and a workbook with a sheet that fails to load. *)
Definition xwalk_sheet : DataFrame :=
  {| columns := [LStr "2018 Census Code"; LStr "SOC"];
     rows := [[Some "0010"; Some "11-1021"];
              [None; Some "11.3031"];
              [Some " 010 "; Some "111011"];
              [Some "4700"; Some "n/a"]] |}.


(** A table whose cells hold the texts of the two patterns of the
    preferred-code script. *)
Definition pattern_text_table : Frame From2018File.xcell :=
  {| columns := From2018File.need;
     rows := [[From2018File.XStr "code \dddd"; From2018File.XStr "\dd-\dddd"];
              [From2018File.XInt 10; From2018File.XStr "11-1021"]] |}.

End Examples.


(** ** The command line of the autodetect script *)

Module Cli.
Import Autodetect.

(** What [main] prints on [stderr] itself, next to the events of the build. *)
Inductive output : Type :=
  | FromBuild (e : event)
  | ErrInputNotFound
  | ErrFailed (e : pyexn).

(** [main] after [parse_args]: [xlsx] is the workbook at [args.xlsx], [None]
    when the file does not exist; the result is what was printed and written
    and the exit status ([0] for a normal return). *)
Definition main (xlsx : option workbook) (sheet : option string)
    (allow_multi_soc verbose : bool) : list output * Z :=
  match xlsx with
  | None => ([ErrInputNotFound], 2)
  | Some wb =>
      match build_crosswalk wb sheet allow_multi_soc verbose with
      | (log, Ok _) => (map FromBuild log, 0)
      | (log, Raise e) => ((map FromBuild log ++ [ErrFailed e])%list, 1)
      end
  end.

End Cli.

(** ** Meaning of the patterns and shapes of the codes *)

Module Shape.
Import Autodetect.

(** The strings a pattern denotes. *)
Inductive lang : Re.re -> string -> Prop :=
  | lang_eps : lang Re.Eps EmptyString
  | lang_cls (p : ascii -> bool) (c : ascii) :
      p c = true -> lang (Re.Cls p) (String c EmptyString)
  | lang_seq (a b : Re.re) (s1 s2 : string) :
      lang a s1 -> lang b s2 -> lang (Re.Seq a b) (s1 ++ s2)
  | lang_alt_l (a b : Re.re) (s : string) : lang a s -> lang (Re.Alt a b) s
  | lang_alt_r (a b : Re.re) (s : string) : lang b s -> lang (Re.Alt a b) s
  | lang_star_nil (a : Re.re) : lang (Re.Star a) EmptyString
  | lang_star_app (a : Re.re) (s1 s2 : string) :
      lang a s1 -> lang (Re.Star a) s2 -> lang (Re.Star a) (s1 ++ s2).

(** A canonical OCC code: exactly four digits. *)
Definition is_occ_code (s : string) : bool :=
  (Nat.eqb (String.length s) 4 && str_forall is_digit s)%bool.

(** A canonical SOC code: two digits, a hyphen, four digits. *)
Definition is_soc_code (s : string) : bool :=
  match s with
  | String a (String b (String h (String c (String d (String e (String f EmptyString)))))) =>
      (is_digit a && is_digit b && Ascii.eqb h "-"
       && is_digit c && is_digit d && is_digit e && is_digit f)%bool
  | _ => false
  end.

(** The separators 28..31, which [strip] removes and [float] does not skip. *)
Definition is_separator (c : ascii) : bool := between 28 31 c.


(** The rows of [clean_map] before its two [drop_duplicates] and the sort. *)
Definition clean_candidates (df : DataFrame) (occ_col soc_col : label) : table :=
  let s_occ := map strip (Xwalk2018.col_str df occ_col) in
  let s_soc := map strip (Xwalk2018.col_str df soc_col) in
  let occ := map (fun v => zfill 4 (Xwalk2018.last4 (Xwalk2018.digits_only v))) s_occ in
  let soc := map (fun v => let soc6 := take 6 (Xwalk2018.digits_only v) in
                           take 2 soc6 ++ "-" ++ drop 2 soc6) s_soc in
  filter (fun r => Re.match_to_end Xwalk2018.SOC_OUT (snd r))
    (filter (fun r => Re.match_to_end Xwalk2018.OCC_OUT (fst r)) (combine occ soc)).

(** What [clean_map] makes of one cell of the OCC column and of one cell of
    the SOC column, both as [astype(str)] gives them. *)
Definition clean_occ (v : string) : string :=
  zfill 4 (Xwalk2018.last4 (Xwalk2018.digits_only (strip v))).

Definition clean_soc (v : string) : string :=
  let soc6 := take 6 (Xwalk2018.digits_only (strip v)) in
  take 2 soc6 ++ "-" ++ drop 2 soc6.

Definition newline : ascii := ascii_of_nat 10.


(** A column of [df] with at least one cell other than ["nan"]. *)
Definition scorable (df : DataFrame) (c : label) : Prop :=
  In c (columns df) /\ Xwalk2018.tot_of (Xwalk2018.col_str df c) <> O.

(** A best column and its score as the loops of [score_columns] keep them:
    no column and the score [-1], or a column with a cell to score and a
    score between 0 and 1.02. *)
Definition best_ok (df : DataFrame) (best : option label) (sc : Q) : Prop :=
  match best with
  | None => sc = (-1)%Q
  | Some c => scorable df c /\ (0 <= sc)%Q /\ (sc <= 102 # 100)%Q
  end.

End Shape.

(** * Properties *)

Import Autodetect Aux Examples.

(** ** Strings *)

Lemma span_spec (p : ascii -> bool) (t a b : string) :
  span p t = (a, b) -> t = (a ++ b)%string /\ str_forall p a = true.
Proof.
  revert a b. induction t as [|c r IH]; simpl; intros a b H.
  - inversion H; subst. split; reflexivity.
  - destruct (p c) eqn:Hc.
    + destruct (span p r) as [a' b'] eqn:Hs. inversion H; subst.
      destruct (IH a' b eq_refl) as [-> Hall]. simpl. rewrite Hc, Hall.
      split; reflexivity.
    + inversion H; subst. split; reflexivity.
Qed.

Lemma str_forall_app (p : ascii -> bool) (a b : string) :
  str_forall p (a ++ b) = (str_forall p a && str_forall p b)%bool.
Proof.
  induction a as [|c r IH]; simpl; [reflexivity|].
  rewrite IH. apply andb_assoc.
Qed.

Lemma str_forall_impl (p q : ascii -> bool) (t : string) :
  (forall c, p c = true -> q c = true) ->
  str_forall p t = true -> str_forall q t = true.
Proof.
  intros Hpq. induction t as [|c r IH]; simpl; [reflexivity|].
  intros H. apply andb_true_iff in H as [Hc Hr].
  rewrite (Hpq c Hc), (IH Hr). reflexivity.
Qed.

(** Right-trimming by a larger class agrees when the result holds none of it. *)
Lemma rtrim_weaken (p q : ascii -> bool) (u : string) :
  (forall c, q c = true -> p c = true) ->
  str_forall (fun c => negb (p c)) (rtrim q u) = true ->
  rtrim p u = rtrim q u.
Proof.
  intros Hqp. induction u as [|c r IH]; simpl; [reflexivity|].
  destruct (q c) eqn:Hq; simpl.
  - destruct (is_empty (rtrim q r)) eqn:He; simpl.
    + intros _. rewrite (Hqp c Hq). simpl.
      destruct (rtrim q r); [|discriminate].
      rewrite IH by reflexivity. reflexivity.
    + intros H. apply andb_true_iff in H as [Hc Hr].
      rewrite (Hqp c Hq) in Hc. discriminate.
  - intros H. apply andb_true_iff in H as [Hc Hr].
    apply negb_true_iff in Hc. rewrite Hc. simpl.
    rewrite (IH Hr). reflexivity.
Qed.

Lemma ltrim_weaken (p q : ascii -> bool) (v : string) :
  (forall c, q c = true -> p c = true) ->
  match ltrim q v with
  | EmptyString => True
  | String c _ => p c = false
  end ->
  ltrim p v = ltrim q v.
Proof.
  intros Hqp. induction v as [|c r IH]; simpl; [reflexivity|].
  destruct (q c) eqn:Hq.
  - intros H. rewrite (Hqp c Hq). apply IH, H.
  - intros H. rewrite H. reflexivity.
Qed.

Lemma rtrim_head (p : ascii -> bool) (u : string) (c : ascii) (r : string) :
  rtrim p u = String c r -> exists r', u = String c r'.
Proof.
  destruct u as [|d u']; simpl; [discriminate|].
  destruct (p d && is_empty (rtrim p u'))%bool; [discriminate|].
  intros H. inversion H; subst. eauto.
Qed.

Lemma trim_weaken (p q : ascii -> bool) (v : string) :
  (forall c, q c = true -> p c = true) ->
  trim q v <> EmptyString ->
  str_forall (fun c => negb (p c)) (trim q v) = true ->
  trim p v = trim q v.
Proof.
  intros Hqp Hne Hclean. unfold trim in *.
  assert (Hl : ltrim p v = ltrim q v).
  { apply ltrim_weaken; [exact Hqp|].
    destruct (rtrim q (ltrim q v)) as [|c r] eqn:Ht; [congruence|].
    destruct (rtrim_head _ _ _ _ Ht) as [r' Hu]. rewrite Hu.
    simpl in Hclean. apply andb_true_iff in Hclean as [Hc _].
    apply negb_true_iff in Hc. exact Hc. }
  rewrite Hl. apply rtrim_weaken; assumption.
Qed.

Lemma trim_clean (p : ascii -> bool) (t : string) :
  str_forall (fun c => negb (p c)) t = true -> trim p t = t.
Proof.
  intros H. unfold trim.
  assert (Hl : ltrim p t = t).
  { destruct t as [|c r]; simpl in *; [reflexivity|].
    apply andb_true_iff in H as [Hc _]. apply negb_true_iff in Hc.
    rewrite Hc. reflexivity. }
  rewrite Hl. clear Hl. induction t as [|c r IH]; simpl in *; [reflexivity|].
  apply andb_true_iff in H as [Hc Hr]. apply negb_true_iff in Hc.
  rewrite Hc, (IH Hr). reflexivity.
Qed.

Lemma digit_or_dot_not_space (c : ascii) :
  digit_or_dot c = true -> negb (is_space c) = true.
Proof.
  unfold digit_or_dot, is_space, is_cspace, is_digit, between.
  intros H. apply orb_true_iff in H as [H|H].
  - apply andb_true_iff in H as [H1 H2].
    apply Nat.leb_le in H1, H2.
    apply negb_true_iff. repeat (apply orb_false_iff; split);
      try (apply andb_false_iff);
      try (apply Nat.eqb_neq; lia);
      try (left; apply Nat.leb_gt; lia); try (right; apply Nat.leb_gt; lia).
  - apply Ascii.eqb_eq in H. subst c. reflexivity.
Qed.

Lemma cspace_is_space (c : ascii) : is_cspace c = true -> is_space c = true.
Proof. unfold is_space. intros ->. reflexivity. Qed.

(** When [float] accepts the raw string, the stripped string parses alike. *)
Lemma int_float_strip (v : string) :
  int_float v <> FloatErr -> int_float (strip v) = int_float v.
Proof.
  intros Hok.
  assert (Ht : trim is_cspace v <> EmptyString
               /\ str_forall digit_or_dot (trim is_cspace v) = true).
  { unfold int_float in Hok.
    destruct (span is_digit (trim is_cspace v)) as [ip rest] eqn:Hs.
    destruct (span_spec _ _ _ _ Hs) as [Heq Hip]. rewrite Heq.
    assert (Hipd : str_forall digit_or_dot ip = true).
    { apply (str_forall_impl is_digit); [|exact Hip].
      intros c Hc. unfold digit_or_dot. rewrite Hc. reflexivity. }
    destruct rest as [|c fp].
    - destruct ip; [exfalso; apply Hok; reflexivity|].
      split; [discriminate|]. rewrite str_forall_app, Hipd. reflexivity.
    - destruct (Ascii.eqb c "." && str_forall is_digit fp)%bool eqn:Hc; [|congruence].
      apply andb_true_iff in Hc as [Hc Hfp].
      split; [destruct ip; discriminate|].
      rewrite str_forall_app, Hipd. simpl.
      unfold digit_or_dot at 1. rewrite Hc, orb_true_r. simpl.
      apply (str_forall_impl is_digit); [|exact Hfp].
      intros c' Hc'. unfold digit_or_dot. rewrite Hc'. reflexivity. }
  destruct Ht as [Hne Hdd].
  assert (Hclean : str_forall (fun c => negb (is_space c)) (trim is_cspace v) = true).
  { apply (str_forall_impl digit_or_dot); [apply digit_or_dot_not_space|exact Hdd]. }
  assert (Hstrip : strip v = trim is_cspace v).
  { unfold strip. apply trim_weaken; [apply cspace_is_space|exact Hne|exact Hclean]. }
  assert (Hfix : trim is_cspace (trim is_cspace v) = trim is_cspace v).
  { apply trim_clean. apply (str_forall_impl (fun c => negb (is_space c))); [|exact Hclean].
    intros c Hc. apply negb_true_iff in Hc. apply negb_true_iff.
    destruct (is_cspace c) eqn:E; [|reflexivity].
    rewrite (cspace_is_space c E) in Hc. discriminate. }
  rewrite Hstrip. unfold int_float at 1. rewrite Hfix. reflexivity.
Qed.

(** ** [normalize_occ] *)

Lemma normalize_occ_inv (val : cell) (s : string) :
  normalize_occ val = Ok (Some s) ->
  exists n, 0 <= n <= 9999 /\ s = fmt_04d n.
Proof.
  unfold normalize_occ. destruct (is_occ_like val) eqn:Hocc; simpl; [|discriminate].
  destruct val as [v|]; [|discriminate].
  destruct (int_float v) as [| |n] eqn:Hf; try discriminate.
  intros H. inversion H; subst. exists n. split; [|reflexivity].
  unfold is_occ_like in Hocc.
  destruct (str_exists _ (strip v)); [discriminate|].
  rewrite int_float_strip in Hocc by (rewrite Hf; discriminate).
  rewrite Hf in Hocc. apply andb_true_iff in Hocc as [H1 H2].
  apply Z.leb_le in H1, H2. lia.
Qed.

(** The guard of [normalize_occ] excludes the [FloatBig] outcome. *)
Lemma normalize_occ_not_big (v : string) :
  is_occ_like (Some v) = true -> int_float v <> FloatBig.
Proof.
  intros Hocc Hf. unfold is_occ_like in Hocc.
  destruct (str_exists _ (strip v)); [discriminate|].
  rewrite int_float_strip in Hocc by (rewrite Hf; discriminate).
  rewrite Hf in Hocc. discriminate.
Qed.

Lemma occ_check_all :
  forallb occ_check (map Z.of_nat (seq 0 (Z.to_nat 10000))) = true.
Proof. vm_compute. reflexivity. Qed.

Lemma occ_check_range (v : Z) : 0 <= v <= 9999 -> occ_check v = true.
Proof.
  intros Hv. pose proof occ_check_all as H.
  rewrite forallb_forall in H. apply H.
  apply in_map_iff. exists (Z.to_nat v). split; [lia|].
  apply in_seq. lia.
Qed.

(** C9. For every integer [v] in [0, 9999], [normalize_occ(str(v))] is [v]
    zero-padded to exactly four digits, and [normalize_occ] maps every value
    it has produced to itself. *)
Theorem normalize_occ_pad4_idempotent :
  (forall v, 0 <= v <= 9999 ->
     normalize_occ (Some (str_of_int v)) = Ok (Some (fmt_04d v))
     /\ String.length (fmt_04d v) = 4%nat
     /\ str_forall is_digit (fmt_04d v) = true
     /\ digits_val 0 (fmt_04d v) = v)
  /\ (forall val s, normalize_occ val = Ok (Some s) ->
        normalize_occ (Some s) = Ok (Some s)).
Proof.
  assert (Hfix : forall v, 0 <= v <= 9999 ->
            normalize_occ (Some (str_of_int v)) = Ok (Some (fmt_04d v))
            /\ normalize_occ (Some (fmt_04d v)) = Ok (Some (fmt_04d v))
            /\ String.length (fmt_04d v) = 4%nat
            /\ str_forall is_digit (fmt_04d v) = true
            /\ digits_val 0 (fmt_04d v) = v).
  { intros v Hv. pose proof (occ_check_range v Hv) as H. unfold occ_check in H.
    destruct (normalize_occ (Some (str_of_int v))) as [[r|]|]; try discriminate.
    destruct (normalize_occ (Some (fmt_04d v))) as [[r'|]|]; try discriminate.
    repeat (apply andb_true_iff in H as [H ?]).
    apply String.eqb_eq in H. subst r.
    match goal with E : String.eqb r' _ = true |- _ => apply String.eqb_eq in E; subst r' end.
    repeat split; try assumption.
    - apply Nat.eqb_eq. assumption.
    - apply Z.eqb_eq. assumption. }
  split.
  - intros v Hv. destruct (Hfix v Hv) as (H1 & _ & H3 & H4 & H5). auto.
  - intros val s H. destruct (normalize_occ_inv val s H) as (n & Hn & ->).
    apply (Hfix n Hn).
Qed.

Lemma normalize_occ_pad4_idempotent_witness :
  normalize_occ (Some (str_of_int 7)) = Ok (Some "0007")
  /\ normalize_occ (Some "0012") = Ok (Some "0012").
Proof.
  destruct normalize_occ_pad4_idempotent as [Hpad Hidem]. split.
  - apply (Hpad 7). lia.
  - apply (Hidem (Some " 12.0 ") "0012"). reflexivity.
Defined.

(** ** Column scores *)

Lemma count_le_length {A : Type} (p : A -> bool) (l : list A) :
  (count p l <= length l)%nat.
Proof. unfold count. apply filter_length_le. Qed.

Lemma pos_of_nat_Z (n : nat) : (0 < n)%nat -> Z.pos (Pos.of_nat n) = Z.of_nat n.
Proof.
  destruct n as [|k]; [lia|]. intros _.
  rewrite <- Pos.of_nat_succ, Zpos_P_of_succ_nat. lia.
Qed.

Lemma ratio_ok (good len : nat) :
  (0 < len)%nat -> (good <= len)%nat ->
  ratio good len = Ok (Z.of_nat good # Pos.of_nat len)
  /\ (0 <= Z.of_nat good # Pos.of_nat len)%Q
  /\ (Z.of_nat good # Pos.of_nat len <= 1)%Q.
Proof.
  intros Hlen Hle. split; [destruct len; [lia|reflexivity]|].
  unfold Qle. simpl. rewrite (pos_of_nat_Z len Hlen). lia.
Qed.

Lemma head_nonempty {A : Type} (m : Z) (x : A) (l : list A) :
  1 <= m -> head m (x :: l) <> [].
Proof.
  intros Hm. unfold head. destruct (0 <=? m) eqn:E; [|apply Z.leb_gt in E; lia].
  destruct (Z.to_nat m) eqn:En; [lia|]. simpl. discriminate.
Qed.

Lemma fraction_of_total (p : string -> bool) (series : list cell) (m : Z) :
  1 <= m ->
  exists q, fraction_of p series m = Ok q
    /\ (0 <= q)%Q /\ (q <= 1)%Q
    /\ (dropna series = [] -> q = 0%Q)
    /\ (dropna series <> [] ->
        head m (dropna series) <> []
        /\ q = (Z.of_nat (count p (head m (dropna series)))
                # Pos.of_nat (length (head m (dropna series))))).
Proof.
  intros Hm. unfold fraction_of. destruct (dropna series) as [|x r] eqn:Hd.
  - exists 0%Q. split; [reflexivity|].
    split; [apply Qle_refl|]. split; [discriminate|].
    split; [reflexivity|]. intros H. exfalso. apply H. reflexivity.
  - pose proof (head_nonempty m x r Hm) as Hne.
    set (sample := head m (x :: r)) in *.
    assert (Hlen : (0 < length sample)%nat).
    { destruct sample; [congruence|simpl; lia]. }
    destruct (ratio_ok (count p sample) (length sample) Hlen (count_le_length p sample))
      as (Hr & H0 & H1).
    eexists. split; [exact Hr|].
    split; [exact H0|]. split; [exact H1|].
    split; [discriminate|]. intros _. split; [exact Hne|reflexivity].
Qed.



(** ** Labels, scores and [max] over a dict *)

Lemma label_eqb_eq (a b : label) : label_eqb a b = true <-> a = b.
Proof.
  destruct a as [s|n], b as [t|m]; simpl; split; intros H; try discriminate.
  - apply String.eqb_eq in H. congruence.
  - inversion H. apply String.eqb_refl.
  - apply Z.eqb_eq in H. congruence.
  - inversion H. apply Z.eqb_refl.
Qed.

Lemma label_eqb_refl (a : label) : label_eqb a a = true.
Proof. apply label_eqb_eq. reflexivity. Qed.

Lemma Qltb_lt (a b : Q) : Qltb a b = true <-> (a < b)%Q.
Proof.
  unfold Qltb. rewrite negb_true_iff. split.
  - intros H. apply Qnot_le_lt. intros Hle.
    apply Qle_bool_iff in Hle. congruence.
  - intros H. destruct (Qle_bool b a) eqn:E; [|reflexivity].
    apply Qle_bool_iff in E. exfalso. exact (Qlt_not_le _ _ H E).
Qed.

Lemma Qltb_ge (a b : Q) : Qltb a b = false <-> (b <= a)%Q.
Proof.
  unfold Qltb. rewrite negb_false_iff. apply Qle_bool_iff.
Qed.

(** [argmax_from] returns the start or an entry of the dict; its value is
    at least the start value and at least every value of the dict. *)
Lemma argmax_from_spec (d : list (label * Q)) (b : label) (bv : Q) :
  ((argmax_from b bv d = (b, bv)) \/ In (argmax_from b bv d) d)
  /\ (bv <= snd (argmax_from b bv d))%Q
  /\ (forall k v, In (k, v) d -> (v <= snd (argmax_from b bv d))%Q).
Proof.
  revert b bv. induction d as [|[k v] r IH]; intros b bv; simpl.
  - split; [left; reflexivity|]. split; [apply Qle_refl|]. intros ? ? [].
  - destruct (Qltb bv v) eqn:E.
    + destruct (IH k v) as (Hin & Hge & Hall).
      split; [destruct Hin as [->|Hin]; auto|].
      apply Qltb_lt in E. split.
      * apply Qle_trans with v; [apply Qlt_le_weak, E|exact Hge].
      * intros k' v' [H|H]; [inversion H; subst; exact Hge|eauto].
    + destruct (IH b bv) as (Hin & Hge & Hall).
      split; [destruct Hin as [->|Hin]; auto|].
      split; [exact Hge|].
      apply Qltb_ge in E.
      intros k' v' [H|H]; [inversion H; subst|eauto].
      apply Qle_trans with bv; assumption.
Qed.

(** [max(d, key=...)] is a key of [d] whose value no value of [d] exceeds. *)
Lemma dict_max_spec (d : list (label * Q)) (k : label) :
  dict_max d = Some k ->
  exists v, In (k, v) d /\ forall k' v', In (k', v') d -> (v' <= v)%Q.
Proof.
  destruct d as [|[k0 v0] r]; simpl; [discriminate|].
  intros H. inversion H as [Hk]. clear H.
  destruct (argmax_from_spec r k0 v0) as (Hin & Hge & Hall).
  destruct (argmax_from k0 v0 r) as [k1 v1] eqn:Em. simpl in *.
  exists v1. split.
  - destruct Hin as [Hin|Hin]; [inversion Hin; subst; auto|auto].
  - intros k' v' [H|H]; [inversion H; subst; exact Hge|eauto].
Qed.

Lemma dict_max_none (d : list (label * Q)) : dict_max d = None <-> d = [].
Proof.
  destruct d as [|[k v] r]; simpl; split; intros H;
    try reflexivity; discriminate.
Qed.

(** ** Column detection *)


(** ** [build_crosswalk]: its successful runs *)

Lemma drop_occs_nil (t : table) : drop_occs [] t = t.
Proof.
  unfold drop_occs. induction t as [|r t IH]; simpl; [reflexivity|].
  f_equal. exact IH.
Qed.

(** A run that returns a table went through every stage. *)
Lemma build_ok_inv (wb : workbook) (sheet : option string)
    (allow_multi_soc verbose : bool) (log : list event) (t : table) :
  build_crosswalk wb sheet allow_multi_soc verbose = (log, Ok t) ->
  exists l0 sheet_name df l1 o s os ss df1,
    pick_best_sheet wb sheet verbose = (l0, Ok (sheet_name, df))
    /\ detect_occ_soc_columns (dropna_all df) true = (l1, (Some o, Some s, os, ss))
    /\ truthy o = true /\ truthy s = true
    /\ (1 # 2 <= os)%Q /\ (1 # 2 <= ss)%Q
    /\ occ_stage (two_columns (dropna_all df) o s) = Ok df1
    /\ t = resolved allow_multi_soc df1
    /\ log = build_log verbose allow_multi_soc sheet_name
               (length (rows (dropna_all df))) l0 l1 df1.
Proof.
  unfold build_crosswalk, bind at 1.
  destruct (pick_best_sheet wb sheet verbose) as [l0 [[sheet_name df]|e]] eqn:Hpick;
    [|discriminate].
  unfold bind at 1, logged.
  destruct (detect_occ_soc_columns (dropna_all df) true) as [l1 [[[oc sc] os] ss]] eqn:Hdet.
  cbn [fst snd].
  destruct oc as [o|]; [|discriminate]. destruct sc as [s|]; [|discriminate].
  destruct (truthy o) eqn:Ho; [|discriminate].
  destruct (truthy s) eqn:Hs; [|discriminate].
  destruct (Qltb os (1 # 2)) eqn:Hos; [discriminate|].
  destruct (Qltb ss (1 # 2)) eqn:Hss; [discriminate|].
  cbn [negb orb].
  unfold bind, lift, say, ret.
  destruct (occ_stage (two_columns (dropna_all df) o s)) as [df1|e] eqn:Hocc;
    [|discriminate].
  intros H. exists l0, sheet_name, df, l1, o, s, os, ss, df1.
  apply Qltb_ge in Hos, Hss.
  repeat (split; [first [reflexivity | assumption]|]).
  unfold build_log; cbv zeta; unfold resolved, deduped, vsay.
  set (d := drop_dups pair_eqb (fun r => r) [] (soc_stage allow_multi_soc df1)) in *.
  destruct (ambiguous_occs d) as [|a amb] eqn:Hamb.
  - rewrite drop_occs_nil.
    destruct (Nat.ltb (length d) 100); destruct verbose; simpl in H;
      inversion H; subst; (split; [reflexivity|]);
      simpl; rewrite ?app_nil_r; reflexivity.
  - set (t' := drop_occs (a :: amb) d) in *.
    destruct (Nat.ltb (length t') 100); destruct verbose; simpl in H;
      inversion H; subst; (split; [reflexivity|]);
      simpl; rewrite ?app_nil_r; reflexivity.
Qed.

(** The converse: a run whose sheet, columns and OCC cells are fine returns
    the resolved table, whatever its size. *)
Lemma build_ok (wb : workbook) (sheet : option string) (allow_multi_soc verbose : bool)
    (l0 l1 : list event) (sheet_name : string) (df : DataFrame) (o s : label)
    (os ss : Q) (df1 : list (string * cell)) :
  pick_best_sheet wb sheet verbose = (l0, Ok (sheet_name, df)) ->
  detect_occ_soc_columns (dropna_all df) true = (l1, (Some o, Some s, os, ss)) ->
  truthy o = true -> truthy s = true ->
  (1 # 2 <= os)%Q -> (1 # 2 <= ss)%Q ->
  occ_stage (two_columns (dropna_all df) o s) = Ok df1 ->
  build_crosswalk wb sheet allow_multi_soc verbose
  = (build_log verbose allow_multi_soc sheet_name
       (length (rows (dropna_all df))) l0 l1 df1,
     Ok (resolved allow_multi_soc df1)).
Proof.
  intros Hpick Hdet Ho Hs Hos Hss Hocc.
  apply Qltb_ge in Hos, Hss.
  unfold build_crosswalk, bind at 1. rewrite Hpick.
  unfold bind at 1, logged. rewrite Hdet. cbn [fst snd].
  rewrite Ho, Hs, Hos, Hss. cbn [negb orb].
  unfold bind, lift, say, ret. rewrite Hocc.
  unfold build_log; cbv zeta; unfold resolved, deduped, vsay.
  set (d := drop_dups pair_eqb (fun r => r) [] (soc_stage allow_multi_soc df1)) in *.
  destruct (ambiguous_occs d) as [|a amb] eqn:Hamb.
  - rewrite drop_occs_nil.
    destruct (Nat.ltb (length d) 100); destruct verbose;
      simpl; rewrite ?app_nil_r; reflexivity.
  - set (t' := drop_occs (a :: amb) d) in *.
    destruct (Nat.ltb (length t') 100); destruct verbose;
      simpl; rewrite ?app_nil_r; reflexivity.
Qed.

(** The table is always written; a table of fewer than 100 rows is
    followed by the warning. *)
Lemma build_log_csv (verbose allow_multi_soc : bool) (sheet_name : string)
    (raw_rows : nat) (l0 l1 : list event) (df1 : list (string * cell)) :
  In (CsvWritten (resolved allow_multi_soc df1))
     (build_log verbose allow_multi_soc sheet_name raw_rows l0 l1 df1).
Proof.
  unfold build_log. cbv zeta. rewrite !in_app_iff. simpl. tauto.
Qed.


(** ** [drop_duplicates] *)

Section DropDups.
Context {A K : Type} (eqb : K -> K -> bool) (key : A -> K).
Hypothesis eqb_eq : forall a b, eqb a b = true <-> a = b.

Lemma existsb_eqb_In (k : K) (seen : list K) :
  existsb (eqb k) seen = true <-> In k seen.
Proof.
  rewrite existsb_exists. split.
  - intros (x & Hin & Hx). apply eqb_eq in Hx. subst. exact Hin.
  - intros H. exists k. split; [exact H|]. apply eqb_eq. reflexivity.
Qed.

Lemma drop_dups_In (x : A) (l : list A) (seen : list K) :
  In x (drop_dups eqb key seen l) -> In x l /\ ~ In (key x) seen.
Proof.
  revert seen. induction l as [|y r IH]; intros seen; simpl; [intros []|].
  destruct (existsb (eqb (key y)) seen) eqn:E.
  - intros H. destruct (IH _ H). auto.
  - intros [->|H].
    + split; [auto|]. intros Hin. apply existsb_eqb_In in Hin. congruence.
    + destruct (IH _ H) as [Hin Hn]. split; [auto|].
      intros Hs. apply Hn. right. exact Hs.
Qed.

Lemma drop_dups_keeps (x : A) (l : list A) (seen : list K) :
  In x l -> ~ In (key x) seen ->
  exists y, In y (drop_dups eqb key seen l) /\ key y = key x.
Proof.
  revert seen. induction l as [|y r IH]; intros seen; simpl; [intros []|].
  intros Hin Hseen.
  destruct (existsb (eqb (key y)) seen) eqn:E.
  - destruct Hin as [->|Hin]; [apply existsb_eqb_In in E; contradiction|].
    apply IH; assumption.
  - destruct Hin as [->|Hin]; [exists x; simpl; auto|].
    destruct (eqb (key x) (key y)) eqn:Exy.
    + apply eqb_eq in Exy. exists y. simpl. auto.
    + destruct (IH (key y :: seen) Hin) as (z & Hz & Hk).
      * intros [H|H]; [|contradiction].
        symmetry in H. apply eqb_eq in H. congruence.
      * exists z. simpl. auto.
Qed.

Lemma drop_dups_NoDup (l : list A) (seen : list K) :
  NoDup (map key (drop_dups eqb key seen l)).
Proof.
  revert seen. induction l as [|y r IH]; intros seen; simpl; [constructor|].
  destruct (existsb (eqb (key y)) seen) eqn:E; [apply IH|].
  simpl. constructor; [|apply IH].
  intros Hin. apply in_map_iff in Hin as (z & Hk & Hz).
  apply drop_dups_In in Hz as [_ Hn]. apply Hn. left. congruence.
Qed.
End DropDups.

Lemma pair_eqb_eq (a b : string * string) : pair_eqb a b = true <-> a = b.
Proof.
  destruct a as [a1 a2], b as [b1 b2]. unfold pair_eqb. simpl.
  rewrite andb_true_iff, !String.eqb_eq. split.
  - intros [-> ->]. reflexivity.
  - intros H. inversion H. auto.
Qed.


(** ** Ambiguous OCC codes *)

Lemma occ_count_pos (o : string) (t : table) :
  (0 < occ_count o t)%nat <-> exists s, In (o, s) t.
Proof.
  unfold occ_count, count. induction t as [|[o' s'] r IH]; simpl.
  - split; [lia|intros [? []]].
  - destruct (String.eqb o' o) eqn:E; simpl.
    + apply String.eqb_eq in E. subst. split; [eauto|lia].
    + rewrite IH. split.
      * intros [s H]. eauto.
      * intros [s [H|H]]; [|eauto].
        inversion H; subst. rewrite String.eqb_refl in E. discriminate.
Qed.

Lemma occ_count_filter (p : string * string -> bool) (o : string) (t : table) :
  (occ_count o (filter p t) <= occ_count o t)%nat.
Proof.
  unfold occ_count, count. induction t as [|r t IH]; simpl; [lia|].
  destruct (p r); simpl; destruct (String.eqb (fst r) o); simpl; lia.
Qed.

Lemma ambiguous_occs_spec (d : table) :
  NoDup (ambiguous_occs d)
  /\ forall o, In o (ambiguous_occs d) <-> (1 < occ_count o d)%nat.
Proof.
  unfold ambiguous_occs. split.
  - pose proof (drop_dups_NoDup String.eqb (fun o : string => o) String.eqb_eq
                  (map fst (filter (fun r => Nat.ltb 1 (occ_count (fst r) d)) d)) []) as H.
    rewrite map_id in H. exact H.
  - intros o. split.
    + intros H.
      apply (drop_dups_In String.eqb (fun o : string => o) String.eqb_eq) in H as [H _].
      apply in_map_iff in H as ([o' s] & Ho & Hin). simpl in Ho. subst o'.
      apply filter_In in Hin as [_ Hc]. apply Nat.ltb_lt in Hc. exact Hc.
    + intros Hc.
      assert (Hpos : (0 < occ_count o d)%nat) by lia.
      apply occ_count_pos in Hpos as [s Hs].
      destruct (drop_dups_keeps String.eqb (fun o : string => o) String.eqb_eq o
                  (map fst (filter (fun r => Nat.ltb 1 (occ_count (fst r) d)) d)) [])
        as (y & Hy & ->); auto.
      apply in_map_iff. exists (o, s). split; [reflexivity|].
      apply filter_In. split; [exact Hs|]. apply Nat.ltb_lt. exact Hc.
Qed.

Lemma drop_occs_In (amb : list string) (d : table) (r : string * string) :
  In r (drop_occs amb d) <-> In r d /\ ~ In (fst r) amb.
Proof.
  unfold drop_occs. rewrite filter_In, negb_true_iff.
  rewrite <- (existsb_eqb_In String.eqb String.eqb_eq).
  destruct (existsb (String.eqb (fst r)) amb); split; intros [H1 H2];
    split; auto; try discriminate. exfalso. apply H2. reflexivity.
Qed.

Lemma NoDup_fst_of_counts (t : table) :
  (forall o, (occ_count o t <= 1)%nat) -> NoDup (map fst t).
Proof.
  induction t as [|[o s] r IH]; simpl; intros H; [constructor|].
  constructor.
  - intros Hin. apply in_map_iff in Hin as ([o' s'] & Ho & Hin). simpl in Ho. subst o'.
    assert (Hpos : (0 < occ_count o r)%nat) by (apply occ_count_pos; eauto).
    specialize (H o). unfold occ_count, count in *. simpl in H.
    rewrite String.eqb_refl in H. simpl in H. lia.
  - apply IH. intros o'. specialize (H o').
    unfold occ_count, count in *. simpl in H.
    destruct (String.eqb o o'); simpl in H; lia.
Qed.

(** What the one-to-one filter leaves: the rows of the unambiguous OCCs,
    hence at most one row per OCC. *)
Lemma resolved_spec (allow_multi_soc : bool) (df1 : list (string * cell)) :
  let d := deduped allow_multi_soc df1 in
  let t := resolved allow_multi_soc df1 in
  (forall o s, In (o, s) t <-> In (o, s) d /\ occ_count o d = 1%nat)
  /\ NoDup (map fst t).
Proof.
  intros d t. unfold t, resolved. fold d.
  destruct (ambiguous_occs_spec d) as [_ Hamb].
  assert (Hrows : forall o s, In (o, s) (drop_occs (ambiguous_occs d) d)
                    <-> In (o, s) d /\ occ_count o d = 1%nat).
  { intros o s. rewrite drop_occs_In. simpl. rewrite Hamb. split.
    - intros [Hin Hn]. split; [exact Hin|].
      assert (0 < occ_count o d)%nat by (apply occ_count_pos; eauto). lia.
    - intros [Hin Hc]. split; [exact Hin|lia]. }
  split; [exact Hrows|].
  apply NoDup_fst_of_counts. intros o.
  destruct (le_lt_dec (occ_count o (drop_occs (ambiguous_occs d) d)) 1) as [H|H];
    [exact H|].
  assert (Hpos : (0 < occ_count o (drop_occs (ambiguous_occs d) d))%nat) by lia.
  apply occ_count_pos in Hpos as [s Hs]. apply Hrows in Hs as [_ Hc].
  pose proof (occ_count_filter
                (fun r => negb (existsb (String.eqb (fst r)) (ambiguous_occs d))) o d) as Hle.
  unfold drop_occs in H. lia.
Qed.

(** ** Conflict resolution *)




(** C1. In expand mode the cell ["15-1132, 15-1133"] of OCC 0010 is
    exploded into two rows, and both are then removed by the one-to-one
    filter: the table returned has no row for OCC 0010. *)
Theorem expand_mode_loses_multi_soc_occ :
  deduped true [("0010", Some "15-1132, 15-1133"); ("0020", Some "11-1021")]
  = [("0010", "15-1132"); ("0010", "15-1133"); ("0020", "11-1021")]
  /\ build_crosswalk multi_soc_book None true false
     = ([MsgDetect (Some (LStr "Census")) (Some (LStr "SOC")) (2 # 2) (2 # 2);
         CsvWritten [("0020", "11-1021")];
         WarnSmall 1],
        Ok [("0020", "11-1021")]).
Proof. split; vm_compute; reflexivity. Qed.

(** In either mode the table returned holds at most one row per OCC. *)
Lemma build_one_row_per_occ (wb : workbook) (sheet : option string)
    (allow_multi_soc verbose : bool) (log : list event) (t : table) :
  build_crosswalk wb sheet allow_multi_soc verbose = (log, Ok t) ->
  NoDup (map fst t).
Proof.
  intros H.
  destruct (build_ok_inv _ _ _ _ _ _ H)
    as (l0 & sheet_name & df & l1 & o & s & os & ss & df1
        & _ & _ & _ & _ & _ & _ & _ & Ht & _).
  subst t. apply resolved_spec.
Qed.

(** ** Scores lie between 0 and 1 *)

Lemma dict_set_In {V : Type} (k k' : label) (v v' : V) (d : list (label * V)) :
  In (k', v') (dict_set k v d) -> (k', v') = (k, v) \/ In (k', v') d.
Proof.
  induction d as [|[k0 v0] r IH]; simpl.
  - intros [H|[]]. left. congruence.
  - destruct (label_eqb k k0); simpl.
    + intros [H|H]; [left; congruence|right; right; exact H].
    + intros [H|H]; [right; left; exact H|].
      destruct (IH H); [left|right; right]; assumption.
Qed.

Lemma dict_get_In {V : Type} (k : label) (v : V) (d : list (label * V)) :
  dict_get k d = Some v -> In (k, v) d.
Proof.
  induction d as [|[k0 v0] r IH]; simpl; [discriminate|].
  destruct (label_eqb k k0) eqn:E.
  - intros H. inversion H; subst. apply label_eqb_eq in E. subst. left. reflexivity.
  - intros H. right. apply IH, H.
Qed.

Lemma score_pair_bounds (series : list cell) :
  (0 <= fst (score_pair series) <= 1)%Q /\ (0 <= snd (score_pair series) <= 1)%Q.
Proof.
  unfold score_pair.
  assert (Hm : 1 <= max_sample_default) by (unfold max_sample_default; lia).
  destruct (fraction_of_total (fun v => is_occ_like (Some v)) series _ Hm)
    as (a & Ha & Ha0 & Ha1 & _).
  destruct (fraction_of_total any_soc series _ Hm) as (b & Hb & Hb0 & Hb1 & _).
  change (column_score_occ series max_sample_default = Ok a) in Ha.
  change (column_score_soc series max_sample_default = Ok b) in Hb.
  rewrite Ha, Hb. simpl. auto.
Qed.

Lemma scores_of_bounds (pick : Q * Q -> Q) (df : DataFrame) :
  (forall p, (0 <= fst p <= 1)%Q /\ (0 <= snd p <= 1)%Q -> (0 <= pick p <= 1)%Q) ->
  forall k v, In (k, v) (scores_of pick df) -> (0 <= v <= 1)%Q.
Proof.
  intros Hpick. unfold scores_of.
  assert (Hgen : forall cs d,
            (forall k v, In (k, v) d -> (0 <= v <= 1)%Q) ->
            forall k v,
              In (k, v) (fold_left
                           (fun d c => dict_set c (pick (score_pair (pretrim (column None df c)))) d)
                           cs d) ->
              (0 <= v <= 1)%Q).
  { induction cs as [|c cs IH]; intros d Hd k v; simpl; [apply Hd|].
    apply IH. intros k' v' Hin. apply dict_set_In in Hin as [Hin|Hin].
    - inversion Hin; subst. apply Hpick, score_pair_bounds.
    - eapply Hd, Hin. }
  apply Hgen. intros ? ? [].
Qed.

Lemma unit_zero : (0 <= 0 <= 1)%Q.
Proof. split; discriminate. Qed.

(** Both scores returned by [detect_occ_soc_columns] are in [0, 1]. *)
Lemma detect_scores_bounds (df : DataFrame) (verbose : bool) :
  let os := snd (fst (snd (detect_occ_soc_columns df verbose))) in
  let ss := snd (snd (detect_occ_soc_columns df verbose)) in
  (0 <= os <= 1)%Q /\ (0 <= ss <= 1)%Q.
Proof.
  unfold detect_occ_soc_columns.
  destruct (df_empty df); simpl; [split; apply unit_zero|].
  pose proof (scores_of_bounds fst df (fun p H => proj1 H)) as Hocc.
  pose proof (scores_of_bounds snd df (fun p H => proj2 H)) as Hsoc.
  set (occ_scores := scores_of fst df) in *.
  set (soc_scores := scores_of snd df) in *.
  assert (Hat : forall d b,
            (forall k v, In (k, v) d -> (0 <= v <= 1)%Q) ->
            (0 <= match b with
                  | Some k => if truthy k
                              then match dict_get k d with Some v => v | None => 0%Q end
                              else 0%Q
                  | None => 0%Q
                  end <= 1)%Q).
  { intros d [k|] Hd; [|apply unit_zero].
    destruct (truthy k); [|apply unit_zero].
    destruct (dict_get k d) as [v|] eqn:E; [|apply unit_zero].
    apply (Hd k), dict_get_In, E. }
  pose proof (Hat occ_scores (dict_max occ_scores) Hocc) as Ho1.
  pose proof (Hat soc_scores (dict_max soc_scores) Hsoc) as Hs1.
  destruct (dict_max occ_scores) as [o|]; destruct (dict_max soc_scores) as [s|];
    try (split; [exact Ho1|exact Hs1]).
  destruct (label_eqb s o); [|split; [exact Ho1|exact Hs1]].
  set (others := filter (fun kv => negb (label_eqb (fst kv) o)) soc_scores).
  destruct (dict_max others) as [s'|]; simpl.
  - split; [exact Ho1|].
    destruct (dict_get s' others) as [v|] eqn:E; [|apply unit_zero].
    apply dict_get_In in E. apply filter_In in E as [E _]. apply (Hsoc s'), E.
  - split; [exact Ho1|apply unit_zero].
Qed.


(** ** Sheet selection *)



Lemma bind_ok {A B : Type} (l : list event) (a : A) (k : A -> M B) :
  bind (l, Ok a) k = ((l ++ fst (k a))%list, snd (k a)).
Proof. unfold bind. destruct (k a). reflexivity. Qed.

Lemma say_then_ret {A : Type} (verbose : bool) (e : event) (a : A) :
  (say verbose e ;;; ret a) = (vsay verbose e, Ok a).
Proof. destruct verbose; reflexivity. Qed.




Example three_sheet_book_picks_codes :
  pick_best_sheet three_sheet_book None true
  = ([MsgAutoSelected "Codes" (9 # 9)], Ok ("Codes", ambiguous_sheet)).
Proof. vm_compute. reflexivity. Qed.


(** ** Validation of the detection *)

Lemma map_result_raise (l : list cell) (e : pyexn) :
  map_result normalize_occ l = Raise e -> e = FloatValueError.
Proof.
  induction l as [|x r IH]; simpl; [discriminate|].
  destruct (normalize_occ x) as [y|e'] eqn:Ex.
  - destruct (map_result normalize_occ r) as [ys|e'']; [discriminate|].
    intros H. inversion H; subst. apply IH. reflexivity.
  - intros H. inversion H; subst. unfold normalize_occ in Ex.
    destruct (negb (is_occ_like x)); [discriminate|].
    destruct x as [v|]; [|discriminate].
    destruct (int_float v); congruence.
Qed.

Lemma occ_stage_raise (raw : list (cell * cell)) (e : pyexn) :
  occ_stage raw = Raise e -> e = FloatValueError.
Proof.
  unfold occ_stage.
  destruct (map_result normalize_occ (map fst raw)) as [occs|e'] eqn:E; [discriminate|].
  intros H. inversion H; subst. eapply map_result_raise, E.
Qed.

(** A detection that is not valid stops the build with [DetectionFailed],
    after the sheet choice and the detection have printed. *)
Lemma build_rejected (wb : workbook) (sheet : option string)
    (allow_multi_soc verbose : bool) (l0 l1 : list event) (sheet_name : string)
    (df : DataFrame) (oc sc : option label) (os ss : Q) :
  pick_best_sheet wb sheet verbose = (l0, Ok (sheet_name, df)) ->
  detect_occ_soc_columns (dropna_all df) true = (l1, (oc, sc, os, ss)) ->
  detection_valid (oc, sc, os, ss) = false ->
  build_crosswalk wb sheet allow_multi_soc verbose
  = ((l0 ++ l1)%list, Raise (DetectionFailed sheet_name os ss)).
Proof.
  intros Hpick Hdet Hv.
  unfold build_crosswalk. rewrite Hpick, bind_ok. unfold logged.
  rewrite bind_ok, Hdet. cbn [fst snd].
  unfold detection_valid in Hv.
  destruct oc as [o|]; [destruct sc as [s|]|];
    try (unfold raise; cbn [fst snd]; rewrite !app_nil_r; reflexivity).
  simpl in Hv.
  destruct (truthy o), (truthy s), (Qltb os (1 # 2)), (Qltb ss (1 # 2));
    simpl in Hv; try discriminate;
    unfold raise; cbn [fst snd negb orb]; rewrite !app_nil_r; reflexivity.
Qed.

(** A valid detection lets the build go on: it ends with the table, or with
    the exception of the OCC stage. *)
Lemma build_accepted (wb : workbook) (sheet : option string)
    (allow_multi_soc verbose : bool) (l0 l1 : list event) (sheet_name : string)
    (df : DataFrame) (oc sc : option label) (os ss : Q) :
  pick_best_sheet wb sheet verbose = (l0, Ok (sheet_name, df)) ->
  detect_occ_soc_columns (dropna_all df) true = (l1, (oc, sc, os, ss)) ->
  detection_valid (oc, sc, os, ss) = true ->
  snd (build_crosswalk wb sheet allow_multi_soc verbose) = Raise FloatValueError
  \/ exists t, snd (build_crosswalk wb sheet allow_multi_soc verbose) = Ok t
               /\ In (CsvWritten t) (fst (build_crosswalk wb sheet allow_multi_soc verbose)).
Proof.
  intros Hpick Hdet Hv. unfold detection_valid in Hv.
  destruct oc as [o|]; [|discriminate]. destruct sc as [s|]; [|simpl in Hv; rewrite andb_false_r in Hv; discriminate].
  simpl in Hv. repeat (apply andb_true_iff in Hv as [Hv ?]).
  repeat match goal with H : negb _ = true |- _ => apply negb_true_iff in H end.
  destruct (occ_stage (two_columns (dropna_all df) o s)) as [df1|e] eqn:Hocc.
  - right. exists (resolved allow_multi_soc df1).
    rewrite (build_ok wb sheet allow_multi_soc verbose l0 l1 sheet_name df o s os ss df1);
      try assumption; try (apply Qltb_ge; assumption).
    split; [reflexivity|]. cbn [fst]. apply build_log_csv.
  - left. pose proof (occ_stage_raise _ _ Hocc) as ->.
    unfold build_crosswalk. rewrite Hpick, bind_ok. unfold logged.
    rewrite bind_ok, Hdet. cbn [fst snd].
    match goal with H : truthy o = true |- _ => rewrite H end.
    match goal with H : truthy s = true |- _ => rewrite H end.
    match goal with H : Qltb os _ = false |- _ => rewrite H end.
    match goal with H : Qltb ss _ = false |- _ => rewrite H end.
    cbn [negb orb]. unfold say. rewrite bind_ok. cbn [fst snd].
    unfold lift. rewrite Hocc. reflexivity.
Qed.

Lemma detection_valid_false (oc sc : option label) (os ss : Q) :
  detection_valid (oc, sc, os, ss) = false
  <-> opt_truthy oc = false \/ opt_truthy sc = false
      \/ (os < 1 # 2)%Q \/ (ss < 1 # 2)%Q.
Proof.
  unfold detection_valid.
  rewrite !andb_false_iff, !negb_false_iff, !Qltb_lt. tauto.
Qed.

(** What the validation checks.  Once a sheet is picked, the build fails
    with [DetectionFailed], carrying the sheet name and both scores, exactly
    when the occ or the soc column is absent or has a falsy label ([""] or
    [0]), or one of the two scores is below 1/2; otherwise the validation
    passes and the build ends with the written table or with the exception of
    the OCC stage. *)
Theorem detection_failure_iff (wb : workbook) (sheet : option string)
    (allow_multi_soc verbose : bool) (l0 : list event) (sheet_name : string)
    (df : DataFrame) :
  pick_best_sheet wb sheet verbose = (l0, Ok (sheet_name, df)) ->
  let det := snd (detect_occ_soc_columns (dropna_all df) true) in
  let occ_col := fst (fst (fst det)) in
  let soc_col := snd (fst (fst det)) in
  let occ_score := snd (fst det) in
  let soc_score := snd det in
  let rejected :=
    opt_truthy occ_col = false \/ opt_truthy soc_col = false
    \/ (occ_score < 1 # 2)%Q \/ (soc_score < 1 # 2)%Q in
  let run := build_crosswalk wb sheet allow_multi_soc verbose in
  (rejected <-> snd run = Raise (DetectionFailed sheet_name occ_score soc_score))
  /\ (forall sh a b, snd run = Raise (DetectionFailed sh a b) -> rejected)
  /\ (~ rejected ->
      snd run = Raise FloatValueError
      \/ exists t, snd run = Ok t /\ In (CsvWritten t) (fst run)).
Proof.
  intros Hpick.
  destruct (detect_occ_soc_columns (dropna_all df) true) as [l1 [[[oc sc] os] ss]] eqn:Hdet.
  cbn [fst snd]. cbv zeta.
  pose proof (detection_valid_false oc sc os ss) as Hrej.
  destruct (detection_valid (oc, sc, os, ss)) eqn:Hv.
  - pose proof (build_accepted wb sheet allow_multi_soc verbose _ _ _ _ _ _ _ _
                  Hpick Hdet Hv) as Hacc.
    assert (Hno : forall sh a b,
              snd (build_crosswalk wb sheet allow_multi_soc verbose)
              <> Raise (DetectionFailed sh a b)).
    { intros sh a b Hr.
      destruct Hacc as [Hacc|(t & Hacc & _)]; rewrite Hacc in Hr; discriminate. }
    split; [|split].
    + split; [intros Hr; apply Hrej in Hr; discriminate|].
      intros Hr. exfalso. exact (Hno _ _ _ Hr).
    + intros sh a b Hr. exfalso. exact (Hno _ _ _ Hr).
    + intros _. exact Hacc.
  - rewrite (build_rejected wb sheet allow_multi_soc verbose _ _ _ _ _ _ _ _
               Hpick Hdet Hv).
    cbn [fst snd]. split; [|split].
    + split; [reflexivity|]. intros _. apply Hrej. reflexivity.
    + intros sh a b _. apply Hrej. reflexivity.
    + intros Hn. exfalso. apply Hn, Hrej. reflexivity.
Qed.

Lemma detection_failure_iff_witness :
  snd (build_crosswalk weak_book None false false)
  = Raise (DetectionFailed "Overview" 0 0).
Proof.
  destruct (detection_failure_iff weak_book None false false [] "Overview" weak_sheet)
    as [Hiff _]; [vm_compute; reflexivity|].
  apply Hiff. right. right. left. vm_compute. reflexivity.
Defined.

(** C7. A sheet whose SOC codes stand under the header [0]: both columns
    are found, [A] for occ and [0] for soc, each with the score 1/2, which is
    not below 1/2; the build still raises [DetectionFailed], because the
    validation tests the labels for truth and [0] is falsy. *)
Theorem falsy_label_rejected :
  build_crosswalk zero_label_book None false false
  = ([MsgDetect (Some (LStr "A")) (Some (LInt 0)) (1 # 2) (1 # 2)],
     Raise (DetectionFailed "Codes" (1 # 2) (1 # 2)))
  /\ (1 # 2 <= 1 # 2)%Q.
Proof. split; [vm_compute; reflexivity|apply Qle_refl]. Qed.

(** ** Order of the rows *)

Lemma subseq_refl {A : Type} (l : list A) : subseq l l.
Proof. induction l; constructor; assumption. Qed.

Lemma subseq_trans {A : Type} (l1 l2 l3 : list A) :
  subseq l1 l2 -> subseq l2 l3 -> subseq l1 l3.
Proof.
  intros H12 H23. revert l1 H12.
  induction H23 as [|x l2 l3 H IH|x l2 l3 H IH]; intros l1 H12.
  - exact H12.
  - constructor. apply IH, H12.
  - inversion H12; subst.
    + constructor. apply IH. assumption.
    + apply subseq_keep. apply IH. assumption.
Qed.

Lemma subseq_In {A : Type} (l1 l2 : list A) (x : A) :
  subseq l1 l2 -> In x l1 -> In x l2.
Proof.
  induction 1 as [|y l1 l2 H IH|y l1 l2 H IH]; simpl; intros Hin.
  - exact Hin.
  - right. apply IH, Hin.
  - destruct Hin as [->|Hin]; [left; reflexivity|right; apply IH, Hin].
Qed.

Lemma subseq_filter {A : Type} (p : A -> bool) (l : list A) : subseq (filter p l) l.
Proof.
  induction l as [|x l IH]; simpl; [constructor|].
  destruct (p x); constructor; exact IH.
Qed.

Lemma subseq_drop_dups {A K : Type} (eqb : K -> K -> bool) (key : A -> K)
    (seen : list K) (l : list A) :
  subseq (drop_dups eqb key seen l) l.
Proof.
  revert seen. induction l as [|x l IH]; intros seen; simpl; [constructor|].
  destruct (existsb (eqb (key x)) seen); constructor; apply IH.
Qed.

Lemma StronglySorted_subseq {A : Type} (R : A -> A -> Prop) (l1 l2 : list A) :
  subseq l1 l2 -> StronglySorted R l2 -> StronglySorted R l1.
Proof.
  induction 1 as [|x l1 l2 H IH|x l1 l2 H IH]; intros Hs.
  - constructor.
  - apply StronglySorted_inv in Hs as [Hs _]. apply IH, Hs.
  - apply StronglySorted_inv in Hs as [Hs Hall]. constructor; [apply IH, Hs|].
    rewrite Forall_forall in *. intros y Hy. apply Hall.
    eapply subseq_In; eassumption.
Qed.

Section SortValues.
Context {A : Type} (leb : A -> A -> bool).
Hypothesis leb_total : forall a b, leb a b = true \/ leb b a = true.
Hypothesis leb_trans : forall a b c, leb a b = true -> leb b c = true -> leb a c = true.

Lemma insert_sorted_In (x y : A) (l : list A) :
  In y (insert_sorted leb x l) <-> y = x \/ In y l.
Proof.
  induction l as [|z l IH]; simpl; [intuition|].
  destruct (leb x z); simpl; [intuition|]. rewrite IH. intuition.
Qed.

Lemma sort_values_In (y : A) (l : list A) :
  In y (sort_values leb l) <-> In y l.
Proof.
  induction l as [|x l IH]; simpl; [reflexivity|].
  rewrite insert_sorted_In, IH. intuition.
Qed.

Lemma insert_sorted_sorted (x : A) (l : list A) :
  StronglySorted (fun a b => leb a b = true) l ->
  StronglySorted (fun a b => leb a b = true) (insert_sorted leb x l).
Proof.
  induction l as [|z l IH]; simpl; intros Hs.
  - constructor; [constructor|constructor].
  - pose proof (StronglySorted_inv Hs) as [Hl Hall].
    destruct (leb x z) eqn:E.
    + constructor; [exact Hs|]. constructor; [exact E|].
      rewrite Forall_forall in *. intros y Hy. eapply leb_trans; eauto.
    + constructor; [apply IH, Hl|].
      rewrite Forall_forall in *. intros y Hy.
      apply insert_sorted_In in Hy as [->|Hy]; [|apply Hall, Hy].
      destruct (leb_total x z) as [H|H]; [congruence|exact H].
Qed.

Lemma sort_values_sorted (l : list A) :
  StronglySorted (fun a b => leb a b = true) (sort_values leb l).
Proof.
  induction l as [|x l IH]; simpl; [constructor|].
  apply insert_sorted_sorted, IH.
Qed.
End SortValues.

Lemma ascii_compare_refl (a : ascii) : Ascii.compare a a = Eq.
Proof. unfold Ascii.compare. apply N.compare_refl. Qed.

Lemma ascii_compare_lt_trans (a b c : ascii) :
  Ascii.compare a b = Lt -> Ascii.compare b c = Lt -> Ascii.compare a c = Lt.
Proof.
  unfold Ascii.compare. rewrite !N.compare_lt_iff. apply N.lt_trans.
Qed.

Lemma str_compare_refl (a : string) : String.compare a a = Eq.
Proof.
  induction a as [|c a IH]; simpl; [reflexivity|].
  rewrite ascii_compare_refl. exact IH.
Qed.

Lemma str_compare_lt_trans (a b c : string) :
  String.compare a b = Lt -> String.compare b c = Lt -> String.compare a c = Lt.
Proof.
  revert b c. induction a as [|x a IH]; intros [|y b] [|z c]; simpl;
    try discriminate; try reflexivity.
  destruct (Ascii.compare x y) eqn:Exy; try discriminate;
    destruct (Ascii.compare y z) eqn:Eyz; try discriminate; intros H1 H2.
  - apply Ascii.compare_eq_iff in Exy, Eyz. subst.
    rewrite ascii_compare_refl. eapply IH; eassumption.
  - apply Ascii.compare_eq_iff in Exy. subst. rewrite Eyz. reflexivity.
  - apply Ascii.compare_eq_iff in Eyz. subst. rewrite Exy. reflexivity.
  - rewrite (ascii_compare_lt_trans _ _ _ Exy Eyz). reflexivity.
Qed.

Lemma str_leb_iff (a b : string) :
  str_leb a b = true <-> String.compare a b = Lt \/ a = b.
Proof.
  unfold str_leb. destruct (String.compare a b) eqn:E; split; intros H;
    try discriminate; auto.
  - right. apply String.compare_eq_iff, E.
  - destruct H as [H|H]; [discriminate|]. subst.
    rewrite str_compare_refl in E. discriminate.
Qed.

Lemma pair_leb_iff (a b : string * string) :
  Xwalk2018.pair_leb a b = true
  <-> String.compare (fst a) (fst b) = Lt
      \/ (fst a = fst b /\ str_leb (snd a) (snd b) = true).
Proof.
  unfold Xwalk2018.pair_leb.
  destruct (String.compare (fst a) (fst b)) eqn:E; split; intros H.
  - right. split; [apply String.compare_eq_iff, E|exact H].
  - destruct H as [H|[_ H]]; [discriminate|exact H].
  - left. reflexivity.
  - reflexivity.
  - discriminate.
  - destruct H as [H|[H _]]; [discriminate|].
    rewrite H, str_compare_refl in E. discriminate.
Qed.

Lemma pair_leb_total (a b : string * string) :
  Xwalk2018.pair_leb a b = true \/ Xwalk2018.pair_leb b a = true.
Proof.
  rewrite !pair_leb_iff, !str_leb_iff.
  rewrite (String.compare_antisym (fst b) (fst a)).
  rewrite (String.compare_antisym (snd b) (snd a)).
  destruct (String.compare (fst a) (fst b)) eqn:E1; simpl; auto.
  apply String.compare_eq_iff in E1.
  destruct (String.compare (snd a) (snd b)) eqn:E2; simpl; auto.
  apply String.compare_eq_iff in E2. auto.
Qed.

Lemma pair_leb_trans (a b c : string * string) :
  Xwalk2018.pair_leb a b = true -> Xwalk2018.pair_leb b c = true ->
  Xwalk2018.pair_leb a c = true.
Proof.
  rewrite !pair_leb_iff, !str_leb_iff.
  intros [H1|[E1 H1]] [H2|[E2 H2]].
  - left. eapply str_compare_lt_trans; eassumption.
  - left. rewrite <- E2. exact H1.
  - left. rewrite E1. exact H2.
  - right. split; [congruence|].
    destruct H1 as [H1|H1], H2 as [H2|H2].
    + left. eapply str_compare_lt_trans; eassumption.
    + left. rewrite <- H2. exact H1.
    + left. rewrite H1. exact H2.
    + right. congruence.
Qed.

Lemma sorted_distinct_occ_lt (l : table) :
  StronglySorted (fun a b => Xwalk2018.pair_leb a b = true) l ->
  NoDup (map fst l) ->
  StronglySorted occ_lt l.
Proof.
  induction l as [|x l IH]; intros Hs Hnd; [constructor|].
  apply StronglySorted_inv in Hs as [Hs Hall].
  simpl in Hnd. inversion Hnd as [|? ? Hnotin Hnd']; subst.
  constructor; [apply IH; assumption|].
  rewrite Forall_forall in *. intros y Hy.
  apply Hall in Hy as Hle. apply pair_leb_iff in Hle as [Hlt|[Heq _]]; [exact Hlt|].
  exfalso. apply Hnotin. rewrite Heq. apply in_map, Hy.
Qed.

(** [clean_map] returns its rows by strictly ascending OCC. *)
Lemma clean_map_sorted (df : DataFrame) (occ_col soc_col : label) :
  StronglySorted occ_lt (Xwalk2018.clean_map df occ_col soc_col)
  /\ StronglySorted (fun a b => Xwalk2018.pair_leb a b = true)
       (Xwalk2018.clean_map df occ_col soc_col).
Proof.
  unfold Xwalk2018.clean_map. cbv zeta.
  match goal with
  | |- context [drop_dups String.eqb fst [] (sort_values Xwalk2018.pair_leb ?l)] =>
      set (out := l)
  end.
  assert (Hs : StronglySorted (fun a b => Xwalk2018.pair_leb a b = true)
                 (drop_dups String.eqb fst [] (sort_values Xwalk2018.pair_leb out))).
  { eapply StronglySorted_subseq; [apply subseq_drop_dups|].
    apply sort_values_sorted; [apply pair_leb_total|apply pair_leb_trans]. }
  split; [|exact Hs].
  apply sorted_distinct_occ_lt; [exact Hs|].
  apply drop_dups_NoDup. apply String.eqb_eq.
Qed.

(** The one-to-one filter and [drop_duplicates] only leave rows out. *)
Lemma resolved_subseq (allow_multi_soc : bool) (df1 : list (string * cell)) :
  subseq (resolved allow_multi_soc df1) (soc_stage allow_multi_soc df1).
Proof.
  unfold resolved, deduped, drop_occs.
  eapply subseq_trans; [apply subseq_filter|apply subseq_drop_dups].
Qed.

(** C3 (amended). The table of the 2018-xwalk script ([clean_map], and so
    every table its [main] writes) is in strictly ascending OCC order, hence
    ordered by [(occ, soc)].  The autodetect builder does not sort: its table
    is the normalized rows in sheet order, some of them left out. *)
Theorem output_order :
  (forall df occ_col soc_col,
      StronglySorted occ_lt (Xwalk2018.clean_map df occ_col soc_col)
      /\ StronglySorted (fun a b => Xwalk2018.pair_leb a b = true)
           (Xwalk2018.clean_map df occ_col soc_col))
  /\ (forall wb sheet t,
        Xwalk2018.main wb sheet = Xwalk2018.Written t ->
        StronglySorted occ_lt t)
  /\ (forall wb sheet allow_multi_soc verbose log t,
        build_crosswalk wb sheet allow_multi_soc verbose = (log, Ok t) ->
        exists l0 sheet_name df o s df1,
          pick_best_sheet wb sheet verbose = (l0, Ok (sheet_name, df))
          /\ occ_stage (two_columns (dropna_all df) o s) = Ok df1
          /\ subseq t (soc_stage allow_multi_soc df1)).
Proof.
  split; [exact clean_map_sorted|]. split.
  - intros wb sheet t. unfold Xwalk2018.main.
    destruct (Xwalk2018.scan wb (Xwalk2018.sheet_iter wb sheet)) as [[[df oc] sc]|];
      [|discriminate].
    destruct (Xwalk2018.clean_map df oc sc) as [|r out] eqn:E; [discriminate|].
    intros H. inversion H; subst. rewrite <- E. apply clean_map_sorted.
  - intros wb sheet allow_multi_soc verbose log t H.
    destruct (build_ok_inv _ _ _ _ _ _ H)
      as (l0 & sheet_name & df & l1 & o & s & os & ss & df1
          & Hpick & _ & _ & _ & _ & _ & Hocc & Ht & _).
    exists l0, sheet_name, df, o, s, df1.
    split; [exact Hpick|]. split; [exact Hocc|].
    subst t. apply resolved_subseq.
Qed.

Lemma output_order_witness :
  StronglySorted occ_lt [("0010", "11-1011"); ("0020", "11-1021")]
  /\ exists l0 sheet_name df o s df1,
       pick_best_sheet descending_book None false = (l0, Ok (sheet_name, df))
       /\ occ_stage (two_columns (dropna_all df) o s) = Ok df1
       /\ subseq [("0020", "11-1021"); ("0010", "11-1011")] (soc_stage false df1).
Proof.
  destruct output_order as (_ & Hmain & Hbuild). split.
  - apply (Hmain [("Codes", Some descending_sheet)] None). vm_compute. reflexivity.
  - apply (Hbuild descending_book None false false
             (fst (build_crosswalk descending_book None false false))).
    vm_compute. reflexivity.
Defined.

(** C3, as stated, fails for the autodetect builder: the rows come out in
    sheet order, here with OCC 0020 before OCC 0010. *)
Lemma autodetect_output_not_sorted :
  snd (build_crosswalk descending_book None false false)
  = Ok [("0020", "11-1021"); ("0010", "11-1011")]
  /\ String.compare "0020" "0010" = Gt.
Proof. split; vm_compute; reflexivity. Qed.

(** ** The size of the table *)




(** ** The preferred-code script *)

Import From2018File.

Lemma extract_some (lit v s : string) : extract lit v = Some s -> s = lit.
Proof. unfold extract. destruct (contains lit v); congruence. Qed.

(** Whatever the table, a row that passes the extraction holds the text of
    the two patterns, not codes. *)
Lemma candidates_pattern (tbl : Frame xcell) (r : row) :
  In r (candidates tbl) -> row_occ r = OCC_PATTERN /\ row_soc r = SOC_PATTERN.
Proof.
  unfold candidates. cbv zeta. intros H.
  eapply subseq_In in H; [|apply subseq_drop_dups].
  apply in_flat_map in H as ([[[a b] o] s] & Hin & Hr).
  destruct o as [o|]; [|destruct Hr]. destruct s as [s|]; [|destruct Hr].
  destruct Hr as [<-|[]]. unfold row_occ, row_soc. simpl.
  pose proof (in_combine_r _ _ _ _ Hin) as Hs.
  pose proof (in_combine_r _ _ _ _ (in_combine_l _ _ _ _ Hin)) as Ho.
  apply in_map_iff in Hs as (v & Hv & _). apply in_map_iff in Ho as (w & Hw & _).
  split; [eapply extract_some, Hw|eapply extract_some, Hv].
Qed.

Lemma with_rows_spec (t : list (string * string)) (n : nat) (r : scored) :
  In r (with_rows n t)
  <-> (n <= s_row r)%nat
      /\ nth_error t (s_row r - n) = Some (s_occ r, s_soc r)
      /\ s_score r = score (s_soc r).
Proof.
  revert n. induction t as [|[o s] t IH]; intros n; simpl.
  - split; [intros []|]. intros (_ & H & _). destruct (s_row r - n)%nat; discriminate.
  - rewrite IH. destruct r as [[[o' s'] sc] i]. unfold s_row, s_occ, s_soc, s_score. simpl.
    split.
    + intros [H|(Hle & Hn & Hsc)].
      * inversion H; subst. rewrite Nat.sub_diag. simpl. auto.
      * split; [lia|]. split; [|exact Hsc].
        replace (i - n)%nat with (S (i - S n)) by lia. exact Hn.
    + intros (Hle & Hn & Hsc).
      destruct (Nat.eq_dec i n) as [->|Hne].
      * rewrite Nat.sub_diag in Hn. simpl in Hn. inversion Hn; subst. left. reflexivity.
      * right. split; [lia|]. split; [|exact Hsc].
        replace (i - n)%nat with (S (i - S n)) in Hn by lia. exact Hn.
Qed.

Lemma resolve_In (t : list (string * string)) (o s : string) :
  In (o, s) (resolve t) -> In (o, s) t.
Proof.
  unfold resolve. intros H. apply in_map_iff in H as (r & Hr & Hin).
  eapply subseq_In in Hin; [|apply subseq_drop_dups].
  apply sort_values_In, with_rows_spec in Hin as (_ & Hn & _).
  inversion Hr; subst. eapply nth_error_In, Hn.
Qed.

(** Every row that [build] returns is the pair of the pattern texts. *)
Lemma build_rows_are_pattern_text (tbl : Frame xcell) (t : table) :
  build tbl = Built t ->
  forall r, In r t -> r = (OCC_PATTERN, SOC_PATTERN).
Proof.
  unfold build.
  destruct (filter (fun c => negb (existsb (label_eqb c) (columns tbl))) need);
    [|discriminate].
  intros H [o s] Hin. inversion H; subst. apply resolve_In in Hin.
  apply in_map_iff in Hin as (r & Hr & Hin).
  apply candidates_pattern in Hin as [Ho Hs]. inversion Hr; subst.
  rewrite Ho, Hs. reflexivity.
Qed.

(** C8. On a table with OCC 0010 under the SOC codes 11-0000 and 11-9999
    the preferred-code script returns no row at all, because its two
    patterns match a literal backslash followed by the letter [d] and never
    a digit; on the two candidate rows the resolution lines by themselves
    would keep 11-9999. *)
Theorem preferred_code_keeps_no_row :
  build preferred_table = Built []
  /\ candidates preferred_table = []
  /\ resolve [("0010", "11-0000"); ("0010", "11-9999")] = [("0010", "11-9999")].
Proof. repeat split; vm_compute; reflexivity. Qed.

(** *** The resolution lines on arbitrary candidate rows *)

Lemma scored_leb_iff (a b : scored) :
  scored_leb a b = true
  <-> String.compare (s_occ a) (s_occ b) = Lt
      \/ (s_occ a = s_occ b
          /\ (s_score b < s_score a
              \/ (s_score a = s_score b /\ (s_row a <= s_row b)%nat))).
Proof.
  unfold scored_leb.
  destruct (String.compare (s_occ a) (s_occ b)) eqn:E.
  - apply String.compare_eq_iff in E.
    destruct (s_score b <? s_score a) eqn:E1.
    + apply Z.ltb_lt in E1. intuition.
    + apply Z.ltb_ge in E1. destruct (s_score a <? s_score b) eqn:E2.
      * apply Z.ltb_lt in E2. split; [discriminate|].
        intros [H|[_ [H|[H _]]]]; [discriminate|lia|lia].
      * apply Z.ltb_ge in E2. rewrite Nat.leb_le. split.
        -- intros H. right. split; [exact E|]. right. split; [lia|exact H].
        -- intros [H|[_ [H|[_ H]]]]; [discriminate|lia|exact H].
  - intuition.
  - split; [discriminate|]. intros [H|[H _]]; [discriminate|].
    rewrite H, str_compare_refl in E. discriminate.
Qed.

Lemma scored_leb_total (a b : scored) :
  scored_leb a b = true \/ scored_leb b a = true.
Proof.
  rewrite !scored_leb_iff. rewrite (String.compare_antisym (s_occ b) (s_occ a)).
  destruct (String.compare (s_occ a) (s_occ b)) eqn:E; simpl; auto.
  apply String.compare_eq_iff in E.
  destruct (Z.lt_trichotomy (s_score a) (s_score b)) as [H|[H|H]].
  - right. right. split; [congruence|]. left. exact H.
  - destruct (Nat.le_ge_cases (s_row a) (s_row b)).
    + left. right. split; [exact E|]. right. split; assumption.
    + right. right. split; [congruence|]. right. split; [congruence|assumption].
  - left. right. split; [exact E|]. left. exact H.
Qed.

Lemma scored_leb_trans (a b c : scored) :
  scored_leb a b = true -> scored_leb b c = true -> scored_leb a c = true.
Proof.
  rewrite !scored_leb_iff. intros [H1|[E1 H1]] [H2|[E2 H2]].
  - left. eapply str_compare_lt_trans; eassumption.
  - left. rewrite <- E2. exact H1.
  - left. rewrite E1. exact H2.
  - right. split; [congruence|]. lia.
Qed.

Lemma subseq_app_r {A : Type} (pre l : list A) : subseq l (pre ++ l).
Proof.
  induction pre as [|x pre IH]; simpl; [apply subseq_refl|].
  constructor. exact IH.
Qed.

(** A row kept by [drop_duplicates] is the first one with its key. *)
Lemma drop_dups_first {A K : Type} (eqb : K -> K -> bool) (key : A -> K)
    (eqb_eq : forall a b, eqb a b = true <-> a = b)
    (x : A) (l : list A) (seen : list K) :
  In x (drop_dups eqb key seen l) ->
  exists pre post, l = (pre ++ x :: post)%list /\ ~ In (key x) (map key pre).
Proof.
  revert seen. induction l as [|y l IH]; intros seen; simpl; [intros []|].
  destruct (existsb (eqb (key y)) seen) eqn:E.
  - intros H. pose proof (drop_dups_In eqb key eqb_eq _ _ _ H) as [_ Hseen].
    destruct (IH _ H) as (pre & post & -> & Hpre).
    exists (y :: pre), post. split; [reflexivity|].
    simpl. intros [Hk|Hk]; [|contradiction].
    apply Hseen. rewrite <- Hk. apply (existsb_eqb_In eqb eqb_eq), E.
  - intros [->|H].
    + exists [], l. split; [reflexivity|]. simpl. tauto.
    + pose proof (drop_dups_In eqb key eqb_eq _ _ _ H) as [_ Hseen].
      destruct (IH _ H) as (pre & post & -> & Hpre).
      exists (y :: pre), post. split; [reflexivity|].
      simpl. intros [Hk|Hk]; [|contradiction].
      apply Hseen. left. exact Hk.
Qed.

(** On any candidate rows [t], the row kept for an OCC is a row of [t] that
    no row of that OCC beats: none has a higher score (a specific SOC scores
    1, a major group 0), and among those of the same score it is the
    earliest. *)
Lemma resolve_prefers (t : list (string * string)) (o s : string) :
  In (o, s) (resolve t) ->
  exists i, nth_error t i = Some (o, s)
    /\ forall j s', nth_error t j = Some (o, s') ->
         score s' < score s \/ (score s' = score s /\ (i <= j)%nat).
Proof.
  unfold resolve.
  set (L := sort_values scored_leb (with_rows 0 t)).
  intros H. apply in_map_iff in H as (r & Hr & Hin). inversion Hr; subst o s.
  destruct (drop_dups_first String.eqb s_occ String.eqb_eq r L [] Hin)
    as (pre & post & HL & Hpre).
  assert (HinL : In r L).
  { eapply subseq_In; [apply (subseq_drop_dups String.eqb s_occ [] L)|exact Hin]. }
  apply sort_values_In, with_rows_spec in HinL as (_ & Hn & Hsc).
  rewrite Nat.sub_0_r in Hn.
  exists (s_row r). split; [exact Hn|].
  intros j s' Hj.
  set (y := (s_occ r, s', score s', j) : scored).
  assert (HyL : In y L).
  { apply sort_values_In, with_rows_spec. unfold y, s_row, s_occ, s_soc, s_score. simpl.
    rewrite Nat.sub_0_r. split; [lia|]. split; [exact Hj|reflexivity]. }
  assert (Hsorted : StronglySorted (fun a b => scored_leb a b = true) (r :: post)).
  { eapply StronglySorted_subseq; [apply (subseq_app_r pre)|].
    rewrite <- HL. apply sort_values_sorted;
      [apply scored_leb_total|apply scored_leb_trans]. }
  rewrite HL in HyL. apply in_app_or in HyL as [Hy|[Hy|Hy]].
  - exfalso. apply Hpre. apply in_map_iff. exists y. split; [reflexivity|exact Hy].
  - rewrite Hy. unfold y, s_row, s_soc. simpl. right. split; [reflexivity|lia].
  - apply StronglySorted_inv in Hsorted as [_ Hall].
    rewrite Forall_forall in Hall. apply Hall in Hy.
    apply scored_leb_iff in Hy as [Hlt|[_ Hy]].
    + unfold y, s_occ in Hlt. simpl in Hlt. fold (s_occ r) in Hlt.
      rewrite str_compare_refl in Hlt. discriminate.
    + unfold y, s_score, s_row in Hy. simpl in Hy.
      fold (s_score r) in Hy. fold (s_row r) in Hy. rewrite Hsc in Hy. lia.
Qed.

(** [resolve] keeps exactly one row for every OCC of [t]. *)
Lemma resolve_one_row_per_occ (t : list (string * string)) :
  NoDup (map fst (resolve t))
  /\ forall o s', In (o, s') t -> exists s, In (o, s) (resolve t).
Proof.
  unfold resolve.
  set (L := sort_values scored_leb (with_rows 0 t)). split.
  - rewrite map_map. simpl.
    apply (drop_dups_NoDup String.eqb s_occ String.eqb_eq).
  - intros o s' Hin. apply In_nth_error in Hin as [j Hj].
    assert (HyL : In ((o, s', score s', j) : scored) L).
    { apply sort_values_In, with_rows_spec. unfold s_row, s_occ, s_soc, s_score. simpl.
      rewrite Nat.sub_0_r. split; [lia|]. split; [exact Hj|reflexivity]. }
    destruct (drop_dups_keeps String.eqb s_occ String.eqb_eq _ L [] HyL)
      as (r & Hr & Hk); [simpl; tauto|].
    exists (s_soc r). apply in_map_iff. exists r. split; [|exact Hr].
    rewrite Hk. reflexivity.
Qed.

(** ** The 2018-xwalk variant of the column choice *)

(** [score_columns] of the 2018-xwalk script keeps the shared column for
    both roles when no other column can take the SOC role; its caller then
    skips the sheet, since it asks for two different columns. *)
Example score_columns_keeps_shared_column :
  Xwalk2018.score_columns one_column_sheet
  = (Some (LStr "A"), (1 # 2)%Q, Some (LStr "A"), (1 # 2)%Q)
  /\ Xwalk2018.main [("Codes", Some one_column_sheet)] None = Xwalk2018.Exit 2.
Proof. split; vm_compute; reflexivity. Qed.

(** A sheet accepted by the scan of the 2018-xwalk script has two different
    columns. *)
Lemma scan_distinct (wb : Xwalk2018.workbook) (names : list string)
    (df : DataFrame) (occ_col soc_col : label) :
  Xwalk2018.scan wb names = Some (df, occ_col, soc_col) -> occ_col <> soc_col.
Proof.
  induction names as [|name rest IH]; simpl; [discriminate|].
  destruct (Xwalk2018.read_excel wb name) as [df'|]; [|exact IH].
  destruct (Xwalk2018.score_columns df') as [[[[o|] osc] [s|]] ssc]; try exact IH.
  destruct (truthy o && truthy s && negb (label_eqb o s)
            && Qle_bool (1 # 2) osc && Qle_bool (1 # 2) ssc)%bool eqn:E; [|exact IH].
  intros H. inversion H; subst.
  repeat (apply andb_true_iff in E as [E ?]).
  intros Heq. subst.
  match goal with Hn : negb (label_eqb _ _) = true |- _ =>
    rewrite label_eqb_refl in Hn; discriminate end.
Qed.

(** ** Corner cases of the value helpers *)

(** [float] rounds to the nearest double before [int] truncates. *)
Example normalize_occ_rounds_up :
  normalize_occ (Some "12.99999999999999999") = Ok (Some "0013")
  /\ is_occ_like (Some "9999.99999999999") = true
  /\ is_occ_like (Some "9999.9999999999999999999") = false.
Proof. repeat split; vm_compute; reflexivity. Qed.

(** A value wrapped in a separator that [strip] removes and [float] does
    not skip passes [is_occ_like] and makes [normalize_occ] raise. *)
Example normalize_occ_raises :
  is_occ_like (Some (String (ascii_of_nat 28) "12")) = true
  /\ normalize_occ (Some (String (ascii_of_nat 28) "12")) = Raise FloatValueError.
Proof. split; vm_compute; reflexivity. Qed.

(** The division is guarded by [vals.empty] only: with [max_sample = 0] the
    sample of a column with values is empty. *)
Example column_score_zero_sample :
  column_score_occ [Some "0010"] 0 = Raise ZeroDivisionError
  /\ column_score_soc [Some "11-1021"] 0 = Raise ZeroDivisionError.
Proof. split; vm_compute; reflexivity. Qed.

(** The tokens and normal forms of the SOC helpers. *)
Example soc_tokens :
  split_tokens (Some "15-1132, 15-1133") = ["15-1132"; "15-1133"]
  /\ split_tokens (Some "11-1021 AND 111021;  ") = ["11-1021"; "111021"]
  /\ split_tokens None = []
  /\ normalize_soc_token "11-1021" = Some "11-1021"
  /\ normalize_soc_token "111021" = Some "11-1021"
  /\ normalize_soc_token "11-10" = None.
Proof. repeat split; vm_compute; reflexivity. Qed.

(** * Further properties of the scripts *)

Import Shape.

(** ** The patterns denote regular languages *)

Lemma append_nil_inv (s1 s2 : string) :
  (s1 ++ s2)%string = EmptyString -> s1 = EmptyString /\ s2 = EmptyString.
Proof. destruct s1; simpl; [auto|discriminate]. Qed.

Lemma append_empty_r (t : string) : (t ++ "")%string = t.
Proof. induction t as [|c t IH]; simpl; [reflexivity|rewrite IH; reflexivity]. Qed.

Lemma append_assoc_str (a b c : string) :
  ((a ++ b) ++ c)%string = (a ++ (b ++ c))%string.
Proof. induction a as [|x a IH]; simpl; [reflexivity|rewrite IH; reflexivity]. Qed.

Lemma nullable_lang (r : Re.re) : Re.nullable r = true <-> lang r EmptyString.
Proof.
  induction r as [| |p|a IHa b IHb|a IHa b IHb|a IHa]; simpl.
  - split; [discriminate|]. intros H. inversion H.
  - split; [intros _; constructor|reflexivity].
  - split; [discriminate|]. intros H. inversion H.
  - rewrite andb_true_iff, IHa, IHb. split.
    + intros [Ha Hb]. apply (lang_seq a b "" "" Ha Hb).
    + intros H. inversion H as [| |? ? s1 s2 Ha Hb Heq| | | |]; subst.
      match goal with E : (s1 ++ s2)%string = EmptyString |- _ =>
        apply append_nil_inv in E as [-> ->] end. auto.
  - rewrite orb_true_iff, IHa, IHb. split.
    + intros [H|H]; [apply lang_alt_l|apply lang_alt_r]; exact H.
    + intros H. inversion H; subst; auto.
  - split; [intros _; constructor|reflexivity].
Qed.

(** A non-empty string of [a*] starts with a non-empty string of [a]. *)
Lemma lang_star_cons (a : Re.re) (t : string) :
  lang (Re.Star a) t ->
  forall c s, t = String c s ->
  exists s1 s2, s = (s1 ++ s2)%string /\ lang a (String c s1) /\ lang (Re.Star a) s2.
Proof.
  intros H. remember (Re.Star a) as r eqn:Hr.
  induction H as [| | | | | |a' s1 s2 H1 _ H2 IH2]; try discriminate.
  - intros c s Hc. inversion Hr; subst a'.
    destruct s1 as [|x s1'].
    + simpl in Hc. apply (IH2 eq_refl c s Hc).
    + simpl in Hc. inversion Hc; subst. exists s1', s2. auto.
Qed.

Lemma deriv_lang (r : Re.re) (c : ascii) (s : string) :
  lang (Re.deriv c r) s <-> lang r (String c s).
Proof.
  revert s. induction r as [| |p|a IHa b IHb|a IHa b IHb|a IHa]; intros s; simpl.
  - split; intros H; inversion H.
  - split; intros H; inversion H.
  - destruct (p c) eqn:Hp; split; intros H.
    + inversion H; subst. constructor. exact Hp.
    + inversion H; subst. constructor.
    + inversion H.
    + inversion H; subst. congruence.
  - assert (Hfwd : lang (Re.Seq (Re.deriv c a) b) s -> lang (Re.Seq a b) (String c s)).
    { intros H. inversion H as [| |? ? s1 s2 Ha Hb| | | |]; subst.
      apply IHa in Ha. apply (lang_seq a b (String c s1) s2 Ha Hb). }
    assert (Hbwd : lang (Re.Seq a b) (String c s) ->
                   lang (Re.Seq (Re.deriv c a) b) s
                   \/ (lang a EmptyString /\ lang (Re.deriv c b) s)).
    { intros H. inversion H as [| |? ? s1 s2 Ha Hb Heq| | | |]; subst.
      destruct s1 as [|x s1']; simpl in *.
      - right. split; [exact Ha|]. apply IHb. subst. exact Hb.
      - match goal with E : String x _ = String c s |- _ => inversion E; subst end.
        left. apply lang_seq; [apply IHa; exact Ha|exact Hb]. }
    destruct (Re.nullable a) eqn:Hn; split; intros H.
    + inversion H; subst; [apply Hfwd; assumption|].
      apply nullable_lang in Hn.
      apply (lang_seq a b "" (String c s) Hn). apply IHb. assumption.
    + destruct (Hbwd H) as [H1|[_ H1]]; [apply lang_alt_l|apply lang_alt_r]; exact H1.
    + apply Hfwd, H.
    + destruct (Hbwd H) as [H1|[H1 _]]; [exact H1|].
      apply nullable_lang in H1. congruence.
  - split; intros H.
    + inversion H; subst; [apply lang_alt_l, IHa|apply lang_alt_r, IHb]; assumption.
    + inversion H; subst; [apply lang_alt_l, IHa|apply lang_alt_r, IHb]; assumption.
  - split; intros H.
    + inversion H as [| |? ? s1 s2 Ha Hb| | | |]; subst.
      apply IHa in Ha. apply (lang_star_app a (String c s1) s2 Ha Hb).
    + destruct (lang_star_cons a _ H c s eq_refl) as (s1 & s2 & -> & Ha & Hs).
      apply lang_seq; [apply IHa; exact Ha|exact Hs].
Qed.

(** The matcher decides membership. *)
Lemma matches_lang (r : Re.re) (s : string) : Re.matches r s = true <-> lang r s.
Proof.
  revert r. induction s as [|c s IH]; intros r; simpl.
  - apply nullable_lang.
  - rewrite IH. apply deriv_lang.
Qed.

Lemma lang_rep_cls (n : nat) (p : ascii -> bool) (s : string) :
  lang (Re.rep n (Re.Cls p)) s <-> String.length s = n /\ str_forall p s = true.
Proof.
  revert s. induction n as [|n IH]; intros s; simpl.
  - split.
    + intros H. inversion H; subst. auto.
    + intros [Hl _]. destruct s; [constructor|discriminate].
  - split.
    + intros H. inversion H as [| |? ? s1 s2 Ha Hb| | | |]; subst.
      inversion Ha; subst. apply IH in Hb as [Hl Hf]. simpl.
      rewrite Hl, Hf. match goal with E : p _ = true |- _ => rewrite E end. auto.
    + intros [Hl Hf]. destruct s as [|c s]; [discriminate|]. simpl in *.
      apply andb_true_iff in Hf as [Hc Hf].
      apply (lang_seq (Re.Cls p) _ (String c "") s).
      * constructor. exact Hc.
      * apply IH. split; [congruence|exact Hf].
Qed.

Lemma lang_chr (c : ascii) (s : string) :
  lang (Re.chr c) s <-> s = String c EmptyString.
Proof.
  unfold Re.chr. split.
  - intros H. inversion H; subst.
    match goal with E : Ascii.eqb _ _ = true |- _ => apply Ascii.eqb_eq in E; subst end.
    reflexivity.
  - intros ->. constructor. apply Ascii.eqb_refl.
Qed.

Lemma length_app_str (a b : string) :
  String.length (a ++ b) = (String.length a + String.length b)%nat.
Proof. induction a as [|c a IH]; simpl; [reflexivity|rewrite IH; reflexivity]. Qed.

(** [SOC_SINGLE_RE] accepts exactly the canonical SOC codes. *)
Lemma soc_single_shape (s : string) :
  Re.fullmatch SOC_SINGLE_RE s = is_soc_code s.
Proof.
  apply Bool.eq_iff_eq_true. unfold Re.fullmatch. rewrite matches_lang.
  unfold SOC_SINGLE_RE. split.
  - intros H. inversion H as [| |? ? s1 s23 H1 H23| | | |]; subst.
    inversion H23 as [| |? ? s2 s3 H2 H3| | | |]; subst.
    apply (proj1 (lang_rep_cls 2 is_digit s1)) in H1 as [L1 F1].
    apply (proj1 (lang_rep_cls 4 is_digit s3)) in H3 as [L3 F3].
    apply lang_chr in H2. subst s2.
    destruct s1 as [|a [|b [|? ?]]]; try discriminate.
    destruct s3 as [|c [|d [|e [|f [|? ?]]]]]; try discriminate.
    simpl in *. unfold Re.d in *.
    repeat match goal with
           | H : (_ && _)%bool = true |- _ => apply andb_true_iff in H as [? ?]
           end.
    repeat match goal with E : is_digit _ = true |- _ => rewrite E; clear E end.
    reflexivity.
  - intros H.
    destruct s as [|a [|b [|h [|c [|d [|e [|f [|? ?]]]]]]]]; try discriminate.
    simpl in H.
    repeat match goal with
           | H : (_ && _)%bool = true |- _ => apply andb_true_iff in H as [H ?]
           end.
    match goal with E : Ascii.eqb h _ = true |- _ => apply Ascii.eqb_eq in E; subst h end.
    apply (lang_seq _ _ (String a (String b "")) (String "-" (String c (String d (String e (String f "")))))).
    + apply (proj2 (lang_rep_cls 2 is_digit _)). simpl.
      repeat match goal with E : is_digit _ = true |- _ => rewrite E end. auto.
    + apply (lang_seq _ _ (String "-" "") (String c (String d (String e (String f ""))))).
      * apply lang_chr. reflexivity.
      * apply (proj2 (lang_rep_cls 4 is_digit _)). simpl.
        repeat match goal with E : is_digit _ = true |- _ => rewrite E end. auto.
Qed.

(** [SOC_DIGITS_RE] accepts exactly the strings of six digits. *)
Lemma soc_digits_shape (s : string) :
  Re.fullmatch SOC_DIGITS_RE s
  = (Nat.eqb (String.length s) 6 && str_forall is_digit s)%bool.
Proof.
  apply Bool.eq_iff_eq_true. unfold Re.fullmatch, SOC_DIGITS_RE, Re.d.
  rewrite matches_lang, lang_rep_cls, andb_true_iff, Nat.eqb_eq. reflexivity.
Qed.

Lemma digit_not_blank (c : ascii) : is_digit c = true -> Ascii.eqb c " " = false.
Proof.
  intros H. destruct (Ascii.eqb c " ") eqn:E; [|reflexivity].
  apply Ascii.eqb_eq in E. subst. discriminate.
Qed.

Lemma remove_spaces_soc_code (x : string) :
  is_soc_code x = true -> remove_spaces x = x.
Proof.
  intros H.
  destruct x as [|a [|b [|h [|c [|d [|e [|f [|? ?]]]]]]]]; try discriminate.
  simpl in H.
  repeat match goal with
         | H : (_ && _)%bool = true |- _ => apply andb_true_iff in H as [H ?]
         end.
  match goal with E : Ascii.eqb h _ = true |- _ => apply Ascii.eqb_eq in E; subst h end.
  unfold remove_spaces. simpl.
  repeat match goal with
         | E : is_digit _ = true |- _ => rewrite (digit_not_blank _ E); clear E
         end.
  reflexivity.
Qed.

(** ** [normalize_soc_token] *)

Lemma normalize_soc_token_fixed (x : string) :
  is_soc_code x = true -> normalize_soc_token x = Some x.
Proof.
  intros Hx. unfold normalize_soc_token.
  rewrite (remove_spaces_soc_code x Hx), soc_single_shape, Hx. reflexivity.
Qed.

Lemma normalize_soc_token_code (tok x : string) :
  normalize_soc_token tok = Some x -> is_soc_code x = true.
Proof.
  unfold normalize_soc_token.
  rewrite soc_single_shape, soc_digits_shape.
  destruct (is_soc_code (remove_spaces tok)) eqn:E1.
  - intros H. inversion H; subst. exact E1.
  - destruct (Nat.eqb (String.length (remove_spaces tok)) 6
              && str_forall is_digit (remove_spaces tok))%bool eqn:E2; [|discriminate].
    intros H. inversion H; subst. clear H.
    apply andb_true_iff in E2 as [L F]. apply Nat.eqb_eq in L.
    destruct (remove_spaces tok) as [|a [|b [|c [|d [|e [|f [|? ?]]]]]]];
      try discriminate.
    simpl in *.
    repeat match goal with
           | H : (_ && _)%bool = true |- _ => apply andb_true_iff in H as [? H]
           end.
    repeat match goal with E : is_digit _ = true |- _ => rewrite E; clear E end.
    reflexivity.
Qed.

(** [normalize_soc_token] succeeds exactly on the tokens that
    [is_soc_token_like] accepts; what it returns is a canonical SOC code,
    two digits, a hyphen and four digits, and a canonical code is returned
    unchanged, so normalizing twice changes nothing. *)
Theorem normalize_soc_token_canonical (tok : string) :
  (is_soc_token_like tok = true <-> exists x, normalize_soc_token tok = Some x)
  /\ (forall x, normalize_soc_token tok = Some x ->
        is_soc_code x = true /\ normalize_soc_token x = Some x)
  /\ (is_soc_code tok = true -> normalize_soc_token tok = Some tok).
Proof.
  split; [|split].
  - unfold is_soc_token_like, normalize_soc_token.
    destruct (Re.fullmatch SOC_SINGLE_RE (remove_spaces tok));
      [simpl; split; eauto|].
    destruct (Re.fullmatch SOC_DIGITS_RE (remove_spaces tok)); simpl.
    + split; eauto.
    + split; [discriminate|]. intros [x Hx]. discriminate.
  - intros x Hx. pose proof (normalize_soc_token_code tok x Hx) as Hc.
    split; [exact Hc|apply normalize_soc_token_fixed, Hc].
  - apply normalize_soc_token_fixed.
Qed.

Lemma normalize_soc_token_canonical_witness :
  is_soc_code "11-1021" = true /\ normalize_soc_token "11-1021" = Some "11-1021".
Proof.
  destruct (normalize_soc_token_canonical "11 1021") as (_ & H & _).
  apply (H "11-1021"). reflexivity.
Defined.

(** ** Trimming *)

Lemma rtrim_idem (p : ascii -> bool) (u : string) : rtrim p (rtrim p u) = rtrim p u.
Proof.
  induction u as [|c r IH]; simpl; [reflexivity|].
  destruct (p c && is_empty (rtrim p r))%bool eqn:E; [reflexivity|].
  simpl. rewrite IH, E. reflexivity.
Qed.

Lemma ltrim_head (p : ascii -> bool) (v : string) :
  match ltrim p v with
  | EmptyString => True
  | String c _ => p c = false
  end.
Proof.
  induction v as [|c r IH]; simpl; [exact I|].
  destruct (p c) eqn:E; [exact IH|exact E].
Qed.

Lemma ltrim_fixed (p : ascii -> bool) (t : string) :
  match t with EmptyString => True | String c _ => p c = false end ->
  ltrim p t = t.
Proof. destruct t as [|c r]; simpl; [reflexivity|]. intros ->. reflexivity. Qed.

(** [strip] is idempotent. *)
Lemma trim_idem (p : ascii -> bool) (v : string) : trim p (trim p v) = trim p v.
Proof.
  unfold trim.
  assert (Hl : ltrim p (rtrim p (ltrim p v)) = rtrim p (ltrim p v)).
  { apply ltrim_fixed.
    destruct (rtrim p (ltrim p v)) as [|c r] eqn:E; [exact I|].
    destruct (rtrim_head _ _ _ _ E) as [r' Hu].
    pose proof (ltrim_head p v) as Hh. rewrite Hu in Hh. exact Hh. }
  rewrite Hl. apply rtrim_idem.
Qed.

Lemma str_exists_app (p : ascii -> bool) (a b : string) :
  str_exists p (a ++ b) = (str_exists p a || str_exists p b)%bool.
Proof.
  induction a as [|c a IH]; simpl; [reflexivity|].
  rewrite IH. apply orb_assoc.
Qed.

Lemma str_exists_ltrim (p q : ascii -> bool) (v : string) :
  str_exists p v = false -> str_exists p (ltrim q v) = false.
Proof.
  induction v as [|c r IH]; simpl; [reflexivity|].
  intros H. apply orb_false_iff in H as [Hc Hr].
  destruct (q c); [apply IH, Hr|]. simpl. rewrite Hc, Hr. reflexivity.
Qed.

Lemma str_exists_rtrim (p q : ascii -> bool) (v : string) :
  str_exists p v = false -> str_exists p (rtrim q v) = false.
Proof.
  induction v as [|c r IH]; simpl; [reflexivity|].
  intros H. apply orb_false_iff in H as [Hc Hr].
  destruct (q c && is_empty (rtrim q r))%bool; [reflexivity|].
  simpl. rewrite Hc, (IH Hr). reflexivity.
Qed.

Lemma str_exists_trim (p q : ascii -> bool) (v : string) :
  str_exists p v = false -> str_exists p (trim q v) = false.
Proof. intros H. unfold trim. apply str_exists_rtrim, str_exists_ltrim, H. Qed.

(** ** [split_tokens] *)

Lemma delims_split_no_delim (s : string) (skip : nat) (cur t : string) :
  str_exists is_delim_char cur = false ->
  In t (delims_split skip cur s) ->
  str_exists is_delim_char t = false.
Proof.
  revert skip cur. induction s as [|c r IH]; intros skip cur Hcur; cbn [delims_split].
  - intros [<-|[]]. exact Hcur.
  - destruct skip as [|k]; [|apply IH, Hcur].
    destruct (is_delim_char c) eqn:Ec.
    + intros H. simpl in H. destruct H as [E|H]; [rewrite <- E; exact Hcur|].
      apply (IH 0%nat EmptyString eq_refl H).
    + destruct (and_here (String c r)).
      * intros H. simpl in H. destruct H as [E|H]; [rewrite <- E; exact Hcur|].
        apply (IH 4%nat EmptyString eq_refl H).
      * apply IH. rewrite str_exists_app, Hcur. simpl. rewrite Ec. reflexivity.
Qed.

Lemma delims_search_no_delim (s : string) :
  delims_search s = false -> str_exists is_delim_char s = false.
Proof.
  induction s as [|c r IH]; simpl; [reflexivity|].
  intros H. apply orb_false_iff in H as [H Hr].
  apply orb_false_iff in H as [Hc _]. rewrite Hc, (IH Hr). reflexivity.
Qed.

(** Every token of a cell is non-empty, has no whitespace at its ends and
    holds none of the delimiters [; , / | &]; a NaN or blank cell has no
    token. *)
Theorem split_tokens_clean (val : cell) :
  (forall t, In t (split_tokens val) ->
     t <> EmptyString /\ strip t = t /\ str_exists is_delim_char t = false)
  /\ (forall v, val = Some v -> strip v = EmptyString -> split_tokens val = [])
  /\ split_tokens None = [].
Proof.
  split; [|split].
  - intros t. unfold split_tokens.
    set (s := strip match val with None => EmptyString | Some v => v end).
    destruct (delims_search s) eqn:Es.
    + intros H. apply filter_In in H as [H Hne].
      apply in_map_iff in H as (piece & <- & Hp).
      split; [intros E; rewrite E in Hne; discriminate|].
      split; [apply trim_idem|].
      apply str_exists_trim. eapply delims_split_no_delim; [|exact Hp]. reflexivity.
    + destruct (is_empty s) eqn:Ee; [intros []|].
      intros [<-|[]].
      split; [intros E; rewrite E in Ee; discriminate|].
      split; [apply trim_idem|apply delims_search_no_delim, Es].
  - intros v -> Hv. unfold split_tokens. rewrite Hv. reflexivity.
  - reflexivity.
Qed.

Lemma split_tokens_clean_witness :
  strip "15-1133" = "15-1133" /\ split_tokens (Some "   ") = [].
Proof.
  destruct (split_tokens_clean (Some "15-1132 ,  15-1133")) as (Htok & _ & _).
  destruct (split_tokens_clean (Some "   ")) as (_ & Hblank & _).
  split.
  - apply (Htok "15-1133"). vm_compute. auto.
  - apply (Hblank "   "); reflexivity.
Defined.

(** ** [normalize_occ] and [is_occ_like] *)

Lemma ltrim_ext (p q : ascii -> bool) (v : string) :
  str_forall (fun c => Bool.eqb (p c) (q c)) v = true -> ltrim p v = ltrim q v.
Proof.
  induction v as [|c r IH]; simpl; [reflexivity|].
  intros H. apply andb_true_iff in H as [Hc Hr]. apply Bool.eqb_prop in Hc.
  rewrite Hc. destruct (q c); [apply IH, Hr|reflexivity].
Qed.

Lemma rtrim_ext (p q : ascii -> bool) (v : string) :
  str_forall (fun c => Bool.eqb (p c) (q c)) v = true -> rtrim p v = rtrim q v.
Proof.
  induction v as [|c r IH]; simpl; [reflexivity|].
  intros H. apply andb_true_iff in H as [Hc Hr]. apply Bool.eqb_prop in Hc.
  rewrite Hc, (IH Hr). reflexivity.
Qed.

Lemma str_forall_ltrim (f p : ascii -> bool) (v : string) :
  str_forall f v = true -> str_forall f (ltrim p v) = true.
Proof.
  induction v as [|c r IH]; simpl; [reflexivity|].
  intros H. apply andb_true_iff in H as [Hc Hr].
  destruct (p c); [apply IH, Hr|]. simpl. rewrite Hc, Hr. reflexivity.
Qed.

Lemma strip_without_separator (v : string) :
  str_exists is_separator v = false -> trim is_cspace v = strip v.
Proof.
  intros H.
  assert (Hagree : str_forall (fun c => Bool.eqb (is_cspace c) (is_space c)) v = true).
  { induction v as [|c r IH]; simpl in *; [reflexivity|].
    apply orb_false_iff in H as [Hc Hr]. rewrite (IH Hr), andb_true_r.
    unfold is_space. unfold is_separator in Hc. rewrite Hc, orb_false_r.
    apply Bool.eqb_reflx. }
  unfold strip, trim. rewrite (ltrim_ext _ _ _ Hagree).
  apply rtrim_ext, str_forall_ltrim, Hagree.
Qed.

Lemma str_exists_negb (p : ascii -> bool) (s : string) :
  str_exists (fun c => negb (p c)) s = false -> str_forall p s = true.
Proof.
  induction s as [|c r IH]; simpl; [reflexivity|].
  intros H. apply orb_false_iff in H as [Hc Hr].
  apply negb_false_iff in Hc. rewrite Hc, (IH Hr). reflexivity.
Qed.

(** A value accepted by [is_occ_like] and free of separators is parsed by
    [float] exactly as its stripped form. *)
Lemma int_float_raw (v : string) :
  is_occ_like (Some v) = true -> str_exists is_separator v = false ->
  int_float v = int_float (strip v).
Proof.
  intros Hocc Hsep. unfold is_occ_like in Hocc.
  destruct (str_exists (fun c => negb (is_digit c || Ascii.eqb c ".")) (strip v)) eqn:Ed;
    [discriminate|].
  apply str_exists_negb in Ed.
  assert (Hclean : str_forall (fun c => negb (is_cspace c)) (strip v) = true).
  { apply (str_forall_impl (fun c => (is_digit c || Ascii.eqb c ".")%bool)); [|exact Ed].
    intros c Hc. pose proof (digit_or_dot_not_space c Hc) as Hs.
    apply negb_true_iff in Hs. apply negb_true_iff.
    destruct (is_cspace c) eqn:E; [|reflexivity].
    rewrite (cspace_is_space c E) in Hs. discriminate. }
  unfold int_float.
  rewrite (strip_without_separator v Hsep), (trim_clean is_cspace (strip v) Hclean).
  reflexivity.
Qed.

(** What [normalize_occ] returns: nothing exactly for the values that
    [is_occ_like] rejects, otherwise a canonical code of four digits; it
    raises only for a value that [is_occ_like] accepts and that holds one of
    the separators 28..31, on which [float] fails. *)
Theorem normalize_occ_outcomes (val : cell) :
  (normalize_occ val = Ok None <-> is_occ_like val = false)
  /\ (forall s, normalize_occ val = Ok (Some s) ->
        is_occ_like val = true /\ is_occ_code s = true)
  /\ (forall e, normalize_occ val = Raise e ->
        e = FloatValueError
        /\ exists v, val = Some v /\ is_occ_like val = true
                     /\ str_exists is_separator v = true).
Proof.
  split; [|split].
  - unfold normalize_occ. destruct (is_occ_like val) eqn:Hocc; simpl.
    + split; [|discriminate]. destruct val as [v|]; [|discriminate].
      destruct (int_float v); discriminate.
    + split; reflexivity.
  - intros s H. split.
    + unfold normalize_occ in H. destruct (is_occ_like val); [reflexivity|discriminate].
    + destruct (normalize_occ_inv val s H) as (n & Hn & ->).
      pose proof (occ_check_range n Hn) as Hc. unfold occ_check in Hc.
      destruct (normalize_occ (Some (str_of_int n))) as [[r|]|]; try discriminate.
      destruct (normalize_occ (Some (fmt_04d n))) as [[r'|]|]; try discriminate.
      repeat (apply andb_true_iff in Hc as [Hc ?]).
      apply String.eqb_eq in Hc. subst r. unfold is_occ_code.
      apply andb_true_iff. split; assumption.
  - intros e H. unfold normalize_occ in H.
    destruct (is_occ_like val) eqn:Hocc; simpl in H; [|discriminate].
    destruct val as [v|]; [|discriminate].
    destruct (int_float v) as [| |n] eqn:Hf; try discriminate.
    + inversion H; subst. split; [reflexivity|]. exists v.
      split; [reflexivity|]. split; [reflexivity|].
      destruct (str_exists is_separator v) eqn:Hsep; [reflexivity|].
      exfalso. pose proof (int_float_raw v Hocc Hsep) as Heq.
      unfold is_occ_like in Hocc.
      destruct (str_exists _ (strip v)); [discriminate|].
      rewrite <- Heq, Hf in Hocc. discriminate.
    + exfalso. exact (normalize_occ_not_big v Hocc Hf).
Qed.

Lemma normalize_occ_outcomes_witness :
  is_occ_like (Some " 12.0 ") = true /\ is_occ_code "0012" = true.
Proof.
  destruct (normalize_occ_outcomes (Some " 12.0 ")) as (_ & H & _).
  apply (H "0012"). reflexivity.
Defined.

(** ** The rows of the autodetect builder *)

Lemma occ_stage_In (raw : list (cell * cell)) (df1 : list (string * cell)) :
  occ_stage raw = Ok df1 ->
  forall o v, In (o, v) df1
    <-> exists val, In (val, v) raw /\ normalize_occ val = Ok (Some o).
Proof.
  unfold occ_stage. revert df1. induction raw as [|[a b] raw IH]; intros df1; simpl.
  - intros H. inversion H; subst. intros o v. simpl. split; [intros []|intros (? & [] & _)].
  - destruct (normalize_occ a) as [y|e] eqn:Ea; [|discriminate].
    destruct (map_result normalize_occ (map fst raw)) as [ys|e]; [|discriminate].
    intros H. inversion H; subst. clear H. intros o v.
    specialize (IH _ eq_refl o v). simpl. rewrite in_app_iff, IH. split.
    + intros [Hin|(val & Hin & Hn)].
      * destruct y as [o'|]; [|destruct Hin]. destruct Hin as [Hin|[]].
        inversion Hin; subst. exists a. auto.
      * exists val. auto.
    + intros (val & [Hin|Hin] & Hn).
      * inversion Hin; subst. left. rewrite Hn in Ea. inversion Ea; subst.
        simpl. auto.
      * right. exists val. auto.
Qed.

Lemma dropna_In {A : Type} (l : list (option A)) (x : A) :
  In x (dropna l) <-> In (Some x) l.
Proof.
  induction l as [|[y|] l IH]; simpl.
  - reflexivity.
  - rewrite IH. split; intros [H|H]; auto; left; congruence.
  - rewrite IH. split; [auto|]. intros [H|H]; [discriminate|exact H].
Qed.

Lemma soc_list_In (v : cell) (x : string) :
  In x (soc_list v)
  <-> x <> EmptyString
      /\ exists tok, In tok (split_tokens v) /\ normalize_soc_token tok = Some x.
Proof.
  unfold soc_list. rewrite filter_In, dropna_In, in_map_iff, negb_true_iff. split.
  - intros [(tok & Hn & Hin) Hne]. split; [intros ->; discriminate|eauto].
  - intros [Hne (tok & Hin & Hn)]. split; [eauto|].
    destruct x; [congruence|reflexivity].
Qed.

Lemma soc_stage_expand_In (l : list (string * cell)) (o x : string) :
  In (o, x) (soc_stage true l) <-> exists v, In (o, v) l /\ In x (soc_list v).
Proof.
  unfold soc_stage, explode. rewrite in_flat_map. split.
  - intros ([o' [y|]] & Hin & Hx); [|destruct Hx]. simpl in Hx.
    destruct Hx as [Hx|[]]. inversion Hx; subst.
    apply filter_In in Hin as [Hin _]. apply in_flat_map in Hin as ([o'' sl] & Hin & Hy).
    apply in_map_iff in Hin as ([o3 v] & Heq & Hin). simpl in Heq. inversion Heq; subst.
    simpl in Hy. destruct (soc_list v) as [|z zs] eqn:Es; [destruct Hy as [Hy|[]]; discriminate|].
    apply in_map_iff in Hy as (w & Hw & Hin'). inversion Hw; subst.
    exists v. split; [exact Hin|]. rewrite Es. exact Hin'.
  - intros (v & Hin & Hx). exists (o, Some x). split; [|simpl; auto].
    apply filter_In. split.
    + apply in_flat_map. exists (o, soc_list v). split.
      * apply in_map_iff. exists (o, v). auto.
      * simpl. destruct (soc_list v) as [|z zs] eqn:Es; [destruct Hx|].
        apply in_map_iff. exists x. auto.
    + simpl. apply soc_list_In in Hx as [Hne _]. destruct x; [congruence|reflexivity].
Qed.

Lemma soc_stage_strict_In (l : list (string * cell)) (o x : string) :
  In (o, x) (soc_stage false l) <-> exists v, In (o, v) l /\ strict_soc v = Some x.
Proof.
  unfold soc_stage. rewrite in_flat_map. split.
  - intros ([o' [y|]] & Hin & Hx); [|destruct Hx]. simpl in Hx.
    destruct Hx as [Hx|[]]. inversion Hx; subst.
    apply filter_In in Hin as [Hin _].
    apply in_map_iff in Hin as ([o3 v] & Heq & Hin). simpl in Heq. inversion Heq; subst.
    exists v. auto.
  - intros (v & Hin & Hx). exists (o, Some x). split; [|simpl; auto].
    apply filter_In. split; [|reflexivity].
    apply in_map_iff. exists (o, v). simpl. rewrite Hx. auto.
Qed.

Lemma soc_code_nonempty (x : string) : is_soc_code x = true -> x <> EmptyString.
Proof. intros H ->. discriminate. Qed.

(** Every row of the SOC stage pairs a canonical OCC of the OCC stage with a
    canonical SOC code. *)
Lemma soc_stage_canonical (allow_multi_soc : bool) (l : list (string * cell))
    (o x : string) :
  In (o, x) (soc_stage allow_multi_soc l) ->
  is_soc_code x = true /\ exists v, In (o, v) l.
Proof.
  destruct allow_multi_soc.
  - intros H. apply soc_stage_expand_In in H as (v & Hin & Hx).
    apply soc_list_In in Hx as [_ (tok & _ & Hn)].
    split; [|eauto]. apply (normalize_soc_token_code tok), Hn.
  - intros H. apply soc_stage_strict_In in H as (v & Hin & Hx).
    split; [|eauto]. unfold strict_soc in Hx.
    destruct (split_tokens v) as [|tok [|? ?]]; try discriminate.
    apply (normalize_soc_token_code tok), Hx.
Qed.

Lemma normalize_occ_code (val : cell) (s : string) :
  normalize_occ val = Ok (Some s) -> is_occ_code s = true.
Proof.
  intros H. destruct (normalize_occ_inv val s H) as (n & Hn & ->).
  pose proof (occ_check_range n Hn) as Hc. unfold occ_check in Hc.
  destruct (normalize_occ (Some (str_of_int n))) as [[r|]|]; try discriminate.
  destruct (normalize_occ (Some (fmt_04d n))) as [[r'|]|]; try discriminate.
  repeat (apply andb_true_iff in Hc as [Hc ?]).
  apply String.eqb_eq in Hc. subst r. unfold is_occ_code.
  apply andb_true_iff. split; assumption.
Qed.

(** Every row of a table that the autodetect builder returns, in either
    mode, has an OCC of exactly four digits and a SOC of the form NN-NNNN. *)
Theorem build_rows_canonical (wb : workbook) (sheet : option string)
    (allow_multi_soc verbose : bool) (log : list event) (t : table) :
  build_crosswalk wb sheet allow_multi_soc verbose = (log, Ok t) ->
  forall occ soc, In (occ, soc) t ->
    is_occ_code occ = true /\ is_soc_code soc = true.
Proof.
  intros H occ soc Hin.
  destruct (build_ok_inv _ _ _ _ _ _ H)
    as (l0 & sheet_name & df & l1 & o & s & os & ss & df1
        & _ & _ & _ & _ & _ & _ & Hocc & Ht & _).
  subst t. eapply subseq_In in Hin; [|apply resolved_subseq].
  apply soc_stage_canonical in Hin as [Hsoc (v & Hv)].
  split; [|exact Hsoc].
  apply (occ_stage_In _ _ Hocc) in Hv as (val & _ & Hn).
  eapply normalize_occ_code, Hn.
Qed.

Lemma build_rows_canonical_witness :
  is_occ_code "0020" = true /\ is_soc_code "11-1021" = true.
Proof.
  apply (build_rows_canonical multi_soc_book None true false
           (fst (build_crosswalk multi_soc_book None true false))
           [("0020", "11-1021")]).
  - vm_compute. reflexivity.
  - left. reflexivity.
Defined.

Lemma build_one_row_per_occ_witness :
  NoDup (map fst [("0020", "11-1021")]).
Proof.
  apply (build_one_row_per_occ multi_soc_book None true false
           (fst (build_crosswalk multi_soc_book None true false))
           [("0020", "11-1021")]).
  vm_compute. reflexivity.
Defined.

(** Every row that the strict SOC policy keeps is also a row under the
    expand policy: a cell with exactly one token that normalizes contributes
    the same row either way. *)
Theorem strict_rows_in_expand (l : list (string * cell)) (occ soc : string) :
  In (occ, soc) (soc_stage false l) -> In (occ, soc) (soc_stage true l).
Proof.
  intros H. apply soc_stage_strict_In in H as (v & Hin & Hx).
  apply soc_stage_expand_In. exists v. split; [exact Hin|].
  unfold strict_soc in Hx.
  destruct (split_tokens v) as [|tok [|? ?]] eqn:Et; try discriminate.
  apply soc_list_In. split.
  - apply soc_code_nonempty. eapply normalize_soc_token_code, Hx.
  - exists tok. rewrite Et. simpl. auto.
Qed.

Lemma strict_rows_in_expand_witness :
  In ("0020", "11-1021")
     (soc_stage true [("0010", Some "15-1132, 15-1133"); ("0020", Some "11-1021")]).
Proof.
  apply strict_rows_in_expand. vm_compute. auto.
Defined.

(** ** How a build can end *)

Lemma pick_raise (wb : workbook) (sheet : option string) (verbose : bool)
    (l0 : list event) (e : pyexn) :
  pick_best_sheet wb sheet verbose = (l0, Raise e) ->
  l0 = []
  /\ ((e = StopIteration /\ wb = [] /\ requested sheet = None)
      \/ (exists name, e = WorksheetNotFound name /\ requested sheet = Some name
                       /\ read_sheet wb name = None)).
Proof.
  unfold pick_best_sheet. destruct (requested sheet) as [name|] eqn:Hreq.
  - destruct (read_sheet wb name) as [df|] eqn:Hr.
    + rewrite say_then_ret. discriminate.
    + intros H. inversion H; subst. split; [reflexivity|]. right. eauto.
  - unfold search_sheets.
    destruct (fold_left best_step wb (None, (-1)%Q)) as [[[n df]|] c].
    + rewrite say_then_ret. discriminate.
    + destruct wb as [|[n df] wb'].
      * intros H. inversion H; subst. split; [reflexivity|]. left. auto.
      * rewrite say_then_ret. discriminate.
Qed.

Lemma pick_log (wb : workbook) (sheet : option string) (verbose : bool)
    (t : table) :
  ~ In (CsvWritten t) (fst (pick_best_sheet wb sheet verbose)).
Proof.
  unfold pick_best_sheet. destruct (requested sheet) as [name|].
  - destruct (read_sheet wb name) as [df|]; [rewrite say_then_ret|];
      destruct verbose; simpl; intuition discriminate.
  - unfold search_sheets.
    destruct (fold_left best_step wb (None, (-1)%Q)) as [[[n df]|] c];
      [rewrite say_then_ret; destruct verbose; simpl; intuition discriminate|].
    destruct wb as [|[n df] wb']; [simpl; tauto|].
    rewrite say_then_ret. destruct verbose; simpl; intuition discriminate.
Qed.

Lemma detect_log (df : DataFrame) (verbose : bool) (t : table) :
  ~ In (CsvWritten t) (fst (detect_occ_soc_columns df verbose)).
Proof.
  unfold detect_occ_soc_columns. destruct (df_empty df); [simpl; tauto|].
  match goal with
  | |- context [let '(a, b) := ?X in _] => destruct X as [sb sbs]
  end.
  destruct verbose; simpl; intuition discriminate.
Qed.

(** The full outcome of a build whose OCC stage raises. *)
Lemma build_occ_raise (wb : workbook) (sheet : option string)
    (allow_multi_soc verbose : bool) (l0 l1 : list event) (sheet_name : string)
    (df : DataFrame) (o s : label) (os ss : Q) (e : pyexn) :
  pick_best_sheet wb sheet verbose = (l0, Ok (sheet_name, df)) ->
  detect_occ_soc_columns (dropna_all df) true = (l1, (Some o, Some s, os, ss)) ->
  detection_valid (Some o, Some s, os, ss) = true ->
  occ_stage (two_columns (dropna_all df) o s) = Raise e ->
  build_crosswalk wb sheet allow_multi_soc verbose
  = ((l0 ++ l1 ++ vsay verbose (MsgRawRows sheet_name (length (rows (dropna_all df)))))%list,
     Raise e).
Proof.
  intros Hpick Hdet Hv Hocc. unfold detection_valid in Hv. simpl in Hv.
  repeat (apply andb_true_iff in Hv as [Hv ?]).
  repeat match goal with H : negb _ = true |- _ => apply negb_true_iff in H end.
  unfold build_crosswalk. rewrite Hpick, bind_ok. unfold logged.
  rewrite bind_ok, Hdet. cbn [fst snd].
  match goal with H : truthy o = true |- _ => rewrite H end.
  match goal with H : truthy s = true |- _ => rewrite H end.
  match goal with H : Qltb os _ = false |- _ => rewrite H end.
  match goal with H : Qltb ss _ = false |- _ => rewrite H end.
  cbn [negb orb]. unfold say. rewrite bind_ok. cbn [fst snd].
  unfold lift. rewrite Hocc. unfold bind, vsay. rewrite app_nil_r. reflexivity.
Qed.

Lemma build_pick_raise (wb : workbook) (sheet : option string)
    (allow_multi_soc verbose : bool) (l0 : list event) (e : pyexn) :
  pick_best_sheet wb sheet verbose = (l0, Raise e) ->
  build_crosswalk wb sheet allow_multi_soc verbose = (l0, Raise e).
Proof. intros H. unfold build_crosswalk, bind. rewrite H. reflexivity. Qed.

(** The four ways a build can go. *)
Lemma build_cases (wb : workbook) (sheet : option string) (allow_multi_soc verbose : bool) :
  (exists e, pick_best_sheet wb sheet verbose = ([], Raise e)
             /\ build_crosswalk wb sheet allow_multi_soc verbose = ([], Raise e))
  \/ exists l0 sheet_name df l1 oc sc os ss,
       pick_best_sheet wb sheet verbose = (l0, Ok (sheet_name, df))
       /\ detect_occ_soc_columns (dropna_all df) true = (l1, (oc, sc, os, ss))
       /\ ((detection_valid (oc, sc, os, ss) = false
            /\ build_crosswalk wb sheet allow_multi_soc verbose
               = ((l0 ++ l1)%list, Raise (DetectionFailed sheet_name os ss)))
           \/ (detection_valid (oc, sc, os, ss) = true
               /\ exists o s, oc = Some o /\ sc = Some s
                  /\ ((occ_stage (two_columns (dropna_all df) o s) = Raise FloatValueError
                       /\ build_crosswalk wb sheet allow_multi_soc verbose
                          = ((l0 ++ l1 ++ vsay verbose
                                (MsgRawRows sheet_name (length (rows (dropna_all df)))))%list,
                             Raise FloatValueError))
                      \/ (exists df1,
                            occ_stage (two_columns (dropna_all df) o s) = Ok df1
                            /\ build_crosswalk wb sheet allow_multi_soc verbose
                               = (build_log verbose allow_multi_soc sheet_name
                                    (length (rows (dropna_all df))) l0 l1 df1,
                                  Ok (resolved allow_multi_soc df1)))))).
Proof.
  destruct (pick_best_sheet wb sheet verbose) as [l0 [[sheet_name df]|e]] eqn:Hpick.
  - right.
    destruct (detect_occ_soc_columns (dropna_all df) true) as [l1 [[[oc sc] os] ss]] eqn:Hdet.
    exists l0, sheet_name, df, l1, oc, sc, os, ss.
    split; [reflexivity|]. split; [exact Hdet|].
    destruct (detection_valid (oc, sc, os, ss)) eqn:Hv.
    + right. split; [reflexivity|].
      assert (Hsome : exists o s, oc = Some o /\ sc = Some s).
      { unfold detection_valid in Hv. destruct oc as [o|]; [|discriminate].
        destruct sc as [s|]; [eauto|]. simpl in Hv. rewrite andb_false_r in Hv.
        discriminate. }
      destruct Hsome as (o & s & -> & ->). exists o, s.
      split; [reflexivity|]. split; [reflexivity|].
      destruct (occ_stage (two_columns (dropna_all df) o s)) as [df1|e] eqn:Hocc.
      * right. exists df1. split; [reflexivity|].
        unfold detection_valid in Hv. simpl in Hv.
        repeat (apply andb_true_iff in Hv as [Hv ?]).
        repeat match goal with H : negb _ = true |- _ => apply negb_true_iff in H end.
        eapply build_ok; try eassumption; apply Qltb_ge; assumption.
      * left. pose proof (occ_stage_raise _ _ Hocc) as ->.
        split; [reflexivity|]. eapply build_occ_raise; eassumption.
    + left. split; [reflexivity|]. eapply build_rejected; eassumption.
  - left. destruct (pick_raise _ _ _ _ _ Hpick) as [-> _].
    exists e. split; [reflexivity|]. apply build_pick_raise, Hpick.
Qed.



Lemma build_csv_written (wb : workbook) (sheet : option string)
    (allow_multi_soc verbose : bool) (t : table) :
  In (CsvWritten t) (fst (build_crosswalk wb sheet allow_multi_soc verbose))
  <-> snd (build_crosswalk wb sheet allow_multi_soc verbose) = Ok t.
Proof.
  destruct (build_cases wb sheet allow_multi_soc verbose)
    as [(e' & Hpick & Hb)
       |(l0 & sheet_name & df & l1 & oc & sc & os & ss & Hpick & Hdet
         & [[Hv Hb]|(Hv & o & s & -> & -> & [[Hocc Hb]|(df1 & Hocc & Hb)])])];
    rewrite Hb; cbn [fst snd].
  - split; [intros []|discriminate].
  - pose proof (pick_log wb sheet verbose t) as H0. rewrite Hpick in H0.
    pose proof (detect_log (dropna_all df) true t) as H1. rewrite Hdet in H1.
    simpl in H0, H1. rewrite in_app_iff. split; [tauto|discriminate].
  - pose proof (pick_log wb sheet verbose t) as H0. rewrite Hpick in H0.
    pose proof (detect_log (dropna_all df) true t) as H1. rewrite Hdet in H1.
    simpl in H0, H1. rewrite !in_app_iff. split; [|discriminate].
    intros [H|[H|H]]; try tauto. destruct verbose; simpl in H; intuition discriminate.
  - pose proof (pick_log wb sheet verbose t) as H0. rewrite Hpick in H0.
    pose proof (detect_log (dropna_all df) true t) as H1. rewrite Hdet in H1.
    simpl in H0, H1. split.
    + unfold build_log. cbv zeta. rewrite !in_app_iff. unfold vsay.
      intros H.
      destruct (ambiguous_occs (deduped allow_multi_soc df1));
        destruct (Nat.ltb (length (resolved allow_multi_soc df1)) 100);
        destruct verbose; simpl in H; intuition (try discriminate; congruence).
    + intros H. inversion H; subst. apply build_log_csv.
Qed.

(** The table written to the CSV file is the table returned: a build writes
    a CSV exactly when it returns, and a build that raises has written none. *)
Theorem build_csv_iff_returned (wb : workbook) (sheet : option string)
    (allow_multi_soc verbose : bool) :
  (forall t, In (CsvWritten t) (fst (build_crosswalk wb sheet allow_multi_soc verbose))
             <-> snd (build_crosswalk wb sheet allow_multi_soc verbose) = Ok t)
  /\ (forall e, snd (build_crosswalk wb sheet allow_multi_soc verbose) = Raise e ->
        forall t, ~ In (CsvWritten t) (fst (build_crosswalk wb sheet allow_multi_soc verbose))).
Proof.
  split; [apply build_csv_written|].
  intros e He t Hin. apply build_csv_written in Hin. congruence.
Qed.

Lemma build_csv_iff_returned_witness :
  ~ In (CsvWritten []) (fst (build_crosswalk weak_book None false true)).
Proof.
  destruct (build_csv_iff_returned weak_book None false true) as [_ H].
  apply (H (DetectionFailed "Overview" 0 0)). vm_compute. reflexivity.
Defined.

(** ** The command line *)



(** ** The columns that the detection returns *)

Lemma dict_set_keys {V : Type} (k k' : label) (v : V) (d : list (label * V)) :
  In k' (map fst (dict_set k v d)) <-> k' = k \/ In k' (map fst d).
Proof.
  induction d as [|[k0 v0] r IH]; simpl.
  - intuition.
  - destruct (label_eqb k k0) eqn:E; simpl.
    + apply label_eqb_eq in E. subst. intuition.
    + rewrite IH. intuition.
Qed.

Lemma scores_of_keys (pick : Q * Q -> Q) (df : DataFrame) (k : label) :
  In k (map fst (scores_of pick df)) <-> In k (columns df).
Proof.
  unfold scores_of.
  assert (Hgen : forall cs d,
            In k (map fst (fold_left
                             (fun d c => dict_set c (pick (score_pair (pretrim (column None df c)))) d)
                             cs d))
            <-> In k cs \/ In k (map fst d)).
  { induction cs as [|c cs IH]; intros d; simpl; [tauto|].
    rewrite IH, dict_set_keys. intuition. }
  rewrite Hgen. simpl. tauto.
Qed.

Lemma dict_max_key (d : list (label * Q)) (k : label) :
  dict_max d = Some k -> In k (map fst d).
Proof.
  intros H. destruct (dict_max_spec d k H) as (v & Hin & _).
  apply in_map_iff. exists (k, v). auto.
Qed.

Lemma filter_nil_iff {A : Type} (p : A -> bool) (l : list A) :
  filter p l = [] <-> forall x, In x l -> p x = false.
Proof.
  induction l as [|y l IH]; simpl.
  - split; [intros _ ? []|reflexivity].
  - destruct (p y) eqn:E.
    + split; [discriminate|]. intros H. specialize (H y (or_introl eq_refl)). congruence.
    + rewrite IH. split.
      * intros H x [<-|Hx]; auto.
      * intros H x Hx. apply H. right. exact Hx.
Qed.

(** The columns returned by [detect_occ_soc_columns] are columns of the
    frame.  The occ column is absent exactly when the frame has no rows or no
    columns; the soc column is absent exactly then or when the frame has no
    column other than the occ column. *)
Theorem detect_columns_of_frame (df : DataFrame) (verbose : bool) :
  let occ_col := fst (fst (fst (snd (detect_occ_soc_columns df verbose)))) in
  let soc_col := snd (fst (fst (snd (detect_occ_soc_columns df verbose)))) in
  (forall c, occ_col = Some c -> In c (columns df))
  /\ (forall c, soc_col = Some c -> In c (columns df))
  /\ (occ_col = None <-> df_empty df = true)
  /\ (soc_col = None
      <-> df_empty df = true \/ forall c, In c (columns df) -> occ_col = Some c).
Proof.
  unfold detect_occ_soc_columns.
  destruct (df_empty df) eqn:He; simpl.
  - repeat split; try discriminate; auto.
  - pose proof (scores_of_keys fst df) as Kocc.
    pose proof (scores_of_keys snd df) as Ksoc.
    set (occ_scores := scores_of fst df) in *.
    set (soc_scores := scores_of snd df) in *.
    assert (Hcols : exists c, In c (columns df)).
    { unfold df_empty in He. destruct (rows df); [discriminate|].
      destruct (columns df) as [|c cs]; [discriminate|]. exists c. left. reflexivity. }
    destruct Hcols as [c0 Hc0].
    destruct (dict_max occ_scores) as [o|] eqn:Ho.
    2:{ exfalso. apply dict_max_none in Ho. apply Kocc in Hc0. rewrite Ho in Hc0.
        destruct Hc0. }
    destruct (dict_max soc_scores) as [s|] eqn:Hs.
    2:{ exfalso. apply dict_max_none in Hs. apply Ksoc in Hc0. rewrite Hs in Hc0.
        destruct Hc0. }
    pose proof (proj1 (Kocc o) (dict_max_key _ _ Ho)) as Hino.
    pose proof (proj1 (Ksoc s) (dict_max_key _ _ Hs)) as Hins.
    destruct (label_eqb s o) eqn:Eso.
    + apply label_eqb_eq in Eso. subst s.
      set (others := filter (fun kv => negb (label_eqb (fst kv) o)) soc_scores).
      assert (Hnil : others = [] <-> forall c, In c (columns df) -> Some o = Some c).
      { unfold others. rewrite filter_nil_iff. split.
        - intros H c Hc. apply Ksoc in Hc. apply in_map_iff in Hc as ([k v] & Hk & Hin).
          simpl in Hk. subst k. specialize (H _ Hin). simpl in H.
          apply negb_false_iff, label_eqb_eq in H. congruence.
        - intros H [k v] Hin. simpl. apply negb_false_iff, label_eqb_eq.
          assert (Hk : In k (columns df)).
          { apply Ksoc. apply in_map_iff. exists (k, v). auto. }
          specialize (H k Hk). congruence. }
      destruct (dict_max others) as [s'|] eqn:Hm; simpl.
      * split; [intros c Hc; inversion Hc; subst; exact Hino|].
        split.
        { intros c Hc. inversion Hc; subst. apply dict_max_key in Hm.
          apply in_map_iff in Hm as ([k v] & Hk & Hin). simpl in Hk. subst k.
          apply filter_In in Hin as [Hin _]. apply Ksoc.
          apply in_map_iff. exists (c, v). auto. }
        split; [split; discriminate|].
        split; [discriminate|]. intros [H|H]; [discriminate|].
        apply Hnil in H. rewrite H in Hm. discriminate.
      * split; [intros c Hc; inversion Hc; subst; exact Hino|].
        split; [discriminate|]. split; [split; discriminate|].
        split; [intros _|reflexivity]. right. apply Hnil.
        apply dict_max_none. exact Hm.
    + simpl.
      split; [intros c Hc; inversion Hc; subst; exact Hino|].
      split; [intros c Hc; inversion Hc; subst; exact Hins|].
      split; [split; discriminate|].
      split; [discriminate|]. intros [H|H]; [discriminate|].
      specialize (H s Hins). inversion H; subst.
      rewrite label_eqb_refl in Eso. discriminate.
Qed.

Lemma detect_columns_of_frame_witness :
  In (LInt 0) (columns zero_label_sheet).
Proof.
  destruct (detect_columns_of_frame zero_label_sheet false) as (_ & H & _).
  apply H. vm_compute. reflexivity.
Defined.

(** ** The pre-trim loop *)

Lemma dropna_map_strip (series : list cell) :
  dropna (map (option_map strip) series) = map strip (dropna series).
Proof.
  induction series as [|[v|] r IH]; simpl; [reflexivity| |exact IH].
  rewrite IH. reflexivity.
Qed.

Lemma head_map {A B : Type} (f : A -> B) (n : Z) (l : list A) :
  head n (map f l) = map f (head n l).
Proof.
  unfold head. rewrite length_map. destruct (0 <=? n); apply firstn_map.
Qed.

Lemma count_map {A B : Type} (p : B -> bool) (f : A -> B) (l : list A) :
  count p (map f l) = count (fun x => p (f x)) l.
Proof.
  unfold count. induction l as [|x l IH]; simpl; [reflexivity|].
  destruct (p (f x)); simpl; rewrite IH; reflexivity.
Qed.

Lemma count_ext {A : Type} (p q : A -> bool) (l : list A) :
  (forall x, p x = q x) -> count p l = count q l.
Proof.
  intros H. unfold count. induction l as [|x l IH]; simpl; [reflexivity|].
  rewrite H. destruct (q x); simpl; rewrite IH; reflexivity.
Qed.

Lemma is_occ_like_strip (v : string) :
  is_occ_like (Some (strip v)) = is_occ_like (Some v).
Proof. unfold is_occ_like, strip. rewrite trim_idem. reflexivity. Qed.

Lemma any_soc_strip (v : string) : any_soc (strip v) = any_soc v.
Proof. unfold any_soc, split_tokens, strip. rewrite trim_idem. reflexivity. Qed.

Lemma column_score_occ_pretrim (series : list cell) (m : Z) :
  column_score_occ (pretrim series) m = column_score_occ series m.
Proof.
  unfold pretrim. destruct (forallb notna series); [|reflexivity].
  unfold column_score_occ. rewrite dropna_map_strip.
  destruct (dropna series) as [|x r] eqn:E; [reflexivity|].
  rewrite <- E. simpl map. destruct (map strip (dropna series)) as [|y r'] eqn:E';
    [rewrite E in E'; discriminate|].
  rewrite <- E'. rewrite head_map, count_map, length_map.
  rewrite (count_ext _ (fun v => is_occ_like (Some v)) _ is_occ_like_strip).
  reflexivity.
Qed.

Lemma column_score_soc_pretrim (series : list cell) (m : Z) :
  column_score_soc (pretrim series) m = column_score_soc series m.
Proof.
  unfold pretrim. destruct (forallb notna series); [|reflexivity].
  unfold column_score_soc. rewrite dropna_map_strip.
  destruct (dropna series) as [|x r] eqn:E; [reflexivity|].
  rewrite <- E. destruct (map strip (dropna series)) as [|y r'] eqn:E';
    [rewrite E in E'; discriminate|].
  rewrite <- E'. rewrite head_map, count_map, length_map.
  rewrite (count_ext _ any_soc _ any_soc_strip).
  reflexivity.
Qed.

Lemma score_pair_pretrim (series : list cell) :
  score_pair (pretrim series) = score_pair series.
Proof.
  unfold score_pair. rewrite column_score_occ_pretrim, column_score_soc_pretrim.
  reflexivity.
Qed.

(** Stripping the cells of a column, as the pre-trim loop of the detection
    does, changes neither of its scores. *)
Theorem pretrim_keeps_scores (series : list cell) (max_sample : Z) :
  column_score_occ (pretrim series) max_sample = column_score_occ series max_sample
  /\ column_score_soc (pretrim series) max_sample = column_score_soc series max_sample
  /\ score_pair (pretrim series) = score_pair series.
Proof.
  split; [apply column_score_occ_pretrim|].
  split; [apply column_score_soc_pretrim|apply score_pair_pretrim].
Qed.

(** ** Blank rows and the detection *)

Lemma score_pair_dropna (s1 s2 : list cell) :
  dropna s1 = dropna s2 -> score_pair s1 = score_pair s2.
Proof.
  intros H. unfold score_pair, column_score_occ, column_score_soc. rewrite H.
  reflexivity.
Qed.

Lemma dropna_column_dropna_all (df : DataFrame) (c : label) :
  dropna (column None (dropna_all df) c) = dropna (column None df c).
Proof.
  unfold column, dropna_all. cbn [columns rows]. unfold DataFrame, cell in *.
  destruct (index_of c (columns df)) as [i|]; [|reflexivity].
  induction (rows df) as [|r rs IH]; simpl; [reflexivity|].
  destruct (forallb (fun c0 => negb (notna c0)) r) eqn:E; simpl.
  - assert (Hn : nth i r None = None).
    { destruct (nth_in_or_default i r None) as [Hin|Hd]; [|exact Hd].
      rewrite forallb_forall in E. specialize (E _ Hin).
      destruct (nth i r None); [discriminate|reflexivity]. }
    rewrite Hn. exact IH.
  - destruct (nth i r None); simpl; rewrite IH; reflexivity.
Qed.

Lemma fold_left_ext {A B : Type} (f g : A -> B -> A) (l : list B) (a : A) :
  (forall x y, f x y = g x y) -> fold_left f l a = fold_left g l a.
Proof.
  intros H. revert a. induction l as [|y l IH]; intros a; simpl; [reflexivity|].
  rewrite H. apply IH.
Qed.

Lemma scores_of_dropna_all (pick : Q * Q -> Q) (df : DataFrame) :
  scores_of pick (dropna_all df) = scores_of pick df.
Proof.
  unfold scores_of. simpl columns. apply fold_left_ext. intros d c.
  rewrite !score_pair_pretrim.
  rewrite (score_pair_dropna _ _ (dropna_column_dropna_all df c)). reflexivity.
Qed.

(** When a sheet keeps at least one row once its blank rows are dropped,
    the detection that [build_crosswalk] validates on the cleaned sheet is
    the detection that the sheet selection ran on the sheet as read: same
    columns, same scores. *)
Theorem detection_ignores_blank_rows (df : DataFrame) (verbose : bool) :
  df_empty (dropna_all df) = false ->
  detect_occ_soc_columns (dropna_all df) verbose = detect_occ_soc_columns df verbose.
Proof.
  intros He.
  assert (He' : df_empty df = false).
  { unfold df_empty, dropna_all in *. simpl in He.
    destruct (rows df) as [|r rs]; [discriminate|].
    destruct (columns df); [|reflexivity].
    match type of He with context [match ?X with _ => _ end] => destruct X end;
    discriminate. }
  unfold detect_occ_soc_columns. rewrite He, He'.
  rewrite !scores_of_dropna_all. reflexivity.
Qed.

Lemma detection_ignores_blank_rows_witness :
  detect_occ_soc_columns
    (dropna_all {| columns := [LStr "Census"; LStr "SOC"];
                   rows := [[None; None]; [Some "0010"; Some "11-1021"]] |}) true
  = detect_occ_soc_columns
      {| columns := [LStr "Census"; LStr "SOC"];
         rows := [[None; None]; [Some "0010"; Some "11-1021"]] |} true.
Proof.
  apply detection_ignores_blank_rows. reflexivity.
Defined.

(** ** [clean_map] of the 2018-xwalk script *)

Lemma match_to_end_lang (r : Re.re) (t : string) :
  Re.match_to_end r t = true
  <-> lang r t \/ exists u, t = (u ++ String newline "")%string /\ lang r u.
Proof.
  unfold Re.match_to_end, Re.opt. rewrite matches_lang. split.
  - intros H. inversion H as [| |? ? s1 s2 H1 H2| | | |]; subst.
    inversion H2 as [| | |? ? ? Hc|? ? ? He| |]; subst.
    + apply lang_chr in Hc. subst. right. exists s1. auto.
    + inversion He; subst. left. rewrite append_empty_r. exact H1.
  - intros [H|(u & -> & H)].
    + rewrite <- (append_empty_r t). constructor; [exact H|].
      apply lang_alt_r. constructor.
    + constructor; [exact H|]. apply lang_alt_l. apply lang_chr. reflexivity.
Qed.

Lemma str_exists_forall_false (p q : ascii -> bool) (s : string) :
  (forall c, p c = true -> q c = false) ->
  str_forall p s = true -> str_exists q s = false.
Proof.
  intros Hpq. induction s as [|c s IH]; simpl; [reflexivity|].
  intros H. apply andb_true_iff in H as [Hc Hs].
  rewrite (Hpq c Hc), (IH Hs). reflexivity.
Qed.

(** On a text without a newline, [^r$] under [match] is a full match. *)
Lemma match_to_end_no_newline (r : Re.re) (t : string) :
  str_exists (Ascii.eqb newline) t = false ->
  Re.match_to_end r t = Re.matches r t.
Proof.
  intros Hn. apply Bool.eq_iff_eq_true. rewrite match_to_end_lang, matches_lang.
  split; [|auto]. intros [H|(u & -> & _)]; [exact H|].
  rewrite str_exists_app in Hn. cbn [str_exists] in Hn.
  rewrite Ascii.eqb_refl, orb_true_r in Hn. discriminate.
Qed.

Lemma str_forall_filter (p : ascii -> bool) (s : string) :
  str_forall p (str_filter p s) = true.
Proof.
  induction s as [|c s IH]; simpl; [reflexivity|].
  destruct (p c) eqn:E; [simpl; rewrite E; exact IH|exact IH].
Qed.

Lemma str_forall_drop (p : ascii -> bool) (n : nat) (s : string) :
  str_forall p s = true -> str_forall p (drop n s) = true.
Proof.
  revert s. induction n as [|n IH]; intros [|c s]; simpl; auto.
  intros H. apply andb_true_iff in H as [_ H]. apply IH, H.
Qed.

Lemma str_forall_take (p : ascii -> bool) (n : nat) (s : string) :
  str_forall p s = true -> str_forall p (take n s) = true.
Proof.
  revert s. induction n as [|n IH]; intros [|c s]; simpl; auto.
  intros H. apply andb_true_iff in H as [Hc H]. rewrite Hc. apply IH, H.
Qed.

Lemma str_forall_zeros (n : nat) : str_forall is_digit (zeros n) = true.
Proof. induction n as [|n IH]; simpl; [reflexivity|exact IH]. Qed.

Lemma length_zeros (n : nat) : String.length (zeros n) = n.
Proof. induction n as [|n IH]; simpl; [reflexivity|rewrite IH; reflexivity]. Qed.

Lemma length_drop (n : nat) (s : string) :
  String.length (drop n s) = (String.length s - n)%nat.
Proof.
  revert s. induction n as [|n IH]; intros [|c s]; simpl; try reflexivity.
  apply IH.
Qed.

(** Whatever the cell, its cleaned OCC is four digits: [zfill] pads what
    [[-4:]] leaves of the digits. *)
Lemma clean_occ_code (v : string) : is_occ_code (clean_occ v) = true.
Proof.
  unfold is_occ_code, clean_occ, zfill, Xwalk2018.last4, Xwalk2018.digits_only.
  set (ds := str_filter is_digit (strip v)).
  assert (Hd : str_forall is_digit (drop (String.length ds - 4) ds) = true).
  { apply str_forall_drop, str_forall_filter. }
  set (t := drop (String.length ds - 4) ds) in *.
  assert (Hl : (String.length t <= 4)%nat).
  { unfold t. rewrite length_drop. lia. }
  rewrite length_app_str, length_zeros, str_forall_app, str_forall_zeros, Hd.
  rewrite andb_true_r. apply Nat.eqb_eq. lia.
Qed.

Lemma str_filter_none (p : ascii -> bool) (s : string) :
  str_exists p s = false -> str_filter p s = EmptyString.
Proof.
  induction s as [|c s IH]; simpl; [reflexivity|].
  intros H. apply orb_false_iff in H as [Hc Hs]. rewrite Hc. apply IH, Hs.
Qed.

(** A cell without any digit, a blank one read as ["nan"] included, cleans
    to the OCC code [0000]. *)
Lemma clean_occ_no_digit (v : string) :
  str_exists is_digit v = false -> clean_occ v = "0000".
Proof.
  intros H. unfold clean_occ, Xwalk2018.digits_only.
  rewrite str_filter_none; [reflexivity|].
  unfold strip. apply str_exists_trim, H.
Qed.

Lemma occ_out_shape (o : string) : Re.matches Xwalk2018.OCC_OUT o = is_occ_code o.
Proof.
  apply Bool.eq_iff_eq_true. unfold Xwalk2018.OCC_OUT, Re.d, is_occ_code.
  rewrite matches_lang, lang_rep_cls, andb_true_iff, Nat.eqb_eq. reflexivity.
Qed.

Lemma digit_not_newline (c : ascii) :
  is_digit c = true -> Ascii.eqb newline c = false.
Proof.
  intros H. destruct (Ascii.eqb newline c) eqn:E; [|reflexivity].
  apply Ascii.eqb_eq in E. subst. discriminate.
Qed.

Lemma occ_out_clean (v : string) :
  Re.match_to_end Xwalk2018.OCC_OUT (clean_occ v) = true.
Proof.
  pose proof (clean_occ_code v) as H.
  rewrite match_to_end_no_newline, occ_out_shape; [exact H|].
  unfold is_occ_code in H. apply andb_true_iff in H as [_ H].
  eapply str_exists_forall_false; [|exact H]. apply digit_not_newline.
Qed.

Lemma clean_soc_no_newline (w : string) :
  str_exists (Ascii.eqb newline) (clean_soc w) = false.
Proof.
  unfold clean_soc, Xwalk2018.digits_only. cbv zeta.
  set (soc6 := take 6 (str_filter is_digit (strip w))).
  assert (H6 : str_forall is_digit soc6 = true).
  { apply str_forall_take, str_forall_filter. }
  rewrite !str_exists_app.
  rewrite (str_exists_forall_false is_digit _ (take 2 soc6) digit_not_newline)
    by (apply str_forall_take, H6).
  rewrite (str_exists_forall_false is_digit _ (drop 2 soc6) digit_not_newline)
    by (apply str_forall_drop, H6).
  reflexivity.
Qed.

Lemma soc_out_clean (w : string) :
  Re.match_to_end Xwalk2018.SOC_OUT (clean_soc w) = is_soc_code (clean_soc w).
Proof.
  rewrite match_to_end_no_newline by apply clean_soc_no_newline.
  exact (soc_single_shape (clean_soc w)).
Qed.

Lemma In_combine_nth {A B : Type} (l1 : list A) (l2 : list B) (a : A) (b : B) :
  In (a, b) (combine l1 l2)
  <-> exists i, nth_error l1 i = Some a /\ nth_error l2 i = Some b.
Proof.
  revert l2. induction l1 as [|x l1 IH]; intros [|y l2]; simpl.
  - split; [intros []|]. intros ([|i] & H & _); discriminate.
  - split; [intros []|]. intros ([|i] & H & _); discriminate.
  - split; [intros []|]. intros ([|i] & _ & H); discriminate.
  - rewrite IH. split.
    + intros [H|(i & H1 & H2)].
      * inversion H; subst. exists O. auto.
      * exists (S i). auto.
    + intros ([|i] & H1 & H2); simpl in *.
      * left. congruence.
      * right. exists i. auto.
Qed.

(** The rows that [clean_map] de-duplicates and sorts: row by row, the
    cleaned OCC cell with the cleaned SOC cell, kept when the latter is a
    code.  The OCC filter never removes a row. *)
Lemma clean_candidates_In (df : DataFrame) (occ_col soc_col : label) (o s : string) :
  In (o, s) (clean_candidates df occ_col soc_col)
  <-> exists i v w,
        nth_error (Xwalk2018.col_str df occ_col) i = Some v
        /\ nth_error (Xwalk2018.col_str df soc_col) i = Some w
        /\ o = clean_occ v /\ s = clean_soc w /\ is_soc_code s = true.
Proof.
  unfold clean_candidates. cbv zeta. rewrite !map_map.
  fold clean_occ. change (fun x : string => _) with clean_soc at 1.
  rewrite !filter_In, In_combine_nth. cbn [fst snd]. split.
  - intros [[(i & Ho & Hs) _] Hm].
    rewrite nth_error_map in Ho, Hs.
    destruct (nth_error (Xwalk2018.col_str df occ_col) i) as [v|] eqn:Ev; [|discriminate].
    destruct (nth_error (Xwalk2018.col_str df soc_col) i) as [w|] eqn:Ew; [|discriminate].
    simpl in Ho, Hs. inversion Ho; inversion Hs; subst.
    exists i, v, w. rewrite soc_out_clean in Hm. auto.
  - intros (i & v & w & Hv & Hw & -> & -> & Hc). split; [split|].
    + exists i. rewrite !nth_error_map, Hv, Hw. auto.
    + apply occ_out_clean.
    + rewrite soc_out_clean. exact Hc.
Qed.

Lemma clean_map_In_candidates (df : DataFrame) (occ_col soc_col : label)
    (r : string * string) :
  In r (Xwalk2018.clean_map df occ_col soc_col) ->
  In r (clean_candidates df occ_col soc_col).
Proof.
  intros H.
  change (Xwalk2018.clean_map df occ_col soc_col)
    with (drop_dups String.eqb fst []
            (sort_values Xwalk2018.pair_leb
               (drop_dups pair_eqb (fun r => r) []
                  (clean_candidates df occ_col soc_col)))) in H.
  eapply subseq_In in H; [|apply subseq_drop_dups].
  apply sort_values_In in H.
  eapply subseq_In in H; [|apply subseq_drop_dups]. exact H.
Qed.

(** A candidate row is in the sorted list that the last [drop_duplicates]
    reads. *)
Lemma clean_sorted_In (df : DataFrame) (occ_col soc_col : label)
    (r : string * string) :
  In r (clean_candidates df occ_col soc_col) ->
  In r (sort_values Xwalk2018.pair_leb
          (drop_dups pair_eqb (fun r => r) []
             (clean_candidates df occ_col soc_col))).
Proof.
  intros H. apply sort_values_In.
  destruct (drop_dups_keeps pair_eqb (fun r => r) pair_eqb_eq r _ [] H)
    as (y & Hy & Hk); [simpl; tauto|].
  simpl in Hk. subst y. exact Hy.
Qed.

Lemma clean_map_complete (df : DataFrame) (occ_col soc_col : label) (o s' : string) :
  In (o, s') (clean_candidates df occ_col soc_col) ->
  exists s, In (o, s) (Xwalk2018.clean_map df occ_col soc_col).
Proof.
  intros H. apply clean_sorted_In in H.
  destruct (drop_dups_keeps String.eqb fst String.eqb_eq _ _ [] H)
    as ([o' s] & Hy & Hk); [simpl; tauto|].
  simpl in Hk. subst o'. exists s. exact Hy.
Qed.

Lemma clean_map_least (df : DataFrame) (occ_col soc_col : label) (o s s' : string) :
  In (o, s) (Xwalk2018.clean_map df occ_col soc_col) ->
  In (o, s') (clean_candidates df occ_col soc_col) ->
  str_leb s s' = true.
Proof.
  intros H H'. apply clean_sorted_In in H'.
  change (Xwalk2018.clean_map df occ_col soc_col)
    with (drop_dups String.eqb fst []
            (sort_values Xwalk2018.pair_leb
               (drop_dups pair_eqb (fun r => r) []
                  (clean_candidates df occ_col soc_col)))) in H.
  set (L := sort_values Xwalk2018.pair_leb
              (drop_dups pair_eqb (fun r => r) []
                 (clean_candidates df occ_col soc_col))) in *.
  destruct (drop_dups_first String.eqb fst String.eqb_eq (o, s) L [] H)
    as (pre & post & HL & Hpre).
  assert (Hsorted : StronglySorted (fun a b => Xwalk2018.pair_leb a b = true)
                      ((o, s) :: post)).
  { eapply StronglySorted_subseq; [apply (subseq_app_r pre)|].
    rewrite <- HL. apply sort_values_sorted;
      [apply pair_leb_total|apply pair_leb_trans]. }
  rewrite HL in H'. apply in_app_or in H' as [Hy|[Hy|Hy]].
  - exfalso. apply Hpre. apply in_map_iff. exists (o, s'). auto.
  - inversion Hy; subst. apply str_leb_iff. right. reflexivity.
  - apply StronglySorted_inv in Hsorted as [_ Hall].
    rewrite Forall_forall in Hall. apply Hall in Hy.
    apply pair_leb_iff in Hy as [Hlt|[_ Hy]]; [|exact Hy].
    simpl in Hlt. rewrite str_compare_refl in Hlt. discriminate.
Qed.

(** Every row that [clean_map] returns is a canonical pair: an OCC of four
    digits and a SOC of two digits, a hyphen and four digits.  The patterns
    of its two filters end in [$], which also holds before a final newline;
    the cleaned texts hold none. *)
Theorem clean_map_rows_canonical (df : DataFrame) (occ_col soc_col : label)
    (o s : string) :
  In (o, s) (Xwalk2018.clean_map df occ_col soc_col) ->
  is_occ_code o = true /\ is_soc_code s = true.
Proof.
  intros H.
  apply clean_map_In_candidates, clean_candidates_In in H
    as (i & v & w & _ & _ & -> & -> & Hc).
  split; [apply clean_occ_code|exact Hc].
Qed.

Lemma clean_map_rows_canonical_witness :
  is_occ_code "0010" = true /\ is_soc_code "11-1011" = true.
Proof.
  apply (clean_map_rows_canonical xwalk_sheet (LStr "2018 Census Code") (LStr "SOC")).
  vm_compute. auto.
Defined.

(** [clean_map] returns one row for every OCC of its candidate rows, and
    the SOC it keeps for an OCC is the smallest of that OCC's candidate
    codes in the order of [str]: the rows are sorted by [(occ, soc)] before
    the first row of each OCC is kept. *)
Theorem clean_map_keeps_least_soc (df : DataFrame) (occ_col soc_col : label) :
  NoDup (map fst (Xwalk2018.clean_map df occ_col soc_col))
  /\ (forall o s, In (o, s) (Xwalk2018.clean_map df occ_col soc_col) ->
        In (o, s) (clean_candidates df occ_col soc_col)
        /\ forall s', In (o, s') (clean_candidates df occ_col soc_col) ->
             str_leb s s' = true)
  /\ (forall o s', In (o, s') (clean_candidates df occ_col soc_col) ->
        exists s, In (o, s) (Xwalk2018.clean_map df occ_col soc_col)).
Proof.
  split; [|split].
  - apply (drop_dups_NoDup String.eqb fst String.eqb_eq).
  - intros o s H. split; [apply clean_map_In_candidates, H|].
    intros s'. apply clean_map_least, H.
  - apply clean_map_complete.
Qed.

Lemma clean_map_keeps_least_soc_witness :
  In ("0010", "11-1011") (clean_candidates xwalk_sheet (LStr "2018 Census Code") (LStr "SOC"))
  /\ str_leb "11-1011" "11-1021" = true.
Proof.
  destruct (clean_map_keeps_least_soc xwalk_sheet (LStr "2018 Census Code") (LStr "SOC"))
    as (_ & H & _).
  destruct (H "0010" "11-1011") as [Hin Hleast]; [vm_compute; auto|].
  split; [exact Hin|]. apply Hleast. vm_compute. auto.
Defined.

(** A row whose OCC cell holds no digit at all, a blank cell included, is
    not dropped: when its SOC cell cleans to a code, the table has a row
    for the OCC [0000], with that code or a smaller one. *)
Theorem clean_map_digitless_occ (df : DataFrame) (occ_col soc_col : label)
    (i : nat) (v w : string) :
  nth_error (Xwalk2018.col_str df occ_col) i = Some v ->
  nth_error (Xwalk2018.col_str df soc_col) i = Some w ->
  str_exists is_digit v = false ->
  is_soc_code (clean_soc w) = true ->
  exists s, In ("0000", s) (Xwalk2018.clean_map df occ_col soc_col)
            /\ str_leb s (clean_soc w) = true.
Proof.
  intros Hv Hw Hd Hc.
  assert (Hin : In ("0000", clean_soc w) (clean_candidates df occ_col soc_col)).
  { apply clean_candidates_In. exists i, v, w.
    rewrite (clean_occ_no_digit v Hd). auto. }
  destruct (clean_map_complete _ _ _ _ _ Hin) as [s Hs].
  exists s. split; [exact Hs|]. eapply clean_map_least; eassumption.
Qed.

Lemma clean_map_digitless_occ_witness :
  exists s, In ("0000", s) (Xwalk2018.clean_map xwalk_sheet (LStr "2018 Census Code") (LStr "SOC"))
            /\ str_leb s (clean_soc "11.3031") = true.
Proof.
  apply (clean_map_digitless_occ xwalk_sheet (LStr "2018 Census Code") (LStr "SOC")
           1%nat "nan" "11.3031"); reflexivity.
Defined.

(** ** The scan of the 2018-xwalk script and how its [main] ends *)






(** ** [score_columns] of the 2018-xwalk script *)

Lemma count_le_count {A : Type} (p q : A -> bool) (l : list A) :
  (forall x, p x = true -> q x = true) -> (count p l <= count q l)%nat.
Proof.
  intros Hpq. unfold count. induction l as [|x l IH]; simpl; [lia|].
  destruct (p x) eqn:E.
  - rewrite (Hpq x E). simpl. lia.
  - destruct (q x); simpl; lia.
Qed.

Lemma share_bounds (p : string -> bool) (col : list string) :
  p "nan" = false -> Xwalk2018.tot_of col <> O ->
  (0 <= Xwalk2018.share p col (Xwalk2018.tot_of col) <= 1)%Q.
Proof.
  intros Hnan Htot. unfold Xwalk2018.share, Qle. simpl.
  rewrite pos_of_nat_Z by lia.
  assert (H : (count p col <= Xwalk2018.tot_of col)%nat).
  { apply count_le_count. intros x Hx.
    destruct (String.eqb x "nan") eqn:E; [|reflexivity].
    apply String.eqb_eq in E. subst. congruence. }
  lia.
Qed.

Lemma hinted_bounds (sh h : Q) :
  (0 <= sh <= 1)%Q -> (h = 0 \/ h = 2 # 100)%Q ->
  (0 <= sh + h)%Q /\ (sh + h <= 102 # 100)%Q.
Proof.
  intros [H0 H1] Hh.
  assert (Hh' : (0 <= h)%Q /\ (h <= 2 # 100)%Q).
  { destruct Hh as [->| ->]; split; unfold Qle; simpl; lia. }
  destruct Hh' as [Hh0 Hh1]. split.
  - apply (Qplus_le_compat 0 sh 0 h); assumption.
  - apply (Qle_trans _ (1 + (2 # 100))); [apply Qplus_le_compat; assumption|].
    unfold Qle. simpl. lia.
Qed.

Lemma occ_score_bounds (df : DataFrame) (c : label) :
  Xwalk2018.tot_of (Xwalk2018.col_str df c) <> O ->
  let sc := (Xwalk2018.share (Re.match_to_end Xwalk2018.OCC_VAL) (Xwalk2018.col_str df c)
               (Xwalk2018.tot_of (Xwalk2018.col_str df c)) + Xwalk2018.occ_hint c)%Q in
  (0 <= sc)%Q /\ (sc <= 102 # 100)%Q.
Proof.
  intros Htot. apply hinted_bounds.
  - apply share_bounds; [vm_compute; reflexivity|exact Htot].
  - unfold Xwalk2018.occ_hint. cbv zeta.
    destruct (existsb _ _); [right|left]; reflexivity.
Qed.

Lemma soc_score_bounds (df : DataFrame) (c : label) :
  Xwalk2018.tot_of (Xwalk2018.col_str df c) <> O ->
  let sc := (Xwalk2018.share Xwalk2018.is_soc_val (Xwalk2018.col_str df c)
               (Xwalk2018.tot_of (Xwalk2018.col_str df c)) + Xwalk2018.soc_hint c)%Q in
  (0 <= sc)%Q /\ (sc <= 102 # 100)%Q.
Proof.
  intros Htot. apply hinted_bounds.
  - apply share_bounds; [vm_compute; reflexivity|exact Htot].
  - unfold Xwalk2018.soc_hint.
    destruct (contains _ _); [right|left]; reflexivity.
Qed.

(** One comparison of a loop of [score_columns]: the candidate replaces a
    best that is absent, and the result is never absent. *)
Lemma best_update (df : DataFrame) (best : option label) (bsc : Q) (c : label) (sc : Q) :
  best_ok df best bsc -> scorable df c -> (0 <= sc)%Q -> (sc <= 102 # 100)%Q ->
  let r := if Qltb bsc sc then (Some c, sc) else (best, bsc) in
  best_ok df (fst r) (snd r)
  /\ fst r <> None
  /\ (fst r = Some c \/ fst r = best).
Proof.
  intros Hb Hc H0 H1. cbv zeta. destruct (Qltb bsc sc) eqn:E; simpl.
  - split; [auto|]. split; [discriminate|auto].
  - split; [exact Hb|]. split; [|auto].
    destruct best as [b|]; [discriminate|]. simpl in Hb. subst bsc.
    apply Qltb_ge in E. exfalso.
    assert (H : (0 <= -1)%Q) by (eapply Qle_trans; eassumption).
    unfold Qle in H. simpl in H. lia.
Qed.

Lemma first_step_spec (df : DataFrame) (c : label)
    (bo : option label) (bosc : Q) (bs : option label) (bssc : Q) :
  In c (columns df) ->
  best_ok df bo bosc -> best_ok df bs bssc -> (bo = None <-> bs = None) ->
  let st := Xwalk2018.first_step df (bo, bosc, bs, bssc) c in
  best_ok df (fst (fst (fst st))) (snd (fst (fst st)))
  /\ best_ok df (snd (fst st)) (snd st)
  /\ (fst (fst (fst st)) = None <-> snd (fst st) = None)
  /\ (fst (fst (fst st)) = None
      <-> bo = None /\ Xwalk2018.tot_of (Xwalk2018.col_str df c) = O).
Proof.
  intros Hin Hbo Hbs Hiff. cbv zeta. unfold Xwalk2018.first_step.
  destruct (Nat.eqb (Xwalk2018.tot_of (Xwalk2018.col_str df c)) 0) eqn:Et.
  - apply Nat.eqb_eq in Et. simpl. tauto.
  - apply Nat.eqb_neq in Et. cbv zeta.
    assert (Hsc : scorable df c) by (split; assumption).
    destruct (occ_score_bounds df c Et) as [Ho0 Ho1].
    destruct (soc_score_bounds df c Et) as [Hs0 Hs1].
    destruct (best_update df bo bosc c _ Hbo Hsc Ho0 Ho1) as (Ha & Hb & _).
    destruct (best_update df bs bssc c _ Hbs Hsc Hs0 Hs1) as (Ha' & Hb' & _).
    cbv zeta in Ha, Hb, Ha', Hb'.
    destruct (Qltb bosc _); destruct (Qltb bssc _); simpl in *;
      (split; [assumption|]); (split; [assumption|]);
      (split; [split; intros H; congruence|]);
      split; try congruence; intros [_ H]; congruence.
Qed.

Lemma first_fold_spec (df : DataFrame) (cs : list label)
    (bo : option label) (bosc : Q) (bs : option label) (bssc : Q) :
  (forall c, In c cs -> In c (columns df)) ->
  best_ok df bo bosc -> best_ok df bs bssc -> (bo = None <-> bs = None) ->
  let st := fold_left (Xwalk2018.first_step df) cs (bo, bosc, bs, bssc) in
  best_ok df (fst (fst (fst st))) (snd (fst (fst st)))
  /\ best_ok df (snd (fst st)) (snd st)
  /\ (fst (fst (fst st)) = None <-> snd (fst st) = None)
  /\ (fst (fst (fst st)) = None
      <-> bo = None
          /\ forall c, In c cs -> Xwalk2018.tot_of (Xwalk2018.col_str df c) = O).
Proof.
  revert bo bosc bs bssc. induction cs as [|c cs IH]; intros bo bosc bs bssc Hcs Hbo Hbs Hiff.
  - simpl. split; [exact Hbo|]. split; [exact Hbs|]. split; [exact Hiff|].
    split; [intros H; split; [exact H|intros ? []]|tauto].
  - cbn [fold_left].
    destruct (first_step_spec df c bo bosc bs bssc (Hcs c (or_introl eq_refl)) Hbo Hbs Hiff)
      as (H1 & H2 & H3 & H4).
    cbv zeta in H1, H2, H3, H4.
    destruct (Xwalk2018.first_step df (bo, bosc, bs, bssc) c) as [[[bo' bosc'] bs'] bssc'].
    simpl in H1, H2, H3, H4.
    destruct (IH bo' bosc' bs' bssc' (fun x Hx => Hcs x (or_intror Hx)) H1 H2 H3)
      as (G1 & G2 & G3 & G4).
    cbv zeta in G1, G2, G3, G4. cbv zeta.
    split; [exact G1|]. split; [exact G2|]. split; [exact G3|].
    rewrite G4, H4. split.
    + intros [[Hn Ht] Hall]. split; [exact Hn|].
      intros x [<-|Hx]; [exact Ht|apply Hall, Hx].
    + intros [Hn Hall]. split; [split; [exact Hn|apply Hall; left; reflexivity]|].
      intros x Hx. apply Hall. right. exact Hx.
Qed.

Lemma opt_label_eqb_eq (a b : option label) :
  Xwalk2018.opt_label_eqb a b = true <-> a = b.
Proof.
  destruct a as [x|], b as [y|]; simpl; try (split; [discriminate|congruence]).
  - rewrite label_eqb_eq. split; congruence.
  - tauto.
Qed.

Lemma second_fold_spec (df : DataFrame) (best_occ : option label) (cs : list label)
    (b : option label) (bsc : Q) :
  (forall c, In c cs -> In c (columns df)) ->
  best_ok df b bsc -> b <> best_occ \/ b = None ->
  let st := fold_left (Xwalk2018.second_step df best_occ) cs (b, bsc) in
  best_ok df (fst st) (snd st)
  /\ (fst st <> best_occ \/ fst st = None)
  /\ (fst st = None
      <-> b = None
          /\ forall c, In c cs ->
               Some c = best_occ \/ Xwalk2018.tot_of (Xwalk2018.col_str df c) = O).
Proof.
  revert b bsc. induction cs as [|c cs IH]; intros b bsc Hcs Hb Hne.
  - simpl. split; [exact Hb|]. split; [exact Hne|].
    split; [intros H; split; [exact H|intros ? []]|tauto].
  - cbn [fold_left].
    set (sc := (Xwalk2018.share Xwalk2018.is_soc_val (Xwalk2018.col_str df c)
                  (Xwalk2018.tot_of (Xwalk2018.col_str df c))
                + Xwalk2018.soc_hint c)%Q).
    assert (Hkeep : Xwalk2018.second_step df best_occ (b, bsc) c = (b, bsc) ->
              (b = None ->
               Some c = best_occ \/ Xwalk2018.tot_of (Xwalk2018.col_str df c) = O) ->
              let st := fold_left (Xwalk2018.second_step df best_occ) cs
                          (Xwalk2018.second_step df best_occ (b, bsc) c) in
              best_ok df (fst st) (snd st)
              /\ (fst st <> best_occ \/ fst st = None)
              /\ (fst st = None
                  <-> b = None
                      /\ forall x, In x (c :: cs) ->
                           Some x = best_occ
                           \/ Xwalk2018.tot_of (Xwalk2018.col_str df x) = O)).
    { intros Hst Hc. rewrite Hst.
      destruct (IH b bsc (fun x Hx => Hcs x (or_intror Hx)) Hb Hne) as (G1 & G2 & G3).
      cbv zeta in G1, G2, G3. cbv zeta.
      split; [exact G1|]. split; [exact G2|]. rewrite G3. split.
      - intros [Hn Hall]. split; [exact Hn|].
        intros x [<-|Hx]; [apply Hc, Hn|apply Hall, Hx].
      - intros [Hn Hall]. split; [exact Hn|]. intros x Hx. apply Hall. right. exact Hx. }
    destruct (Xwalk2018.opt_label_eqb (Some c) best_occ) eqn:Eo.
    { apply Hkeep.
      - unfold Xwalk2018.second_step. rewrite Eo. reflexivity.
      - intros _. left. apply opt_label_eqb_eq, Eo. }
    assert (Eo' : Some c <> best_occ).
    { intros H. apply opt_label_eqb_eq in H. congruence. }
    destruct (Nat.eqb (Xwalk2018.tot_of (Xwalk2018.col_str df c)) 0) eqn:Et.
    { apply Hkeep.
      - unfold Xwalk2018.second_step. rewrite Eo. cbv zeta. rewrite Et. reflexivity.
      - intros _. right. apply Nat.eqb_eq, Et. }
    pose proof Et as Et'. apply Nat.eqb_neq in Et'.
    assert (Hsc : scorable df c) by (split; [apply Hcs; left; reflexivity|exact Et']).
    destruct (soc_score_bounds df c Et') as [Hs0 Hs1]. fold sc in Hs0, Hs1.
    destruct (best_update df b bsc c sc Hb Hsc Hs0 Hs1) as (Ha & Hnn & Hor).
    cbv zeta in Ha, Hnn, Hor.
    destruct (Qltb bsc sc) eqn:Eq.
    + assert (Hst : Xwalk2018.second_step df best_occ (b, bsc) c = (Some c, sc)).
      { unfold Xwalk2018.second_step. rewrite Eo. cbv zeta. rewrite Et.
        cbn [snd]. fold sc. rewrite Eq. reflexivity. }
      rewrite Hst. simpl in Ha.
      destruct (IH (Some c) sc (fun x Hx => Hcs x (or_intror Hx)) Ha (or_introl Eo'))
        as (G1 & G2 & G3).
      cbv zeta in G1, G2, G3. cbv zeta.
      split; [exact G1|]. split; [exact G2|]. rewrite G3. split.
      * intros [Hn _]. discriminate.
      * intros [Hn Hall]. exfalso.
        destruct (Hall c (or_introl eq_refl)) as [H|H]; [exact (Eo' H)|exact (Et' H)].
    + apply Hkeep.
      * unfold Xwalk2018.second_step. rewrite Eo. cbv zeta. rewrite Et.
        cbn [snd]. fold sc. rewrite Eq. reflexivity.
      * intros Hn. simpl in Hnn. contradiction.
Qed.

(** What [score_columns] returns: each column it names is a column of the
    frame with at least one cell other than ["nan"], and its score lies
    between 0 and 1.02 (a share plus the hint 0.02 of the header); without
    a column the score is [-1].  It finds no OCC column exactly when it
    finds no SOC column, exactly when no column has such a cell.  It names
    the same column for both roles only when no other column has such a
    cell. *)
Theorem score_columns_of_frame (df : DataFrame) :
  let best_occ := fst (fst (fst (Xwalk2018.score_columns df))) in
  let best_occ_sc := snd (fst (fst (Xwalk2018.score_columns df))) in
  let best_soc := snd (fst (Xwalk2018.score_columns df)) in
  let best_soc_sc := snd (Xwalk2018.score_columns df) in
  best_ok df best_occ best_occ_sc
  /\ best_ok df best_soc best_soc_sc
  /\ (best_occ = None <-> best_soc = None)
  /\ (best_occ = None <-> forall c, ~ scorable df c)
  /\ (best_occ = best_soc -> forall c, scorable df c -> best_occ = Some c).
Proof.
  cbv zeta. unfold Xwalk2018.score_columns.
  assert (Hinit : best_ok df None (-1)%Q) by reflexivity.
  destruct (first_fold_spec df (columns df) None (-1)%Q None (-1)%Q
              (fun c H => H) Hinit Hinit (conj (fun H => H) (fun H => H)))
    as (H1 & H2 & H3 & H4).
  cbv zeta in H1, H2, H3, H4.
  destruct (fold_left (Xwalk2018.first_step df) (columns df)
              (None, (-1)%Q, None, (-1)%Q)) as [[[bo bosc] bs] bssc].
  simpl in H1, H2, H3, H4.
  assert (Hnone : bo = None <-> forall c, ~ scorable df c).
  { rewrite H4. unfold scorable. split.
    - intros [_ H] c [Hin Ht]. apply Ht, H, Hin.
    - intros H. split; [reflexivity|]. intros c Hin.
      destruct (Xwalk2018.tot_of (Xwalk2018.col_str df c)) eqn:E; [reflexivity|].
      exfalso. apply (H c). split; [exact Hin|]. rewrite E. discriminate. }
  destruct (second_fold_spec df bo (columns df) None (-1)%Q
              (fun c H => H) Hinit (or_intror eq_refl)) as (G1 & G2 & G3).
  cbv zeta in G1, G2, G3.
  destruct (Xwalk2018.opt_label_eqb bo bs) eqn:Eb.
  - apply opt_label_eqb_eq in Eb. subst bs.
    destruct (fold_left (Xwalk2018.second_step df bo) (columns df) (None, (-1)%Q))
      as [[s2|] sc2]; simpl in G1, G2, G3; simpl.
    + split; [exact H1|]. split; [exact G1|].
      assert (Hbo : bo <> None).
      { intros Hn. rewrite Hn in H4. destruct (proj1 H4 eq_refl) as [_ Hall].
        assert (Hf : Some s2 = None); [|discriminate].
        apply G3. split; [reflexivity|]. intros c Hc. right. apply Hall, Hc. }
      split; [split; [intros H; contradiction|discriminate]|].
      split; [exact Hnone|].
      intros Heq. exfalso. destruct G2 as [G2|G2]; [auto|discriminate].
    + split; [exact H1|]. split; [exact H2|]. split; [exact H3|].
      split; [exact Hnone|].
      intros _ c [Hin Ht]. destruct (proj1 G3 eq_refl) as [_ Hall].
      destruct (Hall c Hin) as [H|H]; [auto|contradiction].
  - simpl. split; [exact H1|]. split; [exact H2|]. split; [exact H3|].
    split; [exact Hnone|].
    intros Heq. apply opt_label_eqb_eq in Heq. congruence.
Qed.

Lemma score_columns_of_frame_witness :
  fst (fst (fst (Xwalk2018.score_columns one_column_sheet))) = Some (LStr "A").
Proof.
  destruct (score_columns_of_frame one_column_sheet) as (_ & _ & _ & _ & H).
  apply H; [vm_compute; reflexivity|].
  split; [left; reflexivity|vm_compute; discriminate].
Defined.

(** ** The preferred-code script on arbitrary rows *)

Lemma build_rows_are_pattern_text_witness :
  (String backslash "dddd", String backslash "dd-" ++ String backslash "dddd")
  = (OCC_PATTERN, SOC_PATTERN).
Proof.
  apply (build_rows_are_pattern_text pattern_text_table
           [(OCC_PATTERN, SOC_PATTERN)]).
  - vm_compute. reflexivity.
  - left. reflexivity.
Defined.

Lemma resolve_prefers_witness :
  exists i, nth_error [("0010", "11-0000"); ("0010", "11-9999")] i
            = Some ("0010", "11-9999")
    /\ forall j s', nth_error [("0010", "11-0000"); ("0010", "11-9999")] j
                    = Some ("0010", s') ->
         score s' < score "11-9999" \/ (score s' = score "11-9999" /\ (i <= j)%nat).
Proof.
  apply (resolve_prefers [("0010", "11-0000"); ("0010", "11-9999")] "0010" "11-9999").
  vm_compute. auto.
Defined.

Lemma resolve_one_row_per_occ_witness :
  exists s, In ("0010", s) (resolve [("0010", "11-0000"); ("0010", "11-9999")]).
Proof.
  destruct (resolve_one_row_per_occ [("0010", "11-0000"); ("0010", "11-9999")])
    as [_ H].
  apply (H "0010" "11-0000"). simpl. auto.
Defined.

(** ** The scores of the detection *)

(** Whatever the frame, the two scores that [detect_occ_soc_columns]
    returns lie between 0 and 1, also when it returns no column. *)
Theorem detection_scores_in_unit_interval (df : DataFrame) (verbose : bool) :
  let os := snd (fst (snd (detect_occ_soc_columns df verbose))) in
  let ss := snd (snd (detect_occ_soc_columns df verbose)) in
  (0 <= os <= 1)%Q /\ (0 <= ss <= 1)%Q.
Proof. exact (detect_scores_bounds df verbose). Qed.
